(** * katrain/gui/popups.py: the settings popups

    A shallow embedding of the settings forms of [katrain/gui/popups.py]:
    the labelled input widgets ([LabelledTextInput], [LabelledCheckBox],
    [LabelledSpinner], [LabelledFloatInput], [LabelledIntInput]), the walk
    over the widget tree ([collect_properties], [set_properties]), the path
    resolution in the configuration ([get_setting]) and the three
    [update_config] methods ([QuickConfigGui], [ConfigPopup],
    [ConfigTeacherPopup]), and the one of [ConfigTimerPopup] on top of
    the first.  The builtins [int], [float] and [repr] are those of
    CPython 3.11.

    Python values are dynamically typed, so configuration values are one
    inductive type [pyval]; a Python exception is the [Raise] outcome of a
    computation; mutation of the configuration and the calls made on the
    application object are threaded through a [world] (the store and the
    trace of calls so far). *)

From Stdlib Require Import Strings.String Strings.Ascii Lists.List.
From Stdlib Require Import ZArith QArith Bool Arith Lia.
Import ListNotations.

Close Scope Q_scope.
Open Scope list_scope.
Open Scope string_scope.

(* ================================================================= *)
(** ** Python strings *)

Module Str.

(** A [str] is a [string]; a character is an [ascii].  Only the
    characters below 256 are represented. *)

Definition is_digit (c : ascii) : bool :=
  let n := nat_of_ascii c in (48 <=? n)%nat && (n <=? 57)%nat.

Definition digit_value (c : ascii) : Z := Z.of_nat (nat_of_ascii c - 48).

(** The characters [int()] and [float()] skip on both ends of a [str]:
    tab to carriage return and the space, and above 127 the next-line
    control 133 and the no-break space 160.  (The separators 28..31,
    which [str.strip] takes off, are not among them.) *)
Definition is_space (c : ascii) : bool :=
  let n := nat_of_ascii c in
  ((9 <=? n)%nat && (n <=? 13)%nat)
  || Nat.eqb n 32 || Nat.eqb n 133 || Nat.eqb n 160.

Definition lower (c : ascii) : ascii :=
  let n := nat_of_ascii c in
  if (65 <=? n)%nat && (n <=? 90)%nat then ascii_of_nat (n + 32) else c.

Fixpoint forallb (p : ascii -> bool) (s : string) : bool :=
  match s with
  | EmptyString => true
  | String c r => p c && forallb p r
  end.

Fixpoint existsb (p : ascii -> bool) (s : string) : bool :=
  match s with
  | EmptyString => false
  | String c r => p c || existsb p r
  end.

Fixpoint filter (p : ascii -> bool) (s : string) : string :=
  match s with
  | EmptyString => EmptyString
  | String c r => if p c then String c (filter p r) else filter p r
  end.

Fixpoint count (c : ascii) (s : string) : nat :=
  match s with
  | EmptyString => 0
  | String d r => (if Ascii.eqb c d then 1 else 0) + count c r
  end.

(** [c in s] for a one-character [c]. *)
Definition mem (c : ascii) (s : string) : bool := existsb (Ascii.eqb c) s.

Fixpoint map (f : ascii -> ascii) (s : string) : string :=
  match s with
  | EmptyString => EmptyString
  | String c r => String (f c) (map f r)
  end.

(** [s[:n]] and [s[n:]] for [0 <= n]. *)
Fixpoint take (n : nat) (s : string) : string :=
  match n, s with
  | S m, String c r => String c (take m r)
  | _, _ => EmptyString
  end.

Fixpoint drop (n : nat) (s : string) : string :=
  match n, s with
  | S m, String _ r => drop m r
  | _, _ => s
  end.

(** [s.startswith(p)]. *)
Fixpoint starts_with (p s : string) : bool :=
  match p with
  | EmptyString => true
  | String a p' =>
      match s with
      | EmptyString => false
      | String b s' => Ascii.eqb a b && starts_with p' s'
      end
  end.

(** [needle in hay]. *)
Fixpoint contains (needle hay : string) : bool :=
  starts_with needle hay
  || match hay with
     | EmptyString => false
     | String _ r => contains needle r
     end.

(** [s.split(c, 1)] for a one-character separator: the text before the
    first [c] and, when there is a [c], the text after it. *)
Fixpoint split_once (c : ascii) (s : string) : string * option string :=
  match s with
  | EmptyString => (EmptyString, None)
  | String d r =>
      if Ascii.eqb c d then (EmptyString, Some r)
      else let '(a, b) := split_once c r in (String d a, b)
  end.

(** [s.split(sep)] for a non-empty separator: [skip] counts the
    characters of a separator still to be passed over, [cur] is the
    piece being read. *)
Fixpoint split_from (sep : string) (skip : nat) (cur : string) (s : string)
  : list string :=
  match s with
  | EmptyString => [cur]
  | String c r =>
      match skip with
      | S n => split_from sep n cur r
      | O =>
          if starts_with sep s
          then cur :: split_from sep (String.length sep - 1) EmptyString r
          else split_from sep 0 (cur ++ String c EmptyString) r
      end
  end.

Definition split (sep s : string) : list string :=
  split_from sep 0 EmptyString s.

(** [s] without the blanks in front of it, behind it, and on both
    ends. *)
Fixpoint lstrip (s : string) : string :=
  match s with
  | EmptyString => EmptyString
  | String c r => if is_space c then lstrip r else s
  end.

Fixpoint rstrip (s : string) : string :=
  match s with
  | EmptyString => EmptyString
  | String c r =>
      match rstrip r with
      | EmptyString => if is_space c then EmptyString else String c EmptyString
      | t => String c t
      end
  end.

Definition strip (s : string) : string := rstrip (lstrip s).

(** The text of a natural number, as [str(n)] writes it. *)
Fixpoint digits_of (fuel n : nat) (acc : string) : string :=
  let acc' := String (ascii_of_nat (48 + n mod 10)) acc in
  match fuel with
  | O => acc'
  | S f => if (n <? 10)%nat then acc' else digits_of f (n / 10) acc'
  end.

Definition of_nat (n : nat) : string := digits_of n n EmptyString.

End Str.

(* ================================================================= *)
(** ** Python values, exceptions and dictionaries *)

Set Warnings "-register-all".

(** A [dict] with [str] keys, in insertion order.  Reading finds the first
    entry of a key; storing replaces the value of an entry in place and
    appends a new key at the end, as Python does. *)
Fixpoint assoc {A : Type} (k : string) (d : list (string * A)) : option A :=
  match d with
  | [] => None
  | (k', v) :: r => if String.eqb k k' then Some v else assoc k r
  end.

Fixpoint assoc_set {A : Type} (k : string) (v : A) (d : list (string * A))
  : list (string * A) :=
  match d with
  | [] => [(k, v)]
  | (k', w) :: r =>
      if String.eqb k k' then (k', v) :: r else (k', w) :: assoc_set k v r
  end.

(** [for k, v in e.items(): d[k] = v]. *)
Definition assoc_update {A : Type} (d e : list (string * A))
  : list (string * A) :=
  fold_left (fun acc kv => assoc_set (fst kv) (snd kv) acc) e d.

(** A [float].  A finite double is kept as the rational it is; the
    rounding of a text to a double, and its overflow to an infinity,
    are [to_double] below.  What the popups do with a float is compare
    it, test its truth and build the constants [1.0] and [0.0]; [nan]
    and the infinities are kept apart because comparison treats them
    differently.  The sign of a zero, which no comparison and no test
    of truth sees, is not kept. *)
Inductive pyfloat : Type :=
| FNan
| FInf (negative : bool)
| FFin (q : Q).

Definition float_eqb (x y : pyfloat) : bool :=
  match x, y with
  | FFin p, FFin q => Qeq_bool p q
  | FInf a, FInf b => Bool.eqb a b
  | _, _ => false
  end.

Inductive pyval : Type :=
| VNone
| VBool (b : bool)
| VInt (z : Z)
| VFloat (f : pyfloat)
| VStr (s : string)
| VList (l : list pyval)
| VDict (d : list (string * pyval)).

Definition dict : Type := list (string * pyval).

(** [bool], [int] and [float] compare by their number. *)
Definition num_of (v : pyval) : option pyfloat :=
  match v with
  | VBool b => Some (FFin (if b then 1 else 0)%Q)
  | VInt z => Some (FFin (inject_Z z))
  | VFloat f => Some f
  | _ => None
  end.

(** [a == b].  Lists compare element by element, dictionaries entry by
    entry whatever their order; values of unrelated types are unequal. *)
Fixpoint py_eq (a b : pyval) {struct a} : bool :=
  match a, b with
  | VNone, VNone => true
  | VStr s, VStr t => String.eqb s t
  | VList l, VList m =>
      (fix all2 (l m : list pyval) : bool :=
         match l, m with
         | [], [] => true
         | x :: l', y :: m' => py_eq x y && all2 l' m'
         | _, _ => false
         end) l m
  | VDict d, VDict e =>
      Nat.eqb (List.length d) (List.length e)
      && (fix each (d : list (string * pyval)) : bool :=
            match d with
            | [] => true
            | (k, v) :: d' =>
                match assoc k e with
                | Some w => py_eq v w
                | None => false
                end && each d'
            end) d
  | _, _ =>
      match num_of a, num_of b with
      | Some x, Some y => float_eqb x y
      | _, _ => false
      end
  end.

(** [a != b]. *)
Definition py_ne (a b : pyval) : bool := negb (py_eq a b).

(** The truth value of [v], as [if v] and [bool(v)] take it. *)
Definition py_truthy (v : pyval) : bool :=
  match v with
  | VNone => false
  | VBool b => b
  | VInt z => negb (Z.eqb z 0)
  | VFloat (FFin q) => negb (Qeq_bool q 0)
  | VFloat _ => true
  | VStr s => negb (String.eqb s "")
  | VList l => match l with [] => false | _ => true end
  | VDict d => match d with [] => false | _ => true end
  end.

(** [v is True]. *)
Definition is_True (v : pyval) : bool :=
  match v with
  | VBool true => true
  | _ => false
  end.

Inductive exn : Type :=
| TypeError (msg : string)
| ValueError (msg : string)
| KeyError (msg : string)
| IndexError (msg : string)
| InputParseError (msg : string).

(** [str(e)]. *)
Definition exn_str (e : exn) : string :=
  match e with
  | TypeError m | ValueError m | KeyError m | IndexError m
  | InputParseError m => m
  end.

Inductive outcome (A : Type) : Type :=
| Return (a : A)
| Raise (e : exn).
Arguments Return {A} a.
Arguments Raise {A} e.

(** [repr(s)]: the text between single quotes, or between double quotes
    when it holds a single quote and no double quote.  A backslash, the
    quote in use, and the characters that do not print are escaped. *)
Definition double_quote : ascii := ascii_of_nat 34.

Definition hex_digit (n : nat) : ascii :=
  ascii_of_nat (if (n <? 10)%nat then 48 + n else 87 + n).

Definition printable (c : ascii) : bool :=
  let n := nat_of_ascii c in
  ((32 <=? n)%nat && (n <=? 126)%nat)
  || ((161 <=? n)%nat && negb (Nat.eqb n 173)).

Definition backslash : ascii := ascii_of_nat 92.

Definition repr_char (quote c : ascii) : string :=
  let n := nat_of_ascii c in
  if Ascii.eqb c backslash then String backslash (String backslash "")
  else if Ascii.eqb c quote then String backslash (String quote "")
  else if Nat.eqb n 10 then String backslash "n"
  else if Nat.eqb n 13 then String backslash "r"
  else if Nat.eqb n 9 then String backslash "t"
  else if printable c then String c ""
  else String backslash
         (String "x"
            (String (hex_digit (n / 16)) (String (hex_digit (n mod 16)) ""))).

Fixpoint repr_chars (quote : ascii) (s : string) : string :=
  match s with
  | EmptyString => EmptyString
  | String c r => repr_char quote c ++ repr_chars quote r
  end.

Definition str_repr (s : string) : string :=
  let quote := if Str.mem "'" s && negb (Str.mem double_quote s)
               then double_quote else "'"%char in
  String quote (repr_chars quote s ++ String quote "").

(* ================================================================= *)
(** ** The builtins [int(text)] and [float(text)] *)

Inductive scan : Type := AtStart | AfterDigit | AfterUnderscore.

(** A run of digits in which single underscores may separate digits:
    its value and the number of its digits. *)
Fixpoint digitpart (st : scan) (acc : Z) (n : nat) (s : string)
  : option (Z * nat) :=
  match s with
  | EmptyString =>
      match st with
      | AfterDigit => Some (acc, n)
      | _ => None
      end
  | String c r =>
      if Str.is_digit c
      then digitpart AfterDigit (10 * acc + Str.digit_value c) (S n) r
      else if Ascii.eqb c "_"
           then match st with
                | AfterDigit => digitpart AfterUnderscore acc n r
                | _ => None
                end
           else None
  end.

(** An optional sign in front of [s]. *)
Definition split_sign (s : string) : bool * string :=
  match s with
  | String "-" r => (true, r)
  | String "+" r => (false, r)
  | _ => (false, s)
  end.

(** The digits and underscores in front of [s], and what follows
    them. *)
Fixpoint digit_run (s : string) : string * string :=
  match s with
  | EmptyString => (EmptyString, EmptyString)
  | String c r =>
      if Str.is_digit c || Ascii.eqb c "_"
      then let '(run, rest) := digit_run r in (String c run, rest)
      else (EmptyString, s)
  end.

(** The most digits [int()] reads from a text:
    [sys.int_info.default_max_str_digits]. *)
Definition max_str_digits : nat := 4300.

(** The message shows the first 200 characters of [repr(s)]. *)
Definition invalid_literal (s : string) : exn :=
  ValueError
    ("invalid literal for int() with base 10: " ++ Str.take 200 (str_repr s)).

Definition exceeds_the_limit (digits : nat) : exn :=
  ValueError
    ("Exceeds the limit (" ++ Str.of_nat max_str_digits
     ++ " digits) for integer string conversion: value has "
     ++ Str.of_nat digits
     ++ " digits; use sys.set_int_max_str_digits() to increase the limit").

(** [int(s)] in base 10: blanks, an optional sign, a run of digits of
    which are counted at most [max_str_digits], and blanks.  The count
    is taken when the run has been read, before what follows it is
    looked at. *)
Definition py_int (s : string) : outcome Z :=
  let '(neg, body) := split_sign (Str.lstrip s) in
  let '(run, rest) := digit_run body in
  match digitpart AtStart 0 0 run with
  | Some (n, digits) =>
      if (max_str_digits <? digits)%nat then Raise (exceeds_the_limit digits)
      else if Str.forallb Str.is_space rest
           then Return (if neg then - n else n)%Z
           else Raise (invalid_literal s)
  | None => Raise (invalid_literal s)
  end.

(** The digits after an [e]: an optional sign and a run of digits. *)
Definition exponent (e : option string) : option Z :=
  match e with
  | None => Some 0%Z
  | Some t =>
      let '(neg, body) := split_sign t in
      match digitpart AtStart 0 0 body with
      | Some (n, _) => Some (if neg then - n else n)%Z
      | None => None
      end
  end.

(** [m * 10 ^ e] as a rational. *)
Definition scale10 (m e : Z) : Q :=
  if (0 <=? e)%Z then inject_Z (m * 10 ^ e)
  else Qmake m (Z.to_pos (10 ^ (- e))).

(** The number a decimal literal denotes: digits, an optional point with
    digits on at least one side of it, an optional exponent. *)
Definition decimal_literal (s : string) : option Q :=
  let '(mant, ex) := Str.split_once "e" s in
  let '(ip, fp) := Str.split_once "." mant in
  let ipv := match ip with
             | EmptyString => Some (0%Z, 0%nat)
             | _ => digitpart AtStart 0 0 ip
             end in
  let fpv := match fp with
             | None | Some EmptyString => Some (0%Z, 0%nat)
             | Some f => digitpart AtStart 0 0 f
             end in
  match ipv, fpv, exponent ex with
  | Some (i, ni), Some (f, nf), Some e =>
      if ((ni + nf)%nat =? 0)%nat then None
      else Some (scale10 (i * 10 ^ Z.of_nat nf + f) (e - Z.of_nat nf))
  | _, _, _ => None
  end.

(** The exponent [e] with [2 ^ e <= n / d < 2 ^ (e + 1)], for positive
    [n] and [d]. *)
Definition binary_exponent (n d : Z) : Z :=
  let e0 := (Z.log2 n - Z.log2 d)%Z in
  let below := if (0 <=? e0)%Z then (n <? d * 2 ^ e0)%Z
               else (n * 2 ^ (- e0) <? d)%Z in
  if below then (e0 - 1)%Z else e0.

(** [N / D] rounded to the nearest integer, a tie going to the even
    one. *)
Definition round_half_even (N D : Z) : Z :=
  let m0 := (N / D)%Z in
  let r := (N mod D)%Z in
  if (2 * r <? D)%Z then m0
  else if (D <? 2 * r)%Z then (m0 + 1)%Z
  else if Z.even m0 then m0 else (m0 + 1)%Z.

(** The double nearest to the rational [q], a tie going to the even
    mantissa: 53 bits of mantissa down to the exponent -1022, fewer
    below it, and an infinity from [2 ^ 1024] on.  [u] is the exponent
    of the unit in the last place and [m] the mantissa. *)
Definition to_double (q : Q) : pyfloat :=
  let n := Z.abs (Qnum q) in
  let d := Z.pos (Qden q) in
  if (n =? 0)%Z then FFin 0
  else
    let u := (Z.max (binary_exponent n d) (-1022) - 52)%Z in
    let negative := (Qnum q <? 0)%Z in
    if (0 <=? u)%Z
    then let m := round_half_even n (d * 2 ^ u) in
         if (2 ^ 1024 <=? m * 2 ^ u)%Z then FInf negative
         else FFin (inject_Z ((if negative then - m else m) * 2 ^ u))
    else let m := round_half_even (n * 2 ^ (- u)) d in
         FFin (Qred (Qmake (if negative then - m else m)
                       (Z.to_pos (2 ^ (- u))))).

(** The float a text denotes once the blanks around it and its sign are
    taken off: an infinity, [nan], or the double nearest to a decimal
    literal, in either case of letters. *)
Definition float_of_body (neg : bool) (body : string) : option pyfloat :=
  let low := Str.map Str.lower body in
  if String.eqb low "inf" || String.eqb low "infinity" then Some (FInf neg)
  else if String.eqb low "nan" then Some FNan
  else match decimal_literal low with
       | Some q => Some (to_double (if neg then Qopp q else q))
       | None => None
       end.

(** [float(s)]. *)
Definition py_float (s : string) : outcome pyfloat :=
  let '(neg, body) := split_sign (Str.strip s) in
  match float_of_body neg body with
  | Some f => Return f
  | None =>
      Raise (ValueError ("could not convert string to float: " ++ str_repr s))
  end.

(* ================================================================= *)
(** ** The input widgets *)

(** [TextInput.insert_text] of the toolkit on a one-line field: the
    substring goes in at the cursor. *)
Definition text_insert (text : string) (cursor : nat) (s : string) : string :=
  Str.take cursor text ++ s ++ Str.drop cursor text.

Definition is_minus (c : ascii) : bool := Ascii.eqb c "-".

(** What [re.sub("[^0-9-]", "", s)] keeps. *)
Definition float_pat_keeps (c : ascii) : bool := Str.is_digit c || is_minus c.

(** [s.replace("-", "")]. *)
Definition remove_minus (s : string) : string :=
  Str.filter (fun c => negb (is_minus c)) s.

(** The [s] that [LabelledFloatInput.insert_text] hands on to the
    toolkit for the [substring] typed into [text]. *)
Definition float_filtered (text substring : string) : string :=
  if Str.mem "." text then Str.filter float_pat_keeps substring
  else match Str.split_once "." substring with
       | (a, None) => Str.filter float_pat_keeps a
       | (a, Some b) =>
           Str.filter float_pat_keeps a ++ "." ++ Str.filter float_pat_keeps b
       end.

(** [LabelledFloatInput.insert_text]: the new [self.text]. *)
Definition float_insert_text
  (signed : bool) (text : string) (cursor : nat) (substring : string)
  : string :=
  let text1 := text_insert text cursor (float_filtered text substring) in
  if negb signed && Str.mem "-" text1 then remove_minus text1
  else match text1 with
       | String c r => if Str.mem "-" r then String c (remove_minus r) else text1
       | EmptyString => text1
       end.

(** [LabelledIntInput.insert_text]: the new [self.text]. *)
Definition int_insert_text (text : string) (cursor : nat) (substring : string)
  : string :=
  text_insert text cursor (Str.filter Str.is_digit substring).

(** An insertion the user makes: where the cursor is and what is typed
    or pasted. *)
Definition insertion : Type := (nat * string)%type.

Definition float_insertions (signed : bool) (text : string)
  (ops : list insertion) : string :=
  fold_left (fun t op => float_insert_text signed t (fst op) (snd op)) ops text.

Definition int_insertions (text : string) (ops : list insertion) : string :=
  fold_left (fun t op => int_insert_text t (fst op) (snd op)) ops text.

(** The classes of the widgets of a form; [Plain] is any widget that is
    none of the labelled inputs (a layout, a label, a button). *)
Inductive widget_class : Type :=
| Plain
| LabelledTextInput (text : string)
| LabelledFloatInput (signed : bool) (text : string)
| LabelledIntInput (text : string)
| LabelledCheckBox (active : bool)
| LabelledSpinner (values : list string) (value_refs : list pyval)
    (text : string).

Inductive widget : Type :=
| Widget (cls : widget_class) (input_property : string)
    (children : list widget).

(** [LabelledCheckBox.__init__]: the [active] a checkbox is built with. *)
Definition checkbox_init (text : option string) (active : bool) : bool :=
  match text with
  | Some t => String.eqb (Str.map Str.lower t) "true"
  | None => active
  end.

(** [values.index(x)] for a list of texts. *)
Fixpoint index_of_text (x : string) (l : list string) : option nat :=
  match l with
  | [] => None
  | y :: r =>
      if String.eqb y x then Some O
      else option_map S (index_of_text x r)
  end.

(** [value_refs.index(v)]. *)
Fixpoint index_of_value (v : pyval) (l : list pyval) : option nat :=
  match l with
  | [] => None
  | y :: r =>
      if py_eq y v then Some O
      else option_map S (index_of_value v r)
  end.

(** Modelled from the spec: [StyledSpinner.selected] of
    [katrain/gui/kivyutils.py] is not among the sources.  "Map the
    currently displayed label to its reference value via the field's
    fixed lookup table; if the label is not found, fall back to the first
    entry in the table (never an error)."  An empty table has no first
    entry; the reference value is then [None]. *)
Definition spinner_selected (values : list string) (value_refs : list pyval)
  (text : string) : pyval :=
  let i := match index_of_text text values with Some i => i | None => O end in
  nth i value_refs (nth O value_refs VNone).

(** The [input_value] property of each class. *)
Definition input_value (c : widget_class) : outcome pyval :=
  match c with
  | Plain => Return VNone
  | LabelledTextInput text => Return (VStr text)
  | LabelledFloatInput _ text =>
      match py_float text with
      | Return f => Return (VFloat f)
      | Raise e => Raise e
      end
  | LabelledIntInput text =>
      match py_int text with
      | Return z => Return (VInt z)
      | Raise e => Raise e
      end
  | LabelledCheckBox active => Return (VBool active)
  | LabelledSpinner values value_refs text =>
      Return (spinner_selected values value_refs text)
  end.

(** [isinstance(widget, (LabelledTextInput, LabelledSpinner,
    LabelledCheckBox)) and getattr(widget, "input_property", None)]. *)
Definition is_bound (c : widget_class) (input_property : string) : bool :=
  match c with
  | Plain => false
  | _ => negb (String.eqb input_property "")
  end.

(** [str(widget.__class__)]. *)
Definition class_str (c : widget_class) : string :=
  "<class 'katrain.gui.popups."
  ++ match c with
     | Plain => "Widget"
     | LabelledTextInput _ => "LabelledTextInput"
     | LabelledFloatInput _ _ => "LabelledFloatInput"
     | LabelledIntInput _ => "LabelledIntInput"
     | LabelledCheckBox _ => "LabelledCheckBox"
     | LabelledSpinner _ _ _ => "LabelledSpinner"
     end
  ++ "'>".

Definition parse_error (input_property : string) (c : widget_class) (e : exn)
  : exn :=
  InputParseError
    ("Could not parse value for " ++ input_property
     ++ " (" ++ class_str c ++ "): " ++ exn_str e).

(** What a widget itself contributes to [collect_properties]. *)
Definition own_property (c : widget_class) (input_property : string)
  : outcome dict :=
  if is_bound c input_property then
    match input_value c with
    | Return v => Return [(input_property, v)]
    | Raise e => Raise (parse_error input_property c e)
    end
  else Return [].

(** [QuickConfigGui.collect_properties]. *)
Fixpoint collect_properties (w : widget) : outcome dict :=
  match w with
  | Widget c p children =>
      match own_property c p with
      | Raise e => Raise e
      | Return ret =>
          (fix over (cs : list widget) (ret : dict) : outcome dict :=
             match cs with
             | [] => Return ret
             | c :: cs' =>
                 match collect_properties c with
                 | Raise e => Raise e
                 | Return d => over cs' (assoc_update ret d)
                 end
             end) children ret
      end
  end.

(* ================================================================= *)
(** ** Subscripts on Python values *)

Definition type_name (v : pyval) : string :=
  match v with
  | VNone => "NoneType"
  | VBool _ => "bool"
  | VInt _ => "int"
  | VFloat _ => "float"
  | VStr _ => "str"
  | VList _ => "list"
  | VDict _ => "dict"
  end.

Definition not_subscriptable (v : pyval) : exn :=
  TypeError ("'" ++ type_name v ++ "' object is not subscriptable").

(** The position an integer index denotes in a sequence of [n] items:
    a negative index counts from the end. *)
Definition seq_index (n : nat) (i : Z) : option nat :=
  let m := Z.of_nat n in
  if ((0 <=? i) && (i <? m))%Z then Some (Z.to_nat i)
  else if ((- m <=? i) && (i <? 0))%Z then Some (Z.to_nat (m + i))
  else None.

Fixpoint list_set {A : Type} (n : nat) (v : A) (l : list A) : list A :=
  match l, n with
  | [], _ => []
  | _ :: r, O => v :: r
  | x :: r, S m => x :: list_set m v r
  end.

(** [c[k]] for a text [k]. *)
Definition getitem_str (c : pyval) (k : string) : outcome pyval :=
  match c with
  | VDict d =>
      match assoc k d with
      | Some v => Return v
      | None => Raise (KeyError (str_repr k))
      end
  | VStr _ => Raise (TypeError "string indices must be integers, not 'str'")
  | VList _ =>
      Raise (TypeError "list indices must be integers or slices, not str")
  | _ => Raise (not_subscriptable c)
  end.

(** [c[k] = v] for a text [k]: the container afterwards. *)
Definition setitem_str (c : pyval) (k : string) (v : pyval) : outcome pyval :=
  match c with
  | VDict d => Return (VDict (assoc_set k v d))
  | VList _ =>
      Raise (TypeError "list indices must be integers or slices, not str")
  | _ =>
      Raise (TypeError
               ("'" ++ type_name c
                ++ "' object does not support item assignment"))
  end.

(** [c[i]] for an integer [i].  The dictionaries here have text keys
    only, so an integer key is never found. *)
Definition getitem_int (c : pyval) (i : Z) : outcome pyval :=
  match c with
  | VList l =>
      match seq_index (List.length l) i with
      | Some n => Return (nth n l VNone)
      | None => Raise (IndexError "list index out of range")
      end
  | VStr s =>
      match seq_index (String.length s) i with
      | Some n => Return (VStr (Str.take 1 (Str.drop n s)))
      | None => Raise (IndexError "string index out of range")
      end
  | VDict _ => Raise (KeyError "integer key")
  | _ => Raise (not_subscriptable c)
  end.

(** [c[i] = v] for an integer [i]: the container afterwards.  Every such
    store in the popups follows a read of the same item, which has
    already raised for a dictionary; a dictionary therefore never gets
    here, and the integer key it would acquire is not represented. *)
Definition setitem_int (c : pyval) (i : Z) (v : pyval) : outcome pyval :=
  match c with
  | VList l =>
      match seq_index (List.length l) i with
      | Some n => Return (VList (list_set n v l))
      | None => Raise (IndexError "list assignment index out of range")
      end
  | VDict _ => Raise (KeyError "integer key")
  | _ =>
      Raise (TypeError
               ("'" ++ type_name c
                ++ "' object does not support item assignment"))
  end.

(** A list subscripted by a text, [l["..."]], which Python refuses
    whatever the list holds. *)
Definition list_getitem_str (l : list string) (k : string) : outcome pyval :=
  Raise (TypeError "list indices must be integers or slices, not str").

(* ================================================================= *)
(** ** The application object and the calls made on it *)

Inductive log_level : Type := OUTPUT_DEBUG | OUTPUT_ERROR.

(** The messages the popups log, with the values they are formatted
    from. *)
Inductive log_message : Type :=
| MsgSettingMissing (key : string)
| MsgUpdatingSetting (key : string) (value : pyval)
| MsgException (e : exn)
| MsgRestartingEngine (engine_updates : list string)
| MsgUpdatingAlpha (i : Z) (v : pyval)
| MsgUpdatingSgf (k1 : string) (i : Z) (v : pyval)
| MsgUpdatingTrainer (k1 : string) (i : Z) (v : pyval).

(** The task [ConfigPopup.update_config] hands to [Clock.schedule_once]. *)
Inductive task : Type := restart_engine_task.

(** The calls a popup makes on the application object, the engine, the
    clock and its own window.  [Log] keeps the level the call gives
    ([None] when it gives none), [UpdateState] the [redraw_board] of
    [update_state] ([false] when the call leaves it out). *)
Inductive event : Type :=
| Log (msg : log_message) (level : option log_level)
| SaveConfig
| UpdateState (redraw_board : bool)
| PopupDismiss
| SetInfoLabel (text : string)
| SetStatus (engine_updates : list string)
| SetEngineVisits (v : pyval)
| SetDebugLevel (v : pyval)
| ScheduleOnce (t : task)
| EngineShutdown (finish : bool)
| EngineConstructed (config_slice : pyval)
| GameEnginesRepointed
| AnalyzeAllNodes.

(** What a popup acts on: the configuration dictionary
    ([katrain._config], which is also the [config] a [ConfigPopup] is
    opened on), whether the current engine runs a process, and the calls
    made so far, oldest first. *)
Record world : Type := mkWorld {
  config : pyval;
  katago_process : bool;
  trace : list event
}.

(** A method body: it may change the world and either returns or raises;
    what it changed before raising stays changed. *)
Definition M (S A : Type) : Type := S -> outcome A * S.

Definition ret {S A : Type} (a : A) : M S A := fun s => (Return a, s).

Definition raise {S A : Type} (e : exn) : M S A := fun s => (Raise e, s).

Definition bind {S A B : Type} (m : M S A) (k : A -> M S B) : M S B :=
  fun s =>
    match m s with
    | (Return a, s') => k a s'
    | (Raise e, s') => (Raise e, s')
    end.

Definition lift {S A : Type} (o : outcome A) : M S A := fun s => (o, s).

Definition when {S : Type} (b : bool) (m : M S unit) : M S unit :=
  if b then m else ret tt.

(** [try: body except InputParseError as e: handler(e)]. *)
Definition try_except_InputParseError {S A : Type}
  (body : M S A) (handler : exn -> M S A) : M S A :=
  fun s =>
    match body s with
    | (Raise (InputParseError m), s') => handler (InputParseError m) s'
    | r => r
    end.

Declare Scope monad_scope.
Delimit Scope monad_scope with monad.
Notation "x <- m ;; k" := (bind m (fun x => k))
  (at level 61, m at next level, right associativity) : monad_scope.
Notation "' p <- m ;; k" := (bind m (fun x => let p := x in k))
  (at level 61, p pattern, m at next level, right associativity) : monad_scope.
Notation "m ;; k" := (bind m (fun _ => k))
  (at level 61, right associativity) : monad_scope.
Open Scope monad_scope.

Definition emit (e : event) : M world unit :=
  fun w => (Return tt,
            mkWorld (config w) (katago_process w) (trace w ++ [e])%list).

Definition read_config : M world pyval := fun w => (Return (config w), w).

Definition write_config (c : pyval) : M world unit :=
  fun w => (Return tt, mkWorld c (katago_process w) (trace w)).

(* ================================================================= *)
(** ** Resolving a setting: [QuickConfigGui.get_setting] *)

(** What Python raises when [get_setting] meets a value [c] that is not a
    dictionary and asks [k not in c] and then subscripts [c] with [k]:
    a text answers the membership test and fails on the subscript, a
    list likewise, anything else fails on the membership test. *)
Definition resolve_error (c : pyval) (k : string) : exn :=
  match c with
  | VStr s =>
      if Str.contains k s
      then TypeError "string indices must be integers, not 'str'"
      else TypeError "'str' object does not support item assignment"
  | VList _ =>
      TypeError "list indices must be integers or slices, not str"
  | _ => TypeError ("argument of type '" ++ type_name c ++ "' is not iterable")
  end.

(** The descent of [get_setting] from [config] along [ks = keys[:-1]] to
    the leaf [keys[-1]]: the value found, [config] afterwards, and whether
    the leaf had to be created. *)
Fixpoint get_setting_in (ks : list string) (leaf : string) (c : pyval)
  : outcome (pyval * pyval * bool) :=
  match ks with
  | [] =>
      match c with
      | VDict d =>
          match assoc leaf d with
          | Some v => Return (v, c, false)
          | None =>
              Return (VStr "", VDict (assoc_set leaf (VStr "") d), true)
          end
      | _ => Raise (resolve_error c leaf)
      end
  | k :: ks' =>
      match c with
      | VDict d =>
          let sub := match assoc k d with
                     | Some x => x
                     | None => VDict []
                     end in
          match get_setting_in ks' leaf sub with
          | Return (v, sub', created) =>
              Return (v, VDict (assoc_set k sub' d), created)
          | Raise e => Raise e
          end
      | _ => Raise (resolve_error c k)
      end
  end.

(** [get_setting(key)] returns [config[keys[-1]], config, keys[-1]]; the
    dictionary [config] it returns is a reference into the store, which
    is given here by the keys [keys[:-1]] that lead to it. *)
Definition get_setting (key : string)
  : M world (pyval * list string * string) :=
  fun w =>
    let keys := Str.split "/" key in
    let ks := removelast keys in
    let leaf := last keys "" in
    match get_setting_in ks leaf (config w) with
    | Raise e => (Raise e, w)
    | Return (v, c', created) =>
        (Return (v, ks, leaf),
         mkWorld c' (katago_process w)
           (trace w
            ++ (if created
                then [Log (MsgSettingMissing key) (Some OUTPUT_ERROR)]
                else []))%list)
    end.

(** [conf[key] = value] through the reference [get_setting] returned:
    the store afterwards. *)
Fixpoint store_at (ks : list string) (leaf : string) (v : pyval) (c : pyval)
  : pyval :=
  match c with
  | VDict d =>
      match ks with
      | [] => VDict (assoc_set leaf v d)
      | k :: ks' =>
          match assoc k d with
          | Some sub => VDict (assoc_set k (store_at ks' leaf v sub) d)
          | None => c
          end
      end
  | _ => c
  end.

Definition set_through (conf : list string) (key : string) (value : pyval)
  : M world unit :=
  fun w =>
    (Return tt,
     mkWorld (store_at conf key value (config w)) (katago_process w)
       (trace w)).

(** The value a path leads to, without creating anything. *)
Fixpoint lookup_in (ks : list string) (leaf : string) (c : pyval)
  : option pyval :=
  match c with
  | VDict d =>
      match ks with
      | [] => assoc leaf d
      | k :: ks' =>
          match assoc k d with
          | Some sub => lookup_in ks' leaf sub
          | None => None
          end
      end
  | _ => None
  end.

Definition lookup_path (key : string) (c : pyval) : option pyval :=
  let keys := Str.split "/" key in
  lookup_in (removelast keys) (last keys "") c.

(* ================================================================= *)
(** ** Filling the form: [QuickConfigGui.set_properties] *)

(** [str(z)].  The integers the popups write come from a field or from
    the configuration file, both read under the limit of
    [max_str_digits] digits; that [str] refuses an integer of more
    digits is not modelled. *)
Definition Z_str (z : Z) : string :=
  if (z <? 0)%Z then "-" ++ Str.of_nat (Z.to_nat (- z))
  else Str.of_nat (Z.to_nat z).

Section Pull.

(** [repr] of a float, a list or a dictionary is the interpreter's
    affair (the shortest text that reads back as the same double, and the
    nested texts of the items). *)
Variable repr_value : pyval -> string.

(** [str(value)]. *)
Definition py_str (value : pyval) : string :=
  match value with
  | VStr s => s
  | VNone => "None"
  | VBool true => "True"
  | VBool false => "False"
  | VInt z => Z_str z
  | _ => repr_value value
  end.

(** What [set_properties] shows in a widget for the stored [value]. *)
Definition show_value (c : widget_class) (value : pyval)
  : outcome widget_class :=
  match c with
  | Plain => Return Plain
  | LabelledCheckBox _ => Return (LabelledCheckBox (is_True value))
  | LabelledSpinner values value_refs _ =>
      let selected := match index_of_value value value_refs with
                      | Some i => i
                      | None => O
                      end in
      match nth_error values selected with
      | Some t => Return (LabelledSpinner values value_refs t)
      | None => Raise (IndexError "list index out of range")
      end
  | LabelledTextInput _ => Return (LabelledTextInput (py_str value))
  | LabelledFloatInput signed _ =>
      Return (LabelledFloatInput signed (py_str value))
  | LabelledIntInput _ => Return (LabelledIntInput (py_str value))
  end.

(** [set_properties(widget)]: the widget tree afterwards. *)
Fixpoint set_properties (w : widget) : M world widget :=
  match w with
  | Widget c p children =>
      c' <- (if is_bound c p
             then r <- get_setting p ;; lift (show_value c (fst (fst r)))
             else ret c) ;;
      children' <-
        (fix over (cs : list widget) : M world (list widget) :=
           match cs with
           | [] => ret []
           | x :: cs' =>
               x' <- set_properties x ;;
               r <- over cs' ;;
               ret (x' :: r)
           end) children ;;
      ret (Widget c' p children')
  end.

End Pull.

(* ================================================================= *)
(** ** [QuickConfigGui.update_config] *)

(** [updated.add(k)] on a [set] of texts, kept as a list without
    repetition. *)
Definition set_add (k : string) (s : list string) : list string :=
  if List.existsb (String.eqb k) s then s else (s ++ [k])%list.

Definition nonempty {A : Type} (l : list A) : bool :=
  match l with
  | [] => false
  | _ => true
  end.

Module QuickConfigGui.

(** The loop over the collected items; [updated] is the set so far. *)
Fixpoint apply_collected (items : dict) (updated : list string)
  : M world (list string) :=
  match items with
  | [] => ret updated
  | (multikey, value) :: rest =>
      r <- get_setting multikey ;;
      let '(old_value, conf, key) := r in
      if py_ne value old_value then
        emit (Log (MsgUpdatingSetting multikey value) (Some OUTPUT_DEBUG)) ;;
        set_through conf key value ;;
        apply_collected rest (set_add multikey updated)
      else apply_collected rest updated
  end.

(** [update_config(save_to_file)] of a form whose root widget is [form];
    [has_popup] tells whether [self.popup] is set. *)
Definition update_config (form : widget) (has_popup : bool)
  (save_to_file : bool) : M world (list string) :=
  collected <- lift (collect_properties form) ;;
  updated <- apply_collected collected [] ;;
  when save_to_file (emit SaveConfig) ;;
  when (nonempty updated) (emit (UpdateState false)) ;;
  when has_popup (emit PopupDismiss) ;;
  ret updated.

End QuickConfigGui.

(* ================================================================= *)
(** ** [ConfigPopup.update_config] *)

Module ConfigPopup.

(** [updated_cat[k1].append(k2)] on a [defaultdict(list)]. *)
Definition defaultdict_append (k1 k2 : string)
  (updated_cat : list (string * list string)) : list (string * list string) :=
  let l := match assoc k1 updated_cat with
           | Some l => l
           | None => []
           end in
  assoc_set k1 (l ++ [k2])%list updated_cat.

(** [updated_cat[k]]. *)
Definition defaultdict_get (k : string)
  (updated_cat : list (string * list string)) : list string :=
  match assoc k updated_cat with
  | Some l => l
  | None => []
  end.

(** The loop of the [try] block. *)
Fixpoint apply_collected (items : dict)
  (updated_cat : list (string * list string))
  : M world (list (string * list string)) :=
  match items with
  | [] => ret updated_cat
  | (k, v) :: rest =>
      match Str.split "/" k with
      | [k1; k2] =>
          c <- read_config ;;
          cat <- lift (getitem_str c k1) ;;
          cur <- lift (getitem_str cat k2) ;;
          if py_ne cur v then
            emit (Log (MsgUpdatingSetting k v) (Some OUTPUT_DEBUG)) ;;
            cat' <- lift (setitem_str cat k2 v) ;;
            c' <- lift (setitem_str c k1 cat') ;;
            write_config c' ;;
            apply_collected rest (defaultdict_append k1 k2 updated_cat)
          else apply_collected rest updated_cat
      | [_] => raise (ValueError
                        "not enough values to unpack (expected 2, got 1)")
      | _ => raise (ValueError "too many values to unpack (expected 2)")
      end
  end.

(** The keys of the engine category whose change does not restart the
    engine. *)
Definition no_restart_keys : list string :=
  ["max_visits"; "max_time"; "enable_ownership"; "wide_root_noise"].

(** [{key for key in engine_updates if key not in {...}}] is not empty. *)
Definition restart_needed (engine_updates : list string) : bool :=
  List.existsb
    (fun key => negb (List.existsb (String.eqb key) no_restart_keys))
    engine_updates.

Definition restarting_text : string :=
  "Restarting engine" ++ String (ascii_of_nat 10) "please wait.".

(** The closure [restart_engine(_dt)].  [KataGoEngine] of
    [katrain/core/engine.py] is not among the sources: building it is
    the call [EngineConstructed] with the configuration slice it is
    given, and [starts] tells whether the engine it returns runs a
    process. *)
Definition restart_engine (starts : bool) : M world unit :=
  fun w =>
    (when (katago_process w) (emit (EngineShutdown true)) ;;
     c <- read_config ;;
     slice <- lift (getitem_str c "engine") ;;
     emit (EngineConstructed slice) ;;
     (fun w' => (Return tt, mkWorld (config w') starts (trace w'))) ;;
     emit GameEnginesRepointed ;;
     emit AnalyzeAllNodes ;;
     emit (UpdateState false)) w.

(** [update_config(save_to_file)].  The method dismisses [self.popup]
    without asking whether there is one; the popup is taken to be set. *)
Definition update_config (form : widget) (save_to_file : bool)
  : M world unit :=
  proceed <-
    try_except_InputParseError
      (collected <- lift (collect_properties form) ;;
       updated_cat <- apply_collected collected [] ;;
       emit PopupDismiss ;;
       ret (Some updated_cat))
      (fun e =>
         emit (SetInfoLabel (exn_str e)) ;;
         emit (Log (MsgException e) (Some OUTPUT_ERROR)) ;;
         ret None) ;;
  match proceed with
  | None => ret tt
  | Some updated_cat =>
      when save_to_file (emit SaveConfig) ;;
      let engine_updates := defaultdict_get "engine" updated_cat in
      when (List.existsb (String.eqb "visits") engine_updates)
        (v <- lift (list_getitem_str engine_updates "visits") ;;
         emit (SetEngineVisits v)) ;;
      when (restart_needed engine_updates)
        (emit (Log (MsgRestartingEngine engine_updates) None) ;;
         emit (SetInfoLabel restarting_text) ;;
         emit (SetStatus engine_updates) ;;
         emit (ScheduleOnce restart_engine_task)) ;;
      c <- read_config ;;
      debug <- lift (getitem_str c "debug") ;;
      level <- lift (getitem_str debug "level") ;;
      emit (SetDebugLevel level) ;;
      emit (UpdateState true)
  end.

End ConfigPopup.

(* ================================================================= *)
(** ** [ConfigTeacherPopup.update_config] *)

Module ConfigTeacherPopup.

(** The three dictionaries the popup holds, [katrain.config("trainer")],
    [katrain.config("sgf")] and [katrain.config("board_ui")], and the
    calls made so far. *)
Record popup : Type := mkPopup {
  settings : pyval;
  sgf_settings : pyval;
  ui_settings : pyval;
  calls : list event
}.

Definition emit (e : event) : M popup unit :=
  fun s => (Return tt,
            mkPopup (settings s) (sgf_settings s) (ui_settings s)
              (calls s ++ [e])%list).

Definition set_settings (v : pyval) : M popup unit :=
  fun s => (Return tt, mkPopup v (sgf_settings s) (ui_settings s) (calls s)).

Definition set_sgf_settings (v : pyval) : M popup unit :=
  fun s => (Return tt, mkPopup (settings s) v (ui_settings s) (calls s)).

Definition set_ui_settings (v : pyval) : M popup unit :=
  fun s => (Return tt, mkPopup (settings s) (sgf_settings s) v (calls s)).

Definition read {A : Type} (f : popup -> A) : M popup A :=
  fun s => (Return (f s), s).

(** One turn of the loop, for the collected item [(k, v)]. *)
Definition apply_item (k : string) (v : pyval) : M popup unit :=
  if Str.contains "::" k then
    match Str.split "::" k with
    | [k1; i] =>
        i <- lift (py_int i) ;;
        if Str.contains "alpha" k1 then
          let v := VFloat (FFin (if py_truthy v then 1 else 0)%Q) in
          ui <- read ui_settings ;;
          colors <- lift (getitem_str ui "eval_colors") ;;
          color <- lift (getitem_int colors i) ;;
          cur <- lift (getitem_int color 3) ;;
          when (py_ne cur v)
            (emit (Log (MsgUpdatingAlpha i v) (Some OUTPUT_DEBUG)) ;;
             color' <- lift (setitem_int color 3 v) ;;
             colors' <- lift (setitem_int colors i color') ;;
             ui' <- lift (setitem_str ui "eval_colors" colors') ;;
             set_ui_settings ui')
        else if Str.contains "save_feedback" k1 then
          sgf <- read sgf_settings ;;
          seq <- lift (getitem_str sgf k1) ;;
          cur <- lift (getitem_int seq i) ;;
          when (py_ne cur v)
            (seq' <- lift (setitem_int seq i v) ;;
             sgf' <- lift (setitem_str sgf k1 seq') ;;
             set_sgf_settings sgf' ;;
             emit (Log (MsgUpdatingSgf k1 i v) (Some OUTPUT_DEBUG)))
        else
          st <- read settings ;;
          seq <- lift (getitem_str st k1) ;;
          cur <- lift (getitem_int seq i) ;;
          when (py_ne cur v)
            (seq' <- lift (setitem_int seq i v) ;;
             st' <- lift (setitem_str st k1 seq') ;;
             set_settings st' ;;
             emit (Log (MsgUpdatingTrainer k1 i v) (Some OUTPUT_DEBUG)))
    | [_] => raise (ValueError
                      "not enough values to unpack (expected 2, got 1)")
    | _ => raise (ValueError "too many values to unpack (expected 2)")
    end
  else
    st <- read settings ;;
    cur <- lift (getitem_str st k) ;;
    when (py_ne cur v)
      (st' <- lift (setitem_str st k v) ;;
       set_settings st' ;;
       emit (Log (MsgUpdatingSetting k v) (Some OUTPUT_DEBUG))).

Fixpoint apply_collected (items : dict) : M popup unit :=
  match items with
  | [] => ret tt
  | (k, v) :: rest => apply_item k v ;; apply_collected rest
  end.

(** [update_config(save_to_file)]; it returns whether it ran to its end
    ([false] after the [return] of the handler). *)
Definition update_config (form : widget) (save_to_file : bool)
  : M popup bool :=
  proceed <-
    try_except_InputParseError
      (collected <- lift (collect_properties form) ;;
       apply_collected collected ;;
       when save_to_file (emit SaveConfig) ;;
       emit PopupDismiss ;;
       ret true)
      (fun e =>
         emit (SetInfoLabel (exn_str e)) ;;
         emit (Log (MsgException e) (Some OUTPUT_ERROR)) ;;
         ret false) ;;
  if proceed : bool then
    emit (UpdateState false) ;;
    emit PopupDismiss ;;
    ret true
  else ret false.

End ConfigTeacherPopup.

(* ================================================================= *)
(** ** Vocabulary of the statements *)

(** The number a run of decimal digits reads as, most significant digit
    first. *)
Fixpoint decimal_value (acc : Z) (s : string) : Z :=
  match s with
  | EmptyString => acc
  | String c r => decimal_value (10 * acc + Str.digit_value c) r
  end.

(** The text [msg] names [path]: [path] occurs in it. *)
Definition names (path msg : string) : Prop :=
  exists before after, msg = before ++ path ++ after.

(** The shape a float field keeps its text in: no minus sign when the
    field is unsigned, at most one and only in front when it is signed,
    and at most one decimal point. *)
Definition float_normalized (signed : bool) (text : string) : Prop :=
  (if signed
   then Str.count "-" text <= 1 /\ Str.mem "-" (Str.drop 1 text) = false
   else Str.mem "-" text = false)
  /\ Str.count "." text <= 1.

(** The alpha a checkbox stands for: [1.0 if v else 0.0]. *)
Definition alpha_value (b : bool) : pyval :=
  VFloat (FFin (if b then 1 else 0)%Q).

(** The characters a float field lets through. *)
Definition float_char (c : ascii) : bool :=
  Str.is_digit c || is_minus c || Ascii.eqb c ".".

(** The loop of [collect_properties] over the children of a widget. *)
Fixpoint collect_children (cs : list widget) (ret : dict) : outcome dict :=
  match cs with
  | [] => Return ret
  | c :: cs' =>
      match collect_properties c with
      | Raise e => Raise e
      | Return d => collect_children cs' (assoc_update ret d)
      end
  end.

(** The bound fields of a form, in the order the walk meets them. *)
Fixpoint fields (w : widget) : list (widget_class * string) :=
  match w with
  | Widget c p children =>
      ((if is_bound c p then [(c, p)] else []) ++ flat_map fields children)%list
  end.

(** A field that was read and whose path the dictionary [d] holds. *)
Definition field_ok (d : dict) (f : widget_class * string) : Prop :=
  (exists v, input_value (fst f) = Return v) /\ assoc (snd f) d <> None.

(** The error [e] reports a field of [fs] that does not read. *)
Definition reports (fs : list (widget_class * string)) (e : exn) : Prop :=
  exists c p e0,
    In (c, p) fs /\ input_value c = Raise e0 /\ e = parse_error p c e0.

(** A digit or the decimal point. *)
Definition digit_or_point (c : ascii) : bool :=
  Str.is_digit c || Ascii.eqb c ".".

(** The shape of every text a float field reaches from the empty text:
    only digits, minus signs and decimal points, no minus sign behind
    the first character, at most one decimal point. *)
Definition float_shape (text : string) : Prop :=
  Str.forallb float_char text = true
  /\ Str.mem "-" (Str.drop 1 text) = false
  /\ Str.count "." text <= 1.

(** Every level the path [ks] passes through in [c], as far as the
    levels exist, is a dictionary. *)
Fixpoint maps_along (ks : list string) (c : pyval) : bool :=
  match c with
  | VDict d =>
      match ks with
      | [] => true
      | k :: ks' =>
          match assoc k d with
          | Some sub => maps_along ks' sub
          | None => true
          end
      end
  | _ => false
  end.

(** Two paths part ways: at some level they name different keys, so that
    neither leads through the other. *)
Fixpoint diverge (a b : list string) : bool :=
  match a, b with
  | x :: a', y :: b' => if String.eqb x y then diverge a' b' else true
  | _, _ => false
  end.

(** The paths of the collected items part ways two by two. *)
Fixpoint paths_apart (items : dict) : Prop :=
  match items with
  | [] => True
  | (k, _) :: rest =>
      Forall (fun kv => diverge (Str.split "/" k) (Str.split "/" (fst kv))
                        = true) rest
      /\ paths_apart rest
  end.

(** Every collected value is equal to itself, which is to say that none
    is [nan]. *)
Definition self_equal (items : dict) : Prop :=
  Forall (fun kv => py_eq (snd kv) (snd kv) = true) items.

(** The store holds, at the path of every item, a value the item's value
    is equal to. *)
Definition settled (items : dict) (c : pyval) : Prop :=
  Forall (fun kv => exists v', lookup_path (fst kv) c = Some v'
                               /\ py_ne (snd kv) v' = false) items.

(* ================================================================= *)
(** ** Sample configurations *)

(** The store [{"engine": {"visits": 100, "max_visits": 1000},
    "debug": {"level": 1}}] and a form that shows 150 visits. *)
Definition visits_store : pyval :=
  VDict [("engine", VDict [("visits", VInt 100); ("max_visits", VInt 1000)]);
         ("debug", VDict [("level", VInt 1)])].

Definition visits_form : widget :=
  Widget Plain ""
    [Widget (LabelledIntInput "150") "engine/visits" [];
     Widget (LabelledIntInput "1") "debug/level" []].

(** A store with a model path, and forms that show another model, with
    and without another number of visits. *)
Definition model_store : pyval :=
  VDict [("engine", VDict [("visits", VInt 100);
                           ("model_path", VStr "old.bin.gz")]);
         ("debug", VDict [("level", VInt 1)])].

Definition model_form : widget :=
  Widget Plain ""
    [Widget (LabelledIntInput "100") "engine/visits" [];
     Widget (LabelledTextInput "new.bin.gz") "engine/model_path" []].

Definition model_and_visits_form : widget :=
  Widget Plain ""
    [Widget (LabelledIntInput "150") "engine/visits" [];
     Widget (LabelledTextInput "new.bin.gz") "engine/model_path" []].

(** The three dictionaries of a teacher popup with one threshold. *)
Definition teacher_sample : ConfigTeacherPopup.popup :=
  ConfigTeacherPopup.mkPopup
    (VDict [("eval_thresholds", VList [VInt 12])])
    (VDict [("save_feedback", VList [VBool true])])
    (VDict [("eval_colors",
             VList [VList [VInt 1; VInt 0; VInt 0; VFloat (FFin (1 # 2))]])])
    [].

(** A teacher popup whose trainer settings hold a sequence under a name
    with [alpha] in it. *)
Definition prompts_sample : ConfigTeacherPopup.popup :=
  ConfigTeacherPopup.mkPopup
    (VDict [("num_alpha_prompts", VList [VInt 1])])
    (VDict [("save_feedback", VList [VBool true])])
    (VDict [("eval_colors",
             VList [VList [VInt 1; VInt 0; VInt 0; VFloat (FFin (1 # 2))]])])
    [].

(** A text of [n] characters [c], and 4301 nines: one digit more than
    [int()] reads. *)
Fixpoint repeat_char (c : ascii) (n : nat) : string :=
  match n with
  | O => EmptyString
  | S m => String c (repeat_char c m)
  end.

Definition nines_past_the_limit : string :=
  repeat_char "9" (S max_str_digits).

(* ================================================================= *)
(** ** Proof automation *)

(** A statement about one character, settled on each of the 256. *)
Ltac ascii_cases :=
  let c := fresh "c" in
  intros c; destruct c as [[] [] [] [] [] [] [] []];
  vm_compute; try reflexivity; try discriminate; intuition congruence.

(** Unfolds the plumbing of a method body of the teacher popup. *)
Ltac run_popup :=
  unfold bind, lift, when, ret, ConfigTeacherPopup.read,
    ConfigTeacherPopup.emit, ConfigTeacherPopup.set_settings,
    ConfigTeacherPopup.set_sgf_settings, ConfigTeacherPopup.set_ui_settings;
  cbn [ConfigTeacherPopup.settings ConfigTeacherPopup.sgf_settings
       ConfigTeacherPopup.ui_settings ConfigTeacherPopup.calls
       getitem_str setitem_str].

(* ================================================================= *)
(** ** [ConfigTimerPopup.update_config] *)

Module ConfigTimerPopup.

(** What the timer popup acts on besides the application object: the
    periods used of each player of [katrain.game.players], whether
    [katrain.controls.timer] is paused, and the time used on
    [katrain.game.current_node]. *)
Record clock : Type := mkClock {
  app : world;
  periods_used : list (string * pyval);
  paused : bool;
  time_used : pyval
}.

(** A method of [QuickConfigGui] run by the timer popup: it acts on the
    application object and leaves the clock alone. *)
Definition on_app {A : Type} (m : M world A) : M clock A :=
  fun s =>
    let '(r, a) := m (app s) in
    (r, mkClock a (periods_used s) (paused s) (time_used s)).

(** [for p in self.katrain.game.players.values(): p.periods_used = 0]. *)
Definition reset_periods : M clock unit :=
  fun s =>
    (Return tt,
     mkClock (app s)
       (List.map (fun p => (fst p, VInt 0)) (periods_used s))
       (paused s) (time_used s)).

(** [self.katrain.controls.timer.paused = b]. *)
Definition set_paused (b : bool) : M clock unit :=
  fun s => (Return tt, mkClock (app s) (periods_used s) b (time_used s)).

(** [self.katrain.game.current_node.time_used = v]. *)
Definition set_time_used (v : pyval) : M clock unit :=
  fun s => (Return tt, mkClock (app s) (periods_used s) (paused s) v).

(** [update_config(save_to_file)]: the method of [QuickConfigGui], whose
    result is dropped, then the clock, then [update_state].  As there,
    [has_popup] tells whether [self.popup] is set. *)
Definition update_config (form : widget) (has_popup save_to_file : bool)
  : M clock unit :=
  on_app (QuickConfigGui.update_config form has_popup save_to_file) ;;
  reset_periods ;;
  set_paused true ;;
  set_time_used (VInt 0) ;;
  on_app (emit (UpdateState false)).

End ConfigTimerPopup.

(* ================================================================= *)
(** ** Vocabulary of the further properties *)

(** The error of the first field, in the order of the walk, that does
    not read. *)
Fixpoint first_failure (fs : list (widget_class * string)) : option exn :=
  match fs with
  | [] => None
  | (c, p) :: r =>
      match input_value c with
      | Raise e => Some (parse_error p c e)
      | Return _ => first_failure r
      end
  end.

(** What the last of the fields bound to the path [p] reads as. *)
Fixpoint last_value (p : string) (fs : list (widget_class * string))
  : option pyval :=
  match fs with
  | [] => None
  | (c, q) :: r =>
      match last_value p r with
      | Some v => Some v
      | None =>
          if String.eqb p q
          then match input_value c with
               | Return v => Some v
               | Raise _ => None
               end
          else None
      end
  end.

(** What a dictionary says of a form: its keys are distinct, and a path
    reads as [over], the value of the last field bound to it, or else as
    the dictionary [ret] did. *)
Definition collected_from (fs : list (widget_class * string)) (ret d : dict)
  : Prop :=
  NoDup (List.map fst d)
  /\ forall p, assoc p d = match last_value p fs with
                           | Some v => Some v
                           | None => assoc p ret
                           end.

(** The number of digits of an integer. *)
Definition int_digits (z : Z) : nat :=
  String.length (Str.of_nat (Z.to_nat (Z.abs z))).

Section Shown.

Variable repr_value : pyval -> string.

(** What [set_properties] makes of a widget when its path resolves: a
    bound widget shows the value its path leads to in [c]. *)
Definition shown_class (c : pyval) (cls : widget_class) (p : string)
  : widget_class :=
  if is_bound cls p
  then match lookup_path p c with
       | Some v =>
           match show_value repr_value cls v with
           | Return cls' => cls'
           | Raise _ => cls
           end
       | None => cls
       end
  else cls.

(** The same for a form. *)
Fixpoint shown (c : pyval) (w : widget) : widget :=
  match w with
  | Widget cls p children =>
      Widget (shown_class c cls p) p (List.map (shown c) children)
  end.

(** The field can be filled from the store [c]: its path resolves and the
    value can be shown. *)
Definition fillable (c : pyval) (f : widget_class * string) : Prop :=
  exists v cls',
    lookup_path (snd f) c = Some v
    /\ show_value repr_value (fst f) v = Return cls'.

(** The stored value is of the type the widget edits, and is one the
    widget can hold: a text for a text field, a boolean for a checkbox,
    for an int field an integer of the digits [int()] reads, and for a
    float field an integer that is a double (up to [2 ^ 53] either way)
    or a float whose text reads back as a float equal to it.  A spinner
    is left out (what it reads as is not in the sources), and a plain
    widget edits nothing. *)
Definition agrees (cls : widget_class) (v : pyval) : Prop :=
  match cls with
  | Plain => False
  | LabelledTextInput _ => exists s, v = VStr s
  | LabelledCheckBox _ => exists b, v = VBool b
  | LabelledIntInput _ =>
      exists z, v = VInt z /\ int_digits z <= max_str_digits
  | LabelledFloatInput _ _ =>
      (exists z, v = VInt z /\ (Z.abs z <= 2 ^ 53)%Z)
      \/ (exists f f', v = VFloat f
                       /\ py_float (repr_value v) = Return f'
                       /\ float_eqb f' f = true)
  | LabelledSpinner _ _ _ => False
  end.

End Shown.

(** The calls [ConfigPopup.update_config] makes for the engine's sake:
    the number of visits it hands over, the status line of a restart and
    the restart it schedules, with what the restart then does. *)
Definition engine_call (e : event) : bool :=
  match e with
  | SetEngineVisits _ | SetStatus _ | ScheduleOnce _ | EngineShutdown _
  | EngineConstructed _ | GameEnginesRepointed | AnalyzeAllNodes => true
  | _ => false
  end.

(** The method body [m] never raises [InputParseError]. *)
Definition no_parse_error {S A : Type} (m : M S A) : Prop :=
  forall s e s', m s = (Raise e, s') -> forall msg, e <> InputParseError msg.

(** A value that is neither a list nor a dictionary: what a text field,
    a number field or a checkbox reads as. *)
Definition scalar (v : pyval) : bool :=
  match v with
  | VList _ | VDict _ => false
  | _ => true
  end.

(* ================================================================= *)
(** * Properties *)

(** ** Facts about texts *)

Lemma append_empty_r (s : string) : s ++ "" = s.
Proof. induction s; simpl; congruence. Qed.

Lemma append_assoc (a b c : string) : (a ++ b) ++ c = a ++ (b ++ c).
Proof. induction a; simpl; congruence. Qed.

Lemma take_drop (n : nat) (s : string) : Str.take n s ++ Str.drop n s = s.
Proof.
  revert s; induction n as [|n IH]; intros [|c r]; simpl; try reflexivity.
  now rewrite IH.
Qed.

Lemma count_append (c : ascii) (a b : string) :
  Str.count c (a ++ b) = Str.count c a + Str.count c b.
Proof. induction a as [|d a IH]; simpl; [reflexivity|]. rewrite IH; lia. Qed.

Lemma forallb_append (p : ascii -> bool) (a b : string) :
  Str.forallb p (a ++ b) = Str.forallb p a && Str.forallb p b.
Proof.
  induction a as [|d a IH]; simpl; [reflexivity|].
  now rewrite IH, andb_assoc.
Qed.

Lemma existsb_append (p : ascii -> bool) (a b : string) :
  Str.existsb p (a ++ b) = Str.existsb p a || Str.existsb p b.
Proof.
  induction a as [|d a IH]; simpl; [reflexivity|].
  now rewrite IH, orb_assoc.
Qed.

Lemma mem_count (c : ascii) (s : string) :
  Str.mem c s = false <-> Str.count c s = 0.
Proof.
  unfold Str.mem. induction s as [|d s IH]; simpl; [tauto|].
  destruct (Ascii.eqb c d); simpl; [split; [discriminate | lia] | exact IH].
Qed.

Lemma forallb_filter (p : ascii -> bool) (s : string) :
  Str.forallb p (Str.filter p s) = true.
Proof.
  induction s as [|d s IH]; simpl; [reflexivity|].
  destruct (p d) eqn:E; simpl; [now rewrite E | exact IH].
Qed.

Lemma forallb_filter_keeps (p q : ascii -> bool) (s : string) :
  Str.forallb p s = true -> Str.forallb p (Str.filter q s) = true.
Proof.
  induction s as [|d s IH]; simpl; [reflexivity|].
  intros H; apply andb_true_iff in H as [Hd Hs].
  destruct (q d); simpl; [rewrite Hd|]; auto.
Qed.

Lemma forallb_weaken (p q : ascii -> bool) (s : string) :
  (forall c, p c = true -> q c = true) ->
  Str.forallb p s = true -> Str.forallb q s = true.
Proof.
  intros W. induction s as [|d s IH]; simpl; [reflexivity|].
  intros H; apply andb_true_iff in H as [Hd Hs].
  rewrite (W _ Hd); auto.
Qed.

Lemma count_filter_out (p : ascii -> bool) (c : ascii) (s : string) :
  p c = false -> Str.count c (Str.filter p s) = 0.
Proof.
  intros Hc. induction s as [|d s IH]; simpl; [reflexivity|].
  destruct (p d) eqn:E; simpl; [|exact IH].
  destruct (Ascii.eqb_spec c d) as [->|_]; [congruence | exact IH].
Qed.

Lemma count_filter_in (p : ascii -> bool) (c : ascii) (s : string) :
  p c = true -> Str.count c (Str.filter p s) = Str.count c s.
Proof.
  intros Hc. induction s as [|d s IH]; simpl; [reflexivity|].
  destruct (p d) eqn:E; simpl; [now rewrite IH|].
  destruct (Ascii.eqb_spec c d) as [->|_]; [congruence | exact IH].
Qed.

Lemma forallb_take (p : ascii -> bool) (n : nat) (s : string) :
  Str.forallb p s = true -> Str.forallb p (Str.take n s) = true.
Proof.
  revert s; induction n as [|n IH]; intros [|c r]; simpl; auto.
  intros H; apply andb_true_iff in H as [-> Hs]; simpl; auto.
Qed.

Lemma forallb_drop (p : ascii -> bool) (n : nat) (s : string) :
  Str.forallb p s = true -> Str.forallb p (Str.drop n s) = true.
Proof.
  revert s; induction n as [|n IH]; intros [|c r]; simpl; auto.
  intros H; apply andb_true_iff in H as [_ Hs]; auto.
Qed.

(** The pieces [split_once] returns hold no separator in the first, and
    together with the separator make up the text. *)
Lemma split_once_none (c : ascii) (s a : string) :
  Str.split_once c s = (a, None) -> a = s /\ Str.count c s = 0.
Proof.
  revert a; induction s as [|d s IH]; simpl; intros a H.
  - now inversion H.
  - destruct (Ascii.eqb c d); [discriminate|].
    destruct (Str.split_once c s) as [a' b'] eqn:E.
    inversion H; subst. destruct (IH _ eq_refl) as [-> ->]. auto.
Qed.

Lemma split_once_some (c : ascii) (s a b : string) :
  Str.split_once c s = (a, Some b) ->
  s = a ++ String c b /\ Str.count c a = 0.
Proof.
  revert a; induction s as [|d s IH]; simpl; intros a H.
  - inversion H.
  - destruct (Ascii.eqb_spec c d) as [->|Hn].
    + inversion H; subst. auto.
    + destruct (Str.split_once c s) as [a' b'] eqn:E.
      inversion H; subst. destruct (IH _ eq_refl) as [-> Hc].
      split; [reflexivity|]. simpl.
      destruct (Ascii.eqb_spec c d); [contradiction | exact Hc].
Qed.

Lemma split_once_absent (c : ascii) (s : string) :
  Str.count c s = 0 -> Str.split_once c s = (s, None).
Proof.
  induction s as [|d s IH]; simpl; [reflexivity|].
  destruct (Ascii.eqb c d); [discriminate|]. simpl.
  intros H. now rewrite IH.
Qed.

(* ================================================================= *)
(** ** The float field keeps its text normalized *)

Lemma count_remove_minus_point (s : string) :
  Str.count "." (remove_minus s) = Str.count "." s.
Proof. apply count_filter_in. reflexivity. Qed.

Lemma mem_remove_minus (s : string) : Str.mem "-" (remove_minus s) = false.
Proof. apply mem_count. apply count_filter_out. reflexivity. Qed.

(** What [insert_text] hands to the toolkit holds at most one decimal
    point, and none when the field already shows one. *)
Lemma float_substring_points (text substring : string) :
  Str.count "." text + Str.count "." (float_filtered text substring)
  <= Nat.max 1 (Str.count "." text).
Proof.
  assert (K : forall x, Str.count "." (Str.filter float_pat_keeps x) = 0)
    by (intro x; apply count_filter_out; reflexivity).
  unfold float_filtered. destruct (Str.mem "." text) eqn:E.
  - rewrite K. lia.
  - apply mem_count in E. rewrite E.
    destruct (Str.split_once "." substring) as [a [b|]].
    + rewrite !count_append, !K. simpl. lia.
    + rewrite K. lia.
Qed.

(** One insertion: the minus signs are put right whatever the field
    showed, and a text with at most one decimal point keeps at most
    one. *)
Lemma float_insert_text_minus (signed : bool) (text : string) (cursor : nat)
  (substring : string) :
  let t := float_insert_text signed text cursor substring in
  if signed
  then Str.count "-" t <= 1 /\ Str.mem "-" (Str.drop 1 t) = false
  else Str.mem "-" t = false.
Proof.
  unfold float_insert_text.
  set (t1 := text_insert text cursor (float_filtered text substring)).
  cbv zeta. destruct signed; simpl negb; cbv iota beta.
  - simpl andb. cbv iota.
    assert (G : forall t, Str.mem "-" (Str.drop 1 t) = false ->
                          Str.count "-" t <= 1).
    { intros [|c r]; cbn [Str.drop Str.count]; [lia|].
      intros H. apply mem_count in H.
      rewrite H. destruct (Ascii.eqb "-" c); lia. }
    destruct t1 as [|c r]; [split; [simpl; lia | reflexivity]|].
    destruct (Str.mem "-" r) eqn:E.
    + assert (H : Str.mem "-" (Str.drop 1 (String c (remove_minus r))) = false)
        by (simpl; apply mem_remove_minus).
      split; [apply G; exact H | exact H].
    + split; [apply G; exact E | exact E].
  - simpl andb. destruct (Str.mem "-" t1) eqn:E.
    + apply mem_remove_minus.
    + destruct t1 as [|c r]; [reflexivity|].
      assert (Er : Str.mem "-" r = false).
      { unfold Str.mem in *. simpl in E. apply orb_false_iff in E. tauto. }
      rewrite Er. exact E.
Qed.

Lemma float_insert_text_points (signed : bool) (text : string) (cursor : nat)
  (substring : string) :
  Str.count "." text <= 1 ->
  Str.count "." (float_insert_text signed text cursor substring) <= 1.
Proof.
  intros Hp. unfold float_insert_text.
  pose proof (float_substring_points text substring) as Hs.
  set (s := float_filtered text substring) in *.
  assert (H1 : Str.count "." (text_insert text cursor s) <= 1).
  { unfold text_insert. rewrite !count_append.
    rewrite <- (take_drop cursor text) in Hs at 1.
    rewrite count_append in Hs. lia. }
  set (t1 := text_insert text cursor s) in *.
  cbv zeta.
  destruct (negb signed && Str.mem "-" t1).
  - now rewrite count_remove_minus_point.
  - destruct t1 as [|c r]; [exact H1|].
    destruct (Str.mem "-" r); [|exact H1].
    simpl in *. now rewrite count_remove_minus_point.
Qed.

Lemma float_insert_text_normalized (signed : bool) (text : string)
  (cursor : nat) (substring : string) :
  Str.count "." text <= 1 ->
  float_normalized signed (float_insert_text signed text cursor substring).
Proof.
  intros Hp. split.
  - apply float_insert_text_minus.
  - now apply float_insert_text_points.
Qed.

Lemma float_insertions_snoc (signed : bool) (text : string)
  (ops : list insertion) (op : insertion) :
  float_insertions signed text (ops ++ [op])
  = float_insert_text signed (float_insertions signed text ops)
      (fst op) (snd op).
Proof. unfold float_insertions. now rewrite fold_left_app. Qed.

Lemma float_insertions_points (signed : bool) (text : string)
  (ops : list insertion) :
  Str.count "." text <= 1 ->
  Str.count "." (float_insertions signed text ops) <= 1.
Proof.
  intros Hp. induction ops as [|op ops IH] using rev_ind; [exact Hp|].
  rewrite float_insertions_snoc. now apply float_insert_text_points.
Qed.

Lemma remove_minus_id (s : string) :
  Str.mem "-" s = false -> remove_minus s = s.
Proof.
  unfold Str.mem, remove_minus.
  induction s as [|c r IH]; cbn [Str.existsb Str.filter]; [reflexivity|].
  intros H. apply orb_false_iff in H as [Hc Hr].
  assert (Hm : is_minus c = false)
    by (unfold is_minus; now rewrite Ascii.eqb_sym).
  rewrite Hm. cbn [negb]. now rewrite IH.
Qed.

(** A minus sign that is not wanted is taken out where it stands: the
    text after an insertion is the text the toolkit made of it, less its
    minus signs (an unsigned field) or less the minus signs behind its
    first character (a signed field). *)
Lemma float_insert_text_drops_minus (signed : bool) (text : string)
  (cursor : nat) (substring : string) :
  float_insert_text signed text cursor substring
  = let typed := text_insert text cursor (float_filtered text substring) in
    if signed
    then match typed with
         | String c r => String c (remove_minus r)
         | EmptyString => EmptyString
         end
    else remove_minus typed.
Proof.
  unfold float_insert_text.
  set (typed := text_insert text cursor (float_filtered text substring)).
  cbv zeta. destruct signed; cbn [negb andb].
  - destruct typed as [|c r]; [reflexivity|].
    destruct (Str.mem "-" r) eqn:E; [reflexivity|].
    now rewrite (remove_minus_id _ E).
  - destruct (Str.mem "-" typed) eqn:E; [reflexivity|].
    rewrite (remove_minus_id _ E). destruct typed as [|c r]; [reflexivity|].
    assert (Er : Str.mem "-" r = false).
    { unfold Str.mem in *. cbn [Str.existsb] in E.
      apply orb_false_iff in E. tauto. }
    now rewrite Er.
Qed.

(** C6.  A float field whose text holds at most one decimal point to
    begin with (the empty text, or the text of a number) shows a
    normalized text after each insertion of any sequence of insertions:
    no minus sign when the field is unsigned; at most one minus sign, and
    only in front, when it is signed; at most one decimal point.  A minus
    sign behind the first character is removed, not moved to the front:
    what an insertion leaves is the text as typed less those minus
    signs, so typing "-" behind the "5" of a signed field leaves "5". *)
Theorem float_text_normalized_after_each_insertion
  (signed : bool) (text : string) (ops : list insertion) (n : nat) :
  Str.count "." text <= 1 ->
  0 < n <= List.length ops ->
  float_normalized signed (float_insertions signed text (firstn n ops))
  /\ (forall t cursor substring,
         float_insert_text signed t cursor substring
         = let typed := text_insert t cursor (float_filtered t substring) in
           if signed
           then match typed with
                | String c r => String c (remove_minus r)
                | EmptyString => EmptyString
                end
           else remove_minus typed)
  /\ float_insert_text true "5" 1 "-" = "5".
Proof.
  intros Hp [Hn Hle]. split; [|split].
  - destruct (firstn n ops) as [|op done] eqn:E using rev_ind.
    + apply (f_equal (@List.length _)) in E. rewrite length_firstn in E.
      simpl in E. lia.
    + rewrite float_insertions_snoc.
      apply float_insert_text_normalized.
      now apply float_insertions_points.
  - intros t cursor substring. apply float_insert_text_drops_minus.
  - reflexivity.
Qed.

Lemma float_text_normalized_after_each_insertion_witness :
  float_normalized true
    (float_insertions true "1.5" (firstn 2 [(0, "-"); (3, "-2.5"); (1, "x")])).
Proof.
  apply (proj1 (float_text_normalized_after_each_insertion
                  true "1.5" [(0, "-"); (3, "-2.5"); (1, "x")] 2
                  ltac:(simpl; lia) ltac:(simpl; lia))).
Defined.

(* ================================================================= *)
(** ** Reading numbers *)

Lemma digit_not_space : forall c, Str.is_digit c = true -> Str.is_space c = false.
Proof. ascii_cases. Qed.

Lemma float_char_not_space :
  forall c, float_char c = true -> Str.is_space c = false.
Proof. ascii_cases. Qed.

Lemma float_pat_keeps_float_char :
  forall c, float_pat_keeps c = true -> float_char c = true.
Proof. ascii_cases. Qed.

Lemma float_char_cases :
  forall c, float_char c = true ->
            Ascii.eqb "-" c = true
            \/ (Ascii.eqb "-" c = false
                /\ (Str.is_digit c = true \/ Ascii.eqb "." c = true)).
Proof. ascii_cases. Qed.

Lemma digit_not_colon : forall c, Str.is_digit c = true -> Ascii.eqb ":" c = false.
Proof. ascii_cases. Qed.

Lemma split_sign_digit (c : ascii) (r : string) :
  Str.is_digit c = true -> split_sign (String c r) = (false, String c r).
Proof.
  revert c. intros [[] [] [] [] [] [] [] []]; vm_compute;
    try reflexivity; discriminate.
Qed.

Lemma split_sign_point (r : string) :
  split_sign (String "." r) = (false, String "." r).
Proof. reflexivity. Qed.

Lemma lstrip_no_space (p : ascii -> bool) (s : string) :
  (forall c, p c = true -> Str.is_space c = false) ->
  Str.forallb p s = true -> Str.lstrip s = s.
Proof.
  intros W. destruct s as [|c r]; simpl; [reflexivity|].
  intros H; apply andb_true_iff in H as [Hc _]. now rewrite (W _ Hc).
Qed.

Lemma rstrip_no_space (p : ascii -> bool) (s : string) :
  (forall c, p c = true -> Str.is_space c = false) ->
  Str.forallb p s = true -> Str.rstrip s = s.
Proof.
  intros W. induction s as [|c r IH]; simpl; [reflexivity|].
  intros H; apply andb_true_iff in H as [Hc Hr].
  rewrite (IH Hr), (W _ Hc). now destruct r.
Qed.

Lemma strip_no_space (p : ascii -> bool) (s : string) :
  (forall c, p c = true -> Str.is_space c = false) ->
  Str.forallb p s = true -> Str.strip s = s.
Proof.
  intros W H. unfold Str.strip.
  rewrite (lstrip_no_space p), (rstrip_no_space p); auto.
Qed.

Lemma digitpart_digits (s : string) :
  forall st acc n,
    Str.forallb Str.is_digit s = true ->
    s <> "" \/ st = AfterDigit ->
    digitpart st acc n s = Some (decimal_value acc s, n + String.length s).
Proof.
  induction s as [|c r IH]; intros st acc n Hd Hs.
  - destruct Hs as [Hs | ->]; [congruence|]. simpl. f_equal. f_equal. lia.
  - simpl in Hd. apply andb_true_iff in Hd as [Hc Hr].
    cbn [digitpart decimal_value String.length]. rewrite Hc.
    rewrite IH; auto. f_equal. f_equal. lia.
Qed.

Lemma digit_run_digits (s : string) :
  Str.forallb Str.is_digit s = true -> digit_run s = (s, "").
Proof.
  induction s as [|c r IH]; [reflexivity|].
  cbn [Str.forallb digit_run]. intros H.
  apply andb_true_iff in H as [Hc Hr]. now rewrite Hc, (IH Hr).
Qed.

(** What [int()] makes of a run of digits: the run has been read when
    its length is looked at. *)
Lemma py_int_run (s : string) :
  Str.forallb Str.is_digit s = true -> s <> "" ->
  py_int s
  = if (max_str_digits <? String.length s)%nat
    then Raise (exceeds_the_limit (String.length s))
    else Return (decimal_value 0 s).
Proof.
  intros Hd Hs. unfold py_int.
  rewrite (lstrip_no_space Str.is_digit) by (auto using digit_not_space).
  destruct s as [|c r]; [congruence|].
  pose proof Hd as Hd'. cbn [Str.forallb] in Hd'.
  apply andb_true_iff in Hd' as [Hc _].
  rewrite (split_sign_digit _ _ Hc), (digit_run_digits _ Hd).
  rewrite digitpart_digits by auto. cbn [Nat.add Str.forallb].
  reflexivity.
Qed.

Lemma py_int_digits (s : string) :
  Str.forallb Str.is_digit s = true -> s <> "" ->
  String.length s <= max_str_digits ->
  py_int s = Return (decimal_value 0 s).
Proof.
  intros Hd Hs Hl. rewrite (py_int_run _ Hd Hs).
  now apply Nat.ltb_ge in Hl as ->.
Qed.

Lemma py_int_too_long (s : string) :
  Str.forallb Str.is_digit s = true ->
  max_str_digits < String.length s ->
  py_int s = Raise (exceeds_the_limit (String.length s)).
Proof.
  intros Hd Hl. rewrite (py_int_run _ Hd).
  - now apply Nat.ltb_lt in Hl as ->.
  - intros ->. inversion Hl.
Qed.

Lemma names_intro (before path after : string) :
  names path (before ++ path ++ after).
Proof. now exists before, after. Qed.

Lemma parse_error_names (p : string) (c : widget_class) (e : exn) :
  exists msg, parse_error p c e = InputParseError msg /\ names p msg.
Proof. eexists; split; [reflexivity|]. apply names_intro. Qed.

(* ================================================================= *)
(** ** The int field *)

Lemma int_insert_text_digits (text : string) (cursor : nat) (raw : string) :
  Str.forallb Str.is_digit text = true ->
  Str.forallb Str.is_digit (int_insert_text text cursor raw) = true.
Proof.
  intros H. unfold int_insert_text, text_insert.
  rewrite !forallb_append, forallb_take, forallb_filter, forallb_drop; auto.
Qed.

Lemma int_insertions_digits (ops : list insertion) (text : string) :
  Str.forallb Str.is_digit text = true ->
  Str.forallb Str.is_digit (int_insertions text ops) = true.
Proof.
  revert text; induction ops as [|op ops IH]; intros text H; [exact H|].
  apply IH. now apply int_insert_text_digits.
Qed.

Lemma collect_leaf (c : widget_class) (p : string) :
  collect_properties (Widget c p []) = own_property c p.
Proof. simpl. now destruct (own_property c p). Qed.

(** C5, as the code has it.  Whatever is typed or pasted into an int
    field, non-digits are dropped on the way in (a raw text entered into
    the empty field leaves its digits, in order).  The text of the field
    then reads as a number unless it is empty or longer than the 4300
    digits [int()] reads: a non-empty text of at most 4300 digits is
    collected as the integer its digits spell; the empty text, and a
    text of more digits, raise the parse error, whose message names the
    field's path.  "12a3" gives 123. *)
Theorem int_field_strips_then_parses (ops : list insertion) (path : string) :
  path <> "" ->
  let text := int_insertions "" ops in
  let field := Widget (LabelledIntInput text) path [] in
  (forall raw, int_insertions "" [(0, raw)] = Str.filter Str.is_digit raw)
  /\ Str.forallb Str.is_digit text = true
  /\ (text <> "" -> String.length text <= max_str_digits ->
      input_value (LabelledIntInput text)
      = Return (VInt (decimal_value 0 text))
      /\ collect_properties field
         = Return [(path, VInt (decimal_value 0 text))])
  /\ (text = "" ->
      exists msg, collect_properties field = Raise (InputParseError msg)
                  /\ names path msg)
  /\ (max_str_digits < String.length text ->
      input_value (LabelledIntInput text)
      = Raise (exceeds_the_limit (String.length text))
      /\ exists msg, collect_properties field = Raise (InputParseError msg)
                     /\ names path msg)
  /\ (int_insertions "" [(0, "12a3")] = "123"
      /\ py_int "123" = Return 123%Z).
Proof.
  intros Hp text field.
  assert (Hd : Str.forallb Str.is_digit text = true)
    by (apply int_insertions_digits; reflexivity).
  assert (Hb : is_bound (LabelledIntInput text) path = true).
  { simpl. destruct (String.eqb_spec path ""); [contradiction | reflexivity]. }
  assert (Hf : forall e, input_value (LabelledIntInput text) = Raise e ->
                         exists msg,
                           collect_properties field
                           = Raise (InputParseError msg)
                           /\ names path msg).
  { intros e He. unfold field. rewrite collect_leaf. unfold own_property.
    rewrite Hb, He.
    destruct (parse_error_names path (LabelledIntInput text) e)
      as (msg & -> & Hn).
    now exists msg. }
  split; [|split; [|split; [|split; [|split]]]].
  - intros raw. unfold int_insertions, int_insert_text, text_insert. simpl.
    apply append_empty_r.
  - exact Hd.
  - intros Hs Hl.
    assert (Hv : input_value (LabelledIntInput text)
                 = Return (VInt (decimal_value 0 text))).
    { cbn [input_value]. now rewrite py_int_digits. }
    split; [exact Hv|].
    unfold field. rewrite collect_leaf. unfold own_property.
    now rewrite Hb, Hv.
  - intros He. apply (Hf (invalid_literal "")). now rewrite He.
  - intros Hl.
    assert (Hv : input_value (LabelledIntInput text)
                 = Raise (exceeds_the_limit (String.length text))).
    { cbn [input_value]. now rewrite py_int_too_long. }
    split; [exact Hv | exact (Hf _ Hv)].
  - split; reflexivity.
Qed.

Lemma int_field_strips_then_parses_witness :
  int_insertions "" [(0, "4 2"); (1, "x7")] = "472"
  /\ collect_properties
       (Widget (LabelledIntInput "472") "trainer/eval_off_show_last" [])
     = Return [("trainer/eval_off_show_last", VInt 472)].
Proof.
  split; [reflexivity|].
  refine (proj2 (proj1 (proj2 (proj2
    (int_field_strips_then_parses [(0, "4 2"); (1, "x7")]
       "trainer/eval_off_show_last" _))) _ _)).
  - discriminate.
  - discriminate.
  - apply Nat.leb_le. reflexivity.
Defined.

(** C5 as stated fails: 4301 nines pasted into the empty int field make
    a text of digits that is not empty and does not read as a number,
    one digit past the 4300 that [int()] reads. *)
Lemma int_text_past_the_limit_does_not_parse :
  ~ (forall ops : list insertion,
        int_insertions "" ops <> "" ->
        exists z,
          input_value (LabelledIntInput (int_insertions "" ops))
          = Return (VInt z)).
Proof.
  intros H. destruct (H [(0, nines_past_the_limit)]) as (z & Hz).
  - vm_compute. discriminate.
  - vm_compute in Hz. discriminate.
Qed.

(* ================================================================= *)
(** ** The float field: what its texts read as *)

Lemma digit_or_point_lower : forall c, digit_or_point c = true -> Str.lower c = c.
Proof. ascii_cases. Qed.

Lemma digit_or_point_not_e :
  forall c, digit_or_point c = true -> Ascii.eqb "e" c = false.
Proof. ascii_cases. Qed.

Lemma digit_or_point_cases :
  forall c, digit_or_point c = true ->
            (Str.is_digit c = true /\ Ascii.eqb "." c = false)
            \/ (Str.is_digit c = false /\ Ascii.eqb "." c = true).
Proof. ascii_cases. Qed.

Lemma map_lower_id (s : string) :
  Str.forallb digit_or_point s = true -> Str.map Str.lower s = s.
Proof.
  induction s as [|c r IH]; simpl; [reflexivity|].
  intros H; apply andb_true_iff in H as [Hc Hr].
  now rewrite (digit_or_point_lower _ Hc), IH.
Qed.

Lemma count_e_none (s : string) :
  Str.forallb digit_or_point s = true -> Str.count "e" s = 0.
Proof.
  induction s as [|c r IH]; cbn [Str.forallb Str.count]; [reflexivity|].
  intros H; apply andb_true_iff in H as [Hc Hr].
  rewrite (IH Hr).
  now rewrite (digit_or_point_not_e _ Hc).
Qed.

Lemma digits_of_pointless (s : string) :
  Str.forallb digit_or_point s = true -> Str.count "." s = 0 ->
  Str.forallb Str.is_digit s = true.
Proof.
  induction s as [|c r IH]; cbn [Str.forallb Str.count]; [reflexivity|].
  intros H Hc; apply andb_true_iff in H as [Hd Hr].
  destruct (digit_or_point_cases _ Hd) as [[D P] | [D P]]; rewrite P in Hc.
  - rewrite D. apply IH; [exact Hr | lia].
  - discriminate.
Qed.

Lemma existsb_digit_digits (s : string) :
  Str.forallb Str.is_digit s = true ->
  Str.existsb Str.is_digit s = negb (Nat.eqb (String.length s) 0).
Proof.
  destruct s as [|c r]; simpl; [reflexivity|].
  intros H; apply andb_true_iff in H as [-> _]. reflexivity.
Qed.

Lemma int_part_digits (ip : string) :
  Str.forallb Str.is_digit ip = true ->
  match ip with
  | "" => Some (0%Z, 0)
  | _ => digitpart AtStart 0 0 ip
  end = Some (decimal_value 0 ip, String.length ip).
Proof.
  intros H. destruct ip as [|c r]; [reflexivity|].
  rewrite digitpart_digits; auto. left; discriminate.
Qed.

(** A text of digits with at most one decimal point is a decimal literal
    exactly when it holds a digit. *)
Lemma decimal_literal_digits_point (body : string) :
  Str.forallb digit_or_point body = true ->
  Str.count "." body <= 1 ->
  (decimal_literal body <> None <-> Str.existsb Str.is_digit body = true).
Proof.
  intros Ha Hp. unfold decimal_literal.
  rewrite (split_once_absent "e" body (count_e_none _ Ha)).
  destruct (Str.split_once "." body) as [ip [f|]] eqn:E.
  - apply split_once_some in E as [-> Hip].
    rewrite forallb_append in Ha. apply andb_true_iff in Ha as [Hai Haf].
    cbn [Str.forallb] in Haf. apply andb_true_iff in Haf as [_ Haf].
    rewrite count_append in Hp. cbn [Str.count] in Hp.
    change (Ascii.eqb "." ".") with true in Hp. cbv iota in Hp.
    assert (Hdi : Str.forallb Str.is_digit ip = true)
      by (apply digits_of_pointless; auto).
    assert (Hdf : Str.forallb Str.is_digit f = true)
      by (apply digits_of_pointless; auto; lia).
    rewrite (int_part_digits _ Hdi), (int_part_digits _ Hdf).
    cbn [exponent].
    rewrite existsb_append. cbn [Str.existsb].
    change (Str.is_digit ".") with false. cbn [orb].
    rewrite !existsb_digit_digits by assumption.
    destruct ip, f; cbn; split; try congruence; try discriminate; auto.
  - apply split_once_none in E as [-> Hc].
    assert (Hd : Str.forallb Str.is_digit body = true)
      by (apply digits_of_pointless; auto).
    rewrite (int_part_digits _ Hd). cbn [exponent].
    rewrite existsb_digit_digits by assumption.
    destruct body; cbn; split; try congruence; try discriminate; auto.
Qed.

Lemma not_a_name (body name : string) :
  Str.forallb digit_or_point body = true ->
  Str.forallb digit_or_point name = false ->
  String.eqb body name = false.
Proof.
  intros Hb Hn. destruct (String.eqb_spec body name) as [->|]; congruence.
Qed.

Lemma float_of_body_digits_point (neg : bool) (body : string) :
  Str.forallb digit_or_point body = true ->
  Str.count "." body <= 1 ->
  (float_of_body neg body <> None <-> Str.existsb Str.is_digit body = true).
Proof.
  intros Ha Hp. unfold float_of_body. rewrite (map_lower_id _ Ha).
  rewrite !(not_a_name body) by (auto; reflexivity). cbn [orb].
  rewrite <- (decimal_literal_digits_point body Ha Hp).
  destruct (decimal_literal body); split; congruence.
Qed.

Lemma minus_free_digit_or_point (s : string) :
  Str.forallb float_char s = true -> Str.mem "-" s = false ->
  Str.forallb digit_or_point s = true.
Proof.
  unfold Str.mem. induction s as [|c r IH]; cbn [Str.forallb Str.existsb];
    [reflexivity|].
  intros H Hm; apply andb_true_iff in H as [Hc Hr].
  apply orb_false_iff in Hm as [Hm1 Hm2]. rewrite (IH Hr Hm2), andb_true_r.
  destruct (float_char_cases _ Hc) as [E | [_ [D | P]]]; [congruence | |].
  - unfold digit_or_point. now rewrite D.
  - unfold digit_or_point. rewrite Ascii.eqb_sym, P. apply orb_true_r.
Qed.

Lemma py_float_of_shape (text : string) :
  float_shape text ->
  ((exists f, py_float text = Return f)
   <-> Str.existsb Str.is_digit text = true).
Proof.
  intros (Ha & Hm & Hp). unfold py_float.
  rewrite (strip_no_space float_char) by (auto using float_char_not_space).
  assert (K : forall neg body,
             Str.forallb digit_or_point body = true ->
             Str.count "." body <= 1 ->
             ((exists f,
                  match float_of_body neg body with
                  | Some f => Return f
                  | None =>
                      Raise (ValueError
                               ("could not convert string to float: "
                                ++ str_repr text))
                  end = Return f)
              <-> Str.existsb Str.is_digit body = true)).
  { intros neg body Hb Hc.
    rewrite <- (float_of_body_digits_point neg body Hb Hc).
    destruct (float_of_body neg body) as [f|]; split.
    - discriminate.
    - intros _. now exists f.
    - intros (f & Hf). discriminate.
    - congruence. }
  destruct text as [|c r].
  - cbn. split; [intros (f & Hf); discriminate | discriminate].
  - cbn [Str.drop] in Hm.
    pose proof Ha as Ha'. cbn [Str.forallb] in Ha'.
    apply andb_true_iff in Ha' as [Hc Hr].
    cbn [Str.count] in Hp.
    destruct (float_char_cases _ Hc) as [E | [E [D | P]]].
    + apply Ascii.eqb_eq in E. subst c.
      cbn [split_sign]. cbn [Str.existsb].
      change (Str.is_digit "-") with false. cbn [orb].
      change (Ascii.eqb "." "-") with false in Hp. cbv iota in Hp.
      apply K; [now apply minus_free_digit_or_point | lia].
    + rewrite (split_sign_digit _ _ D).
      apply K.
      * cbn [Str.forallb]. unfold digit_or_point at 1. rewrite D. cbn [orb andb].
        now apply minus_free_digit_or_point.
      * exact Hp.
    + apply Ascii.eqb_eq in P. subst c. rewrite split_sign_point.
      apply K.
      * cbn [Str.forallb]. change (digit_or_point ".") with true. cbn [andb].
        now apply minus_free_digit_or_point.
      * exact Hp.
Qed.

Lemma float_insert_text_chars (signed : bool) (text : string) (cursor : nat)
  (substring : string) :
  Str.forallb float_char text = true ->
  Str.forallb float_char (float_insert_text signed text cursor substring)
  = true.
Proof.
  intros Ha. unfold float_insert_text.
  assert (F : forall x, Str.forallb float_char (Str.filter float_pat_keeps x)
                        = true).
  { intros x. apply (forallb_weaken float_pat_keeps).
    - apply float_pat_keeps_float_char.
    - apply forallb_filter. }
  set (s := float_filtered text substring).
  assert (Hs : Str.forallb float_char s = true).
  { unfold s, float_filtered. destruct (Str.mem "." text); [apply F|].
    destruct (Str.split_once "." substring) as [a [b|]]; [|apply F].
    rewrite !forallb_append, !F. reflexivity. }
  assert (H1 : Str.forallb float_char (text_insert text cursor s) = true).
  { unfold text_insert.
    rewrite !forallb_append, forallb_take, Hs, forallb_drop; auto. }
  set (t1 := text_insert text cursor s) in *. cbv zeta.
  destruct (negb signed && Str.mem "-" t1).
  - now apply forallb_filter_keeps.
  - destruct t1 as [|c r]; [reflexivity|].
    destruct (Str.mem "-" r); [|exact H1].
    cbn [Str.forallb] in *. apply andb_true_iff in H1 as [-> Hr].
    cbn [andb]. now apply forallb_filter_keeps.
Qed.

Lemma mem_drop_one (c : ascii) (s : string) :
  Str.mem c s = false -> Str.mem c (Str.drop 1 s) = false.
Proof.
  destruct s as [|d r]; [auto|]. unfold Str.mem. cbn [Str.existsb Str.drop].
  intros H. apply orb_false_iff in H. tauto.
Qed.

Lemma float_insertions_shape (signed : bool) (ops : list insertion) :
  float_shape (float_insertions signed "" ops).
Proof.
  induction ops as [|op ops IH] using rev_ind.
  - repeat split; cbn; auto.
  - rewrite float_insertions_snoc. destruct IH as (Ha & Hm & Hp).
    repeat split.
    + now apply float_insert_text_chars.
    + pose proof (float_insert_text_minus signed
                    (float_insertions signed "" ops) (fst op) (snd op)) as H.
      cbv zeta in H. destruct signed; [tauto | now apply mem_drop_one].
    + now apply float_insert_text_points.
Qed.

(** C7, as the code has it.  The text a float field reaches from the
    empty text by insertions reads as a float exactly when it holds a
    digit: of the normalized texts, the empty text and also the texts
    "-", "." and "-." do not read. *)
Theorem float_text_parses_iff_has_digit
  (signed : bool) (ops : list insertion) :
  let text := float_insertions signed "" ops in
  (exists f, input_value (LabelledFloatInput signed text) = Return (VFloat f))
  <-> Str.existsb Str.is_digit text = true.
Proof.
  intros text.
  rewrite <- (py_float_of_shape text (float_insertions_shape signed ops)).
  cbn [input_value]. destruct (py_float text) as [f|e]; split.
  - intros _. now exists f.
  - intros _. now exists f.
  - intros (f & Hf); discriminate.
  - intros (f & Hf); discriminate.
Qed.

(** C7 as stated fails: the text "." is reached by typing a decimal point
    into the empty unsigned field, it is normalized and not empty, and
    [float(".")] raises. *)
Lemma float_text_point_does_not_parse :
  ~ (forall (signed : bool) (ops : list insertion),
        float_insertions signed "" ops <> "" ->
        exists f,
          input_value (LabelledFloatInput signed
                         (float_insertions signed "" ops))
          = Return (VFloat f)).
Proof.
  intros H. destruct (H false [(0, ".")]) as (f & Hf).
  - discriminate.
  - vm_compute in Hf. discriminate.
Qed.

(* ================================================================= *)
(** ** Collecting the form *)

Lemma widget_induction (P : widget -> Prop) :
  (forall c p children, Forall P children -> P (Widget c p children)) ->
  forall w, P w.
Proof.
  intros step. fix IH 1. intros [c p children]. apply step.
  induction children as [|x r IHr]; constructor; [apply IH | exact IHr].
Qed.

Lemma assoc_set_same {A : Type} (k : string) (v : A) (d : list (string * A)) :
  assoc k (assoc_set k v d) = Some v.
Proof.
  induction d as [|[k' w] r IH]; simpl.
  - now rewrite String.eqb_refl.
  - destruct (String.eqb_spec k k') as [->|Hn]; simpl.
    + now rewrite String.eqb_refl.
    + destruct (String.eqb_spec k k'); [contradiction | exact IH].
Qed.

Lemma assoc_set_other {A : Type} (k k' : string) (v : A)
  (d : list (string * A)) :
  k <> k' -> assoc k (assoc_set k' v d) = assoc k d.
Proof.
  intros Hn. induction d as [|[k0 w] r IH]; simpl.
  - destruct (String.eqb_spec k k'); [contradiction | reflexivity].
  - destruct (String.eqb_spec k' k0) as [->|H0]; simpl.
    + destruct (String.eqb_spec k k0); [contradiction | reflexivity].
    + destruct (String.eqb_spec k k0); [reflexivity | exact IH].
Qed.

Lemma assoc_set_keeps {A : Type} (k k' : string) (v : A)
  (d : list (string * A)) :
  assoc k d <> None -> assoc k (assoc_set k' v d) <> None.
Proof.
  destruct (String.eqb_spec k k') as [->|Hn].
  - rewrite assoc_set_same. discriminate.
  - now rewrite assoc_set_other.
Qed.

Lemma assoc_update_keeps_left {A : Type} (k : string)
  (e d : list (string * A)) :
  assoc k d <> None -> assoc k (assoc_update d e) <> None.
Proof.
  unfold assoc_update. revert d.
  induction e as [|[k' v] r IH]; intros d H; simpl; [exact H|].
  apply IH. now apply assoc_set_keeps.
Qed.

Lemma assoc_update_keeps_right {A : Type} (k : string)
  (e d : list (string * A)) :
  assoc k e <> None -> assoc k (assoc_update d e) <> None.
Proof.
  unfold assoc_update. revert d.
  induction e as [|[k' v] r IH]; intros d H; simpl in *; [congruence|].
  destruct (String.eqb_spec k k') as [->|Hn].
  - apply (assoc_update_keeps_left k' r). rewrite assoc_set_same. discriminate.
  - now apply IH.
Qed.

Lemma field_ok_update_left (d e : dict) (f : widget_class * string) :
  field_ok d f -> field_ok (assoc_update d e) f.
Proof.
  intros [H1 H2]. split; [exact H1 | now apply assoc_update_keeps_left].
Qed.

Lemma field_ok_update_right (d e : dict) (f : widget_class * string) :
  field_ok e f -> field_ok (assoc_update d e) f.
Proof.
  intros [H1 H2]. split; [exact H1 | now apply assoc_update_keeps_right].
Qed.

Lemma collect_unfold (c : widget_class) (p : string) (children : list widget) :
  collect_properties (Widget c p children)
  = match own_property c p with
    | Raise e => Raise e
    | Return ret => collect_children children ret
    end.
Proof.
  cbn [collect_properties]. destruct (own_property c p) as [ret|e]; [|reflexivity].
  revert ret. induction children as [|x r IH]; intros ret; [reflexivity|].
  cbn [collect_children]. destruct (collect_properties x); [apply IH | reflexivity].
Qed.

Lemma collect_children_return (cs : list widget) :
  Forall (fun x => forall d, collect_properties x = Return d ->
                             Forall (field_ok d) (fields x)) cs ->
  forall ret d,
    collect_children cs ret = Return d ->
    (forall f, field_ok ret f -> field_ok d f)
    /\ Forall (field_ok d) (flat_map fields cs).
Proof.
  induction 1 as [|x r Hx Hr IH]; intros ret d H; cbn [collect_children] in H.
  - inversion H; subst. split; [auto | constructor].
  - destruct (collect_properties x) as [dx|] eqn:Cx; [|discriminate].
    destruct (IH _ _ H) as [Keep Rest]. split.
    + intros f Hf. apply Keep. now apply field_ok_update_left.
    + cbn [flat_map]. apply Forall_app. split; [|exact Rest].
      eapply Forall_impl; [|exact (Hx dx eq_refl)].
      intros f Hf. apply Keep. now apply field_ok_update_right.
Qed.

(** A form that is collected had every field read, and the dictionary
    holds every field's path. *)
Lemma collect_return_complete :
  forall w d, collect_properties w = Return d -> Forall (field_ok d) (fields w).
Proof.
  induction w as [c p children IH] using widget_induction.
  intros d. rewrite collect_unfold. cbn [fields]. unfold own_property.
  destruct (is_bound c p).
  - destruct (input_value c) as [v|e] eqn:V; [|discriminate].
    intros H. destruct (collect_children_return _ IH _ _ H) as [Keep Rest].
    constructor; [|exact Rest].
    apply Keep. split; [now exists v | cbn]. now rewrite String.eqb_refl.
  - intros H. now destruct (collect_children_return _ IH _ _ H).
Qed.

Lemma reports_app_l (a b : list (widget_class * string)) (e : exn) :
  reports a e -> reports (a ++ b) e.
Proof.
  intros (c & p & e0 & Hi & H). exists c, p, e0.
  split; [apply in_or_app; now left | exact H].
Qed.

Lemma reports_app_r (a b : list (widget_class * string)) (e : exn) :
  reports b e -> reports (a ++ b) e.
Proof.
  intros (c & p & e0 & Hi & H). exists c, p, e0.
  split; [apply in_or_app; now right | exact H].
Qed.

Lemma collect_children_raise (cs : list widget) :
  Forall (fun x => forall e, collect_properties x = Raise e ->
                             reports (fields x) e) cs ->
  forall ret e,
    collect_children cs ret = Raise e -> reports (flat_map fields cs) e.
Proof.
  induction 1 as [|x r Hx Hr IH]; intros ret e H; cbn [collect_children] in H.
  - discriminate.
  - cbn [flat_map]. destruct (collect_properties x) as [dx|ex] eqn:Cx.
    + apply reports_app_r. eapply IH; eassumption.
    + inversion H; subst. apply reports_app_l. now apply Hx.
Qed.

(** A form that is not collected failed on one of its fields, and the
    error is that field's. *)
Lemma collect_raise_reports :
  forall w e, collect_properties w = Raise e -> reports (fields w) e.
Proof.
  induction w as [c p children IH] using widget_induction.
  intros e. rewrite collect_unfold. cbn [fields]. unfold own_property.
  destruct (is_bound c p).
  - destruct (input_value c) as [v|e0] eqn:V.
    + intros H. apply reports_app_r. eapply collect_children_raise; eassumption.
    + intros H. inversion H; subst. apply reports_app_l.
      exists c, p, e0. split; [now left | auto].
  - intros H. apply reports_app_r. eapply collect_children_raise; eassumption.
Qed.

Lemma reports_names (fs : list (widget_class * string)) (e : exn) :
  reports fs e ->
  exists c p msg,
    In (c, p) fs /\ (exists e0, input_value c = Raise e0)
    /\ e = InputParseError msg /\ names p msg.
Proof.
  intros (c & p & e0 & Hi & Hv & ->).
  destruct (parse_error_names p c e0) as (msg & -> & Hn).
  exists c, p, msg. eauto.
Qed.

Lemma collect_fails_when_a_field_fails (w : widget) :
  (exists c p e, In (c, p) (fields w) /\ input_value c = Raise e) ->
  exists e, collect_properties w = Raise e.
Proof.
  intros (c & p & e & Hi & Hv).
  destruct (collect_properties w) as [d|e'] eqn:C; [|now exists e'].
  pose proof (collect_return_complete _ _ C) as Hall.
  rewrite Forall_forall in Hall. destruct (Hall _ Hi) as [[v Hv'] _].
  cbn in Hv'. congruence.
Qed.

(** [ConfigPopup.update_config] when the form is not collected. *)
Lemma ConfigPopup_update_config_on_parse_error
  (form : widget) (save_to_file : bool) (w : world) (msg : string) :
  collect_properties form = Raise (InputParseError msg) ->
  ConfigPopup.update_config form save_to_file w
  = (Return tt,
     mkWorld (config w) (katago_process w)
       (trace w ++ [SetInfoLabel msg;
                    Log (MsgException (InputParseError msg))
                      (Some OUTPUT_ERROR)])).
Proof.
  intros C. unfold ConfigPopup.update_config, bind, try_except_InputParseError,
    lift, emit, ret. rewrite C. cbn.
  now rewrite <- app_assoc.
Qed.

(** C3.  When a field of the form does not read, [collect_properties]
    raises the parse error of such a field, whose message names the
    field's path, and [ConfigPopup.update_config] does nothing but show
    that message and log it: the configuration is what it was, no
    setting is updated, the popup is not dismissed.  And whatever the
    form, [collect_properties] hands its caller either a dictionary that
    holds the path of every field, each of which was read, or that
    error: never a part of the dictionary. *)
Theorem parse_error_aborts_the_apply_cycle
  (form : widget) (save_to_file : bool) (w : world) :
  (exists c p e, In (c, p) (fields form) /\ input_value c = Raise e) ->
  (exists c p msg,
      In (c, p) (fields form)
      /\ (exists e, input_value c = Raise e)
      /\ names p msg
      /\ collect_properties form = Raise (InputParseError msg)
      /\ ConfigPopup.update_config form save_to_file w
         = (Return tt,
            mkWorld (config w) (katago_process w)
              (trace w ++ [SetInfoLabel msg;
                           Log (MsgException (InputParseError msg))
                             (Some OUTPUT_ERROR)])))
  /\ (forall form',
         match collect_properties form' with
         | Return d => Forall (field_ok d) (fields form')
         | Raise e => reports (fields form') e
         end).
Proof.
  intros Hfail. split.
  - destruct (collect_fails_when_a_field_fails form Hfail) as [e C].
    destruct (reports_names _ _ (collect_raise_reports _ _ C))
      as (c & p & msg & Hi & Hv & -> & Hn).
    exists c, p, msg. repeat split; auto.
    now apply ConfigPopup_update_config_on_parse_error.
  - intros form'. destruct (collect_properties form') as [d|e] eqn:C.
    + now apply collect_return_complete.
    + now apply collect_raise_reports.
Qed.

Lemma parse_error_aborts_the_apply_cycle_witness :
  ConfigPopup.update_config
    (Widget Plain ""
       [Widget (LabelledIntInput "150") "engine/visits" [];
        Widget (LabelledFloatInput true "-") "engine/max_time" []])
    true
    (mkWorld (VDict [("engine", VDict [("visits", VInt 100);
                                      ("max_time", VFloat (FFin 5))])])
       true [])
  = (Return tt,
     mkWorld (VDict [("engine", VDict [("visits", VInt 100);
                                      ("max_time", VFloat (FFin 5))])])
       true
       [SetInfoLabel
          "Could not parse value for engine/max_time (<class 'katrain.gui.popups.LabelledFloatInput'>): could not convert string to float: '-'";
        Log (MsgException
               (InputParseError
                  "Could not parse value for engine/max_time (<class 'katrain.gui.popups.LabelledFloatInput'>): could not convert string to float: '-'"))
          (Some OUTPUT_ERROR)]).
Proof.
  destruct (parse_error_aborts_the_apply_cycle
              (Widget Plain ""
                 [Widget (LabelledIntInput "150") "engine/visits" [];
                  Widget (LabelledFloatInput true "-") "engine/max_time" []])
              true
              (mkWorld (VDict [("engine", VDict [("visits", VInt 100);
                                                ("max_time", VFloat (FFin 5))])])
                 true []))
    as [(c & p & msg & _ & _ & _ & C & U) _].
  - exists (LabelledFloatInput true "-"), "engine/max_time".
    eexists. split; [cbn; auto | reflexivity].
  - rewrite U. vm_compute in C. inversion C. reflexivity.
Defined.

(* ================================================================= *)
(** ** Resolving a setting *)

Lemma assoc_set_id {A : Type} (k : string) (v : A) (d : list (string * A)) :
  assoc k d = Some v -> assoc_set k v d = d.
Proof.
  induction d as [|[k' w] r IH]; simpl; [discriminate|].
  destruct (String.eqb_spec k k') as [->|Hn].
  - intros H; inversion H; reflexivity.
  - intros H. now rewrite IH.
Qed.

Lemma lookup_in_empty (ks : list string) (leaf : string) :
  lookup_in ks leaf (VDict []) = None.
Proof. now destruct ks. Qed.

Lemma maps_along_empty (ks : list string) : maps_along ks (VDict []) = true.
Proof. now destruct ks. Qed.

Lemma get_setting_in_heals (ks : list string) (leaf : string) :
  forall c,
    maps_along ks c = true ->
    exists v c' created,
      get_setting_in ks leaf c = Return (v, c', created)
      /\ lookup_in ks leaf c' = Some v
      /\ match lookup_in ks leaf c with
         | Some v0 => v = v0 /\ c' = c /\ created = false
         | None => v = VStr "" /\ created = true
         end.
Proof.
  induction ks as [|k ks IH]; intros c Hm.
  - destruct c as [| | | | | |d]; try (cbn in Hm; discriminate).
    cbn [get_setting_in lookup_in].
    destruct (assoc leaf d) as [v|] eqn:E.
    + exists v, (VDict d), false. cbn [lookup_in]. rewrite E. auto.
    + exists (VStr ""), (VDict (assoc_set leaf (VStr "") d)), true.
      cbn [lookup_in]. rewrite assoc_set_same. auto.
  - destruct c as [| | | | | |d]; try (cbn in Hm; discriminate).
    cbn [get_setting_in lookup_in maps_along] in *.
    destruct (assoc k d) as [sub|] eqn:E.
    + destruct (IH sub Hm) as (v & sub' & cr & G & L & R). rewrite G.
      exists v, (VDict (assoc_set k sub' d)), cr.
      cbn [lookup_in]. rewrite assoc_set_same. repeat split; auto.
      destruct (lookup_in ks leaf sub) as [v0|].
      * destruct R as (-> & -> & ->). now rewrite (assoc_set_id _ _ _ E).
      * exact R.
    + destruct (IH (VDict []) (maps_along_empty ks))
        as (v & sub' & cr & G & L & R). rewrite G.
      rewrite lookup_in_empty in R.
      exists v, (VDict (assoc_set k sub' d)), cr.
      cbn [lookup_in]. rewrite assoc_set_same. tauto.
Qed.

Lemma set_properties_text_leaf (repr_value : pyval -> string)
  (text key : string) (w : world) :
  key <> "" ->
  set_properties repr_value (Widget (LabelledTextInput text) key []) w
  = match get_setting key w with
    | (Return r, w') =>
        (Return (Widget (LabelledTextInput (py_str repr_value (fst (fst r))))
                   key []), w')
    | (Raise e, w') => (Raise e, w')
    end.
Proof.
  intros Hk. cbn [set_properties is_bound].
  destruct (String.eqb_spec key "") as [|_]; [contradiction|]. cbn [negb].
  unfold bind, lift, ret. destruct (get_setting key w) as [[r|e] w']; reflexivity.
Qed.

(** C4, as the code has it.  When every level the path passes through, as
    far as it exists, is a dictionary, [get_setting] does not raise: it
    returns the value the path leads to afterwards; a path that exists
    leaves the world as it was, a path that does not is completed with
    empty dictionaries and an empty text at its end, which is the value
    returned, and the diagnostic is logged.  So resolving "x/y" in the
    empty configuration leaves [{"x": {"y": ""}}], and a text field bound
    to a missing path shows the empty text. *)
Theorem get_setting_creates_what_is_missing (key : string) (w : world) :
  let keys := Str.split "/" key in
  maps_along (removelast keys) (config w) = true ->
  (exists v w',
      get_setting key w = (Return (v, removelast keys, last keys ""), w')
      /\ lookup_path key (config w') = Some v
      /\ match lookup_path key (config w) with
         | Some v0 => v = v0 /\ w' = w
         | None =>
             v = VStr ""
             /\ trace w'
                = (trace w
                   ++ [Log (MsgSettingMissing key) (Some OUTPUT_ERROR)])%list
             /\ forall repr_value text,
                 key <> "" ->
                 set_properties repr_value
                   (Widget (LabelledTextInput text) key []) w
                 = (Return (Widget (LabelledTextInput "") key []), w')
         end)
  /\ get_setting "x/y" (mkWorld (VDict []) (katago_process w) (trace w))
     = (Return (VStr "", ["x"], "y"),
        mkWorld (VDict [("x", VDict [("y", VStr "")])]) (katago_process w)
          (trace w ++ [Log (MsgSettingMissing "x/y") (Some OUTPUT_ERROR)])).
Proof.
  intros keys Hm. split; [|reflexivity].
  destruct (get_setting_in_heals (removelast keys) (last keys "") (config w) Hm)
    as (v & c' & cr & G & L & R).
  assert (E : get_setting key w
              = (Return (v, removelast keys, last keys ""),
                 mkWorld c' (katago_process w)
                   (trace w
                    ++ (if cr
                        then [Log (MsgSettingMissing key) (Some OUTPUT_ERROR)]
                        else []))%list)).
  { unfold get_setting. fold keys. now rewrite G. }
  eexists v, _. split; [exact E|]. split; [exact L|].
  unfold lookup_path. fold keys. cbn [config trace].
  destruct (lookup_in (removelast keys) (last keys "") (config w)) as [v0|].
  - destruct R as (-> & -> & ->). split; [reflexivity|].
    rewrite app_nil_r. now destruct w.
  - destruct R as (-> & ->). repeat split.
    intros repr_value text Hk.
    rewrite (set_properties_text_leaf repr_value text key w Hk), E.
    reflexivity.
Qed.

Lemma get_setting_creates_what_is_missing_witness :
  exists v w',
    get_setting "engine/model"
      (mkWorld (VDict [("engine", VDict [("visits", VInt 100)])]) true [])
    = (Return (v, ["engine"], "model"), w')
    /\ lookup_path "engine/model" (config w') = Some v.
Proof.
  destruct (get_setting_creates_what_is_missing "engine/model"
              (mkWorld (VDict [("engine", VDict [("visits", VInt 100)])])
                 true []))
    as [(v & w' & G & L & _) _].
  - reflexivity.
  - exists v, w'. split; [exact G | exact L].
Defined.

(** C4 as stated fails: a path that runs through a setting which is not
    a dictionary makes [get_setting] raise.  In the store [{"x": 5}] the
    path "x/y" asks [y not in 5], a [TypeError]. *)
Lemma get_setting_raises_through_a_scalar :
  ~ (forall (key : string) (w : world),
        exists r w', get_setting key w = (Return r, w')).
Proof.
  intros H.
  destruct (H "x/y" (mkWorld (VDict [("x", VInt 5)]) true []))
    as (r & w' & G).
  vm_compute in G. discriminate.
Qed.

Lemma lookup_in_maps_along (ks : list string) (leaf : string) :
  forall c v, lookup_in ks leaf c = Some v -> maps_along ks c = true.
Proof.
  induction ks as [|k ks IH]; intros c v H;
    destruct c as [| | | | | |d]; try (cbn in H; discriminate);
    cbn [lookup_in maps_along] in *; [reflexivity|].
  destruct (assoc k d) as [sub|]; [now apply (IH sub v) | reflexivity].
Qed.

Lemma get_setting_in_found (ks : list string) (leaf : string) (c v : pyval) :
  lookup_in ks leaf c = Some v ->
  get_setting_in ks leaf c = Return (v, c, false).
Proof.
  intros H.
  destruct (get_setting_in_heals ks leaf c (lookup_in_maps_along _ _ _ _ H))
    as (v' & c' & cr & G & _ & R).
  rewrite H in R. destruct R as (-> & -> & ->). exact G.
Qed.

Lemma get_setting_found (key : string) (w : world) (v : pyval) :
  lookup_path key (config w) = Some v ->
  get_setting key w
  = (Return (v, removelast (Str.split "/" key), last (Str.split "/" key) ""),
     w).
Proof.
  intros H. unfold get_setting. unfold lookup_path in H.
  rewrite (get_setting_in_found _ _ _ _ H), app_nil_r. now destruct w.
Qed.

Lemma lookup_in_store_at (ks : list string) (leaf : string) (v : pyval) :
  forall c, lookup_in ks leaf c <> None ->
            lookup_in ks leaf (store_at ks leaf v c) = Some v.
Proof.
  induction ks as [|k ks IH]; intros c H;
    destruct c as [| | | | | |d]; try (cbn in H; congruence);
    cbn [lookup_in store_at] in *.
  - apply assoc_set_same.
  - destruct (assoc k d) as [sub|] eqn:E; [|congruence].
    cbn [lookup_in]. rewrite assoc_set_same. now apply IH.
Qed.

(* ================================================================= *)
(** ** Checkboxes *)

Lemma is_True_iff (v : pyval) : is_True v = true <-> v = VBool true.
Proof.
  destruct v as [|[]| | | | |]; cbn; split; congruence.
Qed.

Lemma Qeq_bool_zero_l (q : Q) : Qeq_bool 0 q = Qeq_bool q 0.
Proof.
  unfold Qeq_bool. cbn [Qnum Qden]. rewrite Z.mul_0_l.
  now destruct (Qnum q * 1)%Z.
Qed.

(** [False] is unequal to every value that counts as true. *)
Lemma False_ne_truthy (v : pyval) :
  py_truthy v = true -> py_ne (VBool false) v = true.
Proof.
  unfold py_ne. intros H.
  destruct v as [|b|z|f|s|l|d]; cbn in *; try reflexivity; try discriminate.
  - now subst b.
  - unfold Qeq_bool; cbn. rewrite Z.mul_1_r.
    destruct z; [discriminate | reflexivity | reflexivity].
  - destruct f as [| |q]; try reflexivity.
    change (negb (Qeq_bool 0 q) = true). now rewrite Qeq_bool_zero_l.
Qed.

Lemma set_properties_checkbox_leaf (repr_value : pyval -> string)
  (active : bool) (key : string) (w : world) (v : pyval) :
  key <> "" ->
  lookup_path key (config w) = Some v ->
  set_properties repr_value (Widget (LabelledCheckBox active) key []) w
  = (Return (Widget (LabelledCheckBox (is_True v)) key []), w).
Proof.
  intros Hk Hv. cbn [set_properties is_bound].
  destruct (String.eqb_spec key "") as [|_]; [contradiction|]. cbn [negb].
  unfold bind, lift, ret. now rewrite (get_setting_found _ _ _ Hv).
Qed.

(** C10.  [set_properties] shows a checkbox checked exactly when the
    stored value is [True] itself; for any other stored value, the
    integer [1] and the text "true" among them, the box is unchecked and
    collecting it gives [False].  If that stored value counts as true,
    the next [update_config] of the unedited form stores [False] in its
    place and reports the setting as updated. *)
Theorem checkbox_checked_only_for_True
  (repr_value : pyval -> string) (active : bool) (key : string)
  (w : world) (v : pyval) :
  key <> "" ->
  lookup_path key (config w) = Some v ->
  let box := Widget (LabelledCheckBox (is_True v)) key [] in
  set_properties repr_value (Widget (LabelledCheckBox active) key []) w
  = (Return box, w)
  /\ (is_True v = true <-> v = VBool true)
  /\ is_True (VInt 1) = false /\ is_True (VStr "true") = false
  /\ (v <> VBool true ->
      collect_properties box = Return [(key, VBool false)]
      /\ (py_truthy v = true ->
          exists w',
            QuickConfigGui.update_config box false false w
            = (Return [key], w')
            /\ lookup_path key (config w') = Some (VBool false))).
Proof.
  intros Hk Hv box. split; [now apply set_properties_checkbox_leaf|].
  split; [apply is_True_iff|]. split; [reflexivity|]. split; [reflexivity|].
  intros Hn.
  assert (Hf : is_True v = false).
  { destruct (is_True v) eqn:E; [|reflexivity].
    apply is_True_iff in E. contradiction. }
  assert (C : collect_properties box = Return [(key, VBool false)]).
  { unfold box. rewrite collect_leaf, Hf. unfold own_property.
    cbn [is_bound]. destruct (String.eqb_spec key ""); [contradiction|].
    reflexivity. }
  split; [exact C|]. intros Ht.
  unfold QuickConfigGui.update_config. unfold bind at 1, lift. rewrite C.
  unfold bind at 1. cbn [QuickConfigGui.apply_collected].
  unfold bind at 1. rewrite (get_setting_found _ _ _ Hv).
  rewrite (False_ne_truthy v Ht).
  eexists. split; [reflexivity|].
  cbn [config]. unfold lookup_path. apply lookup_in_store_at.
  unfold lookup_path in Hv. congruence.
Qed.

Lemma checkbox_checked_only_for_True_witness :
  exists w',
    QuickConfigGui.update_config
      (Widget (LabelledCheckBox false) "trainer/lock_ai" []) false false
      (mkWorld (VDict [("trainer", VDict [("lock_ai", VInt 1)])]) true [])
    = (Return ["trainer/lock_ai"], w')
    /\ lookup_path "trainer/lock_ai" (config w') = Some (VBool false).
Proof.
  destruct (checkbox_checked_only_for_True (fun _ => "") true
              "trainer/lock_ai"
              (mkWorld (VDict [("trainer", VDict [("lock_ai", VInt 1)])])
                 true [])
              (VInt 1)) as (_ & _ & _ & _ & H).
  - discriminate.
  - reflexivity.
  - destruct H as [_ H]; [discriminate|]. apply H. reflexivity.
Defined.

(* ================================================================= *)
(** ** Applying the collected values twice *)

Lemma split_from_nonempty (sep : string) (s : string) :
  forall skip cur, Str.split_from sep skip cur s <> [].
Proof.
  induction s as [|c r IH]; intros skip cur; cbn [Str.split_from].
  - discriminate.
  - destruct skip; [|apply IH].
    destruct (Str.starts_with sep (String c r)); [discriminate | apply IH].
Qed.

Lemma split_keys (key : string) :
  Str.split "/" key
  = (removelast (Str.split "/" key) ++ [last (Str.split "/" key) ""])%list.
Proof. apply app_removelast_last. apply split_from_nonempty. Qed.

(** Resolving or storing along one path leaves what another path leads
    to, when the two part ways. *)
Lemma get_setting_in_apart (ks1 : list string) (l1 : string) :
  forall ks2 l2 c v v2 c' cr,
    diverge (ks1 ++ [l1]) (ks2 ++ [l2]) = true ->
    lookup_in ks1 l1 c = Some v ->
    get_setting_in ks2 l2 c = Return (v2, c', cr) ->
    lookup_in ks1 l1 c' = Some v.
Proof.
  induction ks1 as [|k1 ks1 IH]; intros ks2 l2 c v v2 c' cr D L G;
    destruct c as [| | | | | |d]; try (cbn in L; discriminate);
    destruct ks2 as [|k2 ks2]; cbn [app diverge] in D;
    cbn [lookup_in get_setting_in] in *.
  - destruct (String.eqb_spec l1 l2) as [|Hn]; [discriminate|].
    destruct (assoc l2 d); inversion G; subst; cbn [lookup_in]; auto.
    now rewrite assoc_set_other.
  - destruct (String.eqb_spec l1 k2) as [|Hn];
      [destruct ks2; discriminate|].
    destruct (get_setting_in ks2 l2 _) as [[[? ?] ?]|]; inversion G; subst.
    cbn [lookup_in]. now rewrite assoc_set_other.
  - destruct (String.eqb_spec k1 l2) as [|Hn];
      [destruct ks1; discriminate|].
    destruct (assoc l2 d); inversion G; subst; cbn [lookup_in]; auto.
    now rewrite assoc_set_other.
  - destruct (assoc k1 d) as [sub1|] eqn:E1; [|discriminate].
    destruct (String.eqb_spec k1 k2) as [<-|Hn].
    + rewrite E1 in G.
      destruct (get_setting_in ks2 l2 sub1) as [[[v2' sub'] cr']|] eqn:G';
        inversion G; subst.
      cbn [lookup_in]. rewrite assoc_set_same. eapply IH; eassumption.
    + destruct (get_setting_in ks2 l2 _) as [[[? ?] ?]|]; inversion G; subst.
      cbn [lookup_in]. rewrite assoc_set_other, E1; auto.
Qed.

Lemma store_at_apart (ks1 : list string) (l1 : string) :
  forall ks2 l2 c v v2,
    diverge (ks1 ++ [l1]) (ks2 ++ [l2]) = true ->
    lookup_in ks1 l1 c = Some v ->
    lookup_in ks1 l1 (store_at ks2 l2 v2 c) = Some v.
Proof.
  induction ks1 as [|k1 ks1 IH]; intros ks2 l2 c v v2 D L;
    destruct c as [| | | | | |d]; try (cbn in L; discriminate);
    destruct ks2 as [|k2 ks2]; cbn [app diverge] in D;
    cbn [lookup_in store_at] in *.
  - destruct (String.eqb_spec l1 l2) as [|Hn]; [discriminate|].
    now rewrite assoc_set_other.
  - destruct (String.eqb_spec l1 k2) as [|Hn];
      [destruct ks2; discriminate|].
    destruct (assoc k2 d); cbn [lookup_in]; auto.
    now rewrite assoc_set_other.
  - destruct (String.eqb_spec k1 l2) as [|Hn];
      [destruct ks1; discriminate|].
    rewrite assoc_set_other; auto.
  - destruct (assoc k1 d) as [sub1|] eqn:E1; [|discriminate].
    destruct (String.eqb_spec k1 k2) as [<-|Hn].
    + rewrite E1. cbn [lookup_in]. rewrite assoc_set_same. now apply IH.
    + destruct (assoc k2 d); cbn [lookup_in].
      * rewrite assoc_set_other, E1; auto.
      * now rewrite E1.
Qed.

Lemma get_setting_in_resolves (ks : list string) (leaf : string) :
  forall c v c' cr,
    get_setting_in ks leaf c = Return (v, c', cr) ->
    lookup_in ks leaf c' = Some v.
Proof.
  induction ks as [|k ks IH]; intros c v c' cr G;
    destruct c as [| | | | | |d]; try (cbn in G; discriminate);
    cbn [get_setting_in] in G.
  - destruct (assoc leaf d) eqn:E; inversion G; subst; cbn [lookup_in]; auto.
    apply assoc_set_same.
  - destruct (get_setting_in ks leaf _) as [[[v1 sub'] cr1]|] eqn:G1;
      inversion G; subst.
    cbn [lookup_in]. rewrite assoc_set_same. eapply IH; eassumption.
Qed.

(** One turn of the loop of [QuickConfigGui.update_config]. *)
Lemma apply_collected_step (k : string) (v : pyval) (rest : dict)
  (updated updated' : list string) (w w' : world) :
  QuickConfigGui.apply_collected ((k, v) :: rest) updated w
  = (Return updated', w') ->
  exists old c1 cr w2 updated2,
    get_setting_in (removelast (Str.split "/" k)) (last (Str.split "/" k) "")
      (config w) = Return (old, c1, cr)
    /\ config w2 = (if py_ne v old
                    then store_at (removelast (Str.split "/" k))
                           (last (Str.split "/" k) "") v c1
                    else c1)
    /\ QuickConfigGui.apply_collected rest updated2 w2 = (Return updated', w').
Proof.
  cbn [QuickConfigGui.apply_collected]. unfold bind at 1. unfold get_setting.
  destruct (get_setting_in _ _ (config w)) as [[[old c1] cr]|e] eqn:G;
    [|discriminate].
  destruct (py_ne v old) eqn:N.
  - unfold bind at 1. unfold emit at 1. unfold bind at 1.
    unfold set_through at 1. cbn [config katago_process trace].
    intros H. do 5 eexists. split; [reflexivity|]. split; [|exact H].
    rewrite N. reflexivity.
  - intros H. do 5 eexists. split; [reflexivity|]. split; [|exact H].
    rewrite N. reflexivity.
Qed.

Lemma apply_collected_keeps (items : dict) :
  forall updated w updated' w' k0 v0,
    Forall (fun kv => diverge (Str.split "/" k0) (Str.split "/" (fst kv))
                      = true) items ->
    lookup_path k0 (config w) = Some v0 ->
    QuickConfigGui.apply_collected items updated w = (Return updated', w') ->
    lookup_path k0 (config w') = Some v0.
Proof.
  induction items as [|[k v] rest IH]; intros updated w updated' w' k0 v0 D L H.
  - inversion H; subst. exact L.
  - inversion D as [|? ? Dk Dr]; subst. cbn [fst] in Dk.
    destruct (apply_collected_step _ _ _ _ _ _ _ H)
      as (old & c1 & cr & w2 & updated2 & G & C & H').
    refine (IH _ _ _ _ _ _ Dr _ H').
    rewrite C. unfold lookup_path in *.
    rewrite (split_keys k0), (split_keys k) in Dk.
    assert (L1 : lookup_in (removelast (Str.split "/" k0))
                   (last (Str.split "/" k0) "") c1 = Some v0)
      by (eapply get_setting_in_apart; eassumption).
    destruct (py_ne v old); [|exact L1].
    now apply store_at_apart.
Qed.

Lemma apply_collected_settles (items : dict) :
  forall updated w updated' w',
    paths_apart items -> self_equal items ->
    QuickConfigGui.apply_collected items updated w = (Return updated', w') ->
    settled items (config w').
Proof.
  induction items as [|[k v] rest IH]; intros updated w updated' w' A S H.
  - constructor.
  - destruct A as [Ak Ar]. inversion S as [|? ? Sv Sr]; subst. cbn [snd] in Sv.
    destruct (apply_collected_step _ _ _ _ _ _ _ H)
      as (old & c1 & cr & w2 & updated2 & G & C & H').
    constructor; [|eapply IH; eassumption].
    cbn [fst snd].
    assert (L : exists v', lookup_path k (config w2) = Some v'
                           /\ py_ne v v' = false).
    { rewrite C. unfold lookup_path.
      assert (M : lookup_in (removelast (Str.split "/" k))
                    (last (Str.split "/" k) "") c1 = Some old)
        by (eapply get_setting_in_resolves; eassumption).
      destruct (py_ne v old) eqn:N.
      - exists v. split.
        + apply lookup_in_store_at. congruence.
        + unfold py_ne. now rewrite Sv.
      - exists old. auto. }
    destruct L as (v' & L & N).
    exists v'. split; [|exact N].
    eapply apply_collected_keeps; eassumption.
Qed.

Lemma apply_collected_settled (items : dict) :
  forall updated w,
    settled items (config w) ->
    QuickConfigGui.apply_collected items updated w = (Return updated, w).
Proof.
  induction items as [|[k v] rest IH]; intros updated w S; [reflexivity|].
  inversion S as [|? ? (v' & L & N) Sr]; subst. cbn [fst snd] in *.
  cbn [QuickConfigGui.apply_collected]. unfold bind at 1.
  rewrite (get_setting_found _ _ _ L), N. now apply IH.
Qed.

(** [QuickConfigGui.update_config] on a form whose values the store
    already holds. *)
Lemma update_config_settled (form : widget) (has_popup save_to_file : bool)
  (collected : dict) (w : world) :
  collect_properties form = Return collected ->
  settled collected (config w) ->
  QuickConfigGui.update_config form has_popup save_to_file w
  = (Return [],
     mkWorld (config w) (katago_process w)
       (trace w ++ (if save_to_file then [SaveConfig] else [])
        ++ (if has_popup then [PopupDismiss] else []))).
Proof.
  intros C S. unfold QuickConfigGui.update_config.
  unfold bind at 1, lift. rewrite C.
  unfold bind at 1. rewrite (apply_collected_settled collected [] w S).
  destruct w as [c p t].
  destruct save_to_file, has_popup; cbn; rewrite ?app_nil_r, <- ?app_assoc;
    reflexivity.
Qed.

(** C8, as the code has it.  When the paths of the collected items part
    ways two by two and every collected value is equal to itself, then
    after the loop of [update_config] has run over the items without
    raising, running it again over the same items changes nothing: the
    set of updated settings is empty and the world is what it was.  A
    second [update_config] of the same form then neither stores a
    setting nor calls [update_state]. *)
Theorem apply_twice_changes_nothing
  (collected : dict) (w w1 : world) (updated1 : list string) :
  paths_apart collected ->
  self_equal collected ->
  QuickConfigGui.apply_collected collected [] w = (Return updated1, w1) ->
  QuickConfigGui.apply_collected collected [] w1 = (Return [], w1)
  /\ forall form has_popup save_to_file,
      collect_properties form = Return collected ->
      QuickConfigGui.update_config form has_popup save_to_file w1
      = (Return [],
         mkWorld (config w1) (katago_process w1)
           (trace w1 ++ (if save_to_file then [SaveConfig] else [])
            ++ (if has_popup then [PopupDismiss] else []))).
Proof.
  intros A S H.
  pose proof (apply_collected_settles _ _ _ _ _ A S H) as St. split.
  - now apply apply_collected_settled.
  - intros form has_popup save_to_file C.
    now apply (update_config_settled form has_popup save_to_file collected).
Qed.

Lemma apply_twice_changes_nothing_witness :
  QuickConfigGui.apply_collected
    [("engine/visits", VInt 150); ("debug/level", VInt 1)] []
    (mkWorld
       (VDict [("engine", VDict [("visits", VInt 150)]);
               ("debug", VDict [("level", VInt 1)])])
       true
       [Log (MsgUpdatingSetting "engine/visits" (VInt 150))
          (Some OUTPUT_DEBUG)])
  = (Return [],
     mkWorld
       (VDict [("engine", VDict [("visits", VInt 150)]);
               ("debug", VDict [("level", VInt 1)])])
       true
       [Log (MsgUpdatingSetting "engine/visits" (VInt 150))
          (Some OUTPUT_DEBUG)]).
Proof.
  refine (proj1 (apply_twice_changes_nothing
                   [("engine/visits", VInt 150); ("debug/level", VInt 1)]
                   (mkWorld
                      (VDict [("engine", VDict [("visits", VInt 100)]);
                              ("debug", VDict [("level", VInt 1)])])
                      true [])
                   _ ["engine/visits"] _ _ _)).
  - cbn. repeat split; repeat constructor.
  - repeat constructor.
  - reflexivity.
Defined.

(** C8 as stated fails: [nan] is unequal to itself, so a collected [nan]
    is stored and reported as updated every time, also the second
    time. *)
Lemma apply_twice_changes_again_with_nan :
  ~ (forall (collected : dict) (w w1 : world) (updated1 : list string),
        paths_apart collected ->
        QuickConfigGui.apply_collected collected [] w = (Return updated1, w1) ->
        exists w2,
          QuickConfigGui.apply_collected collected [] w1 = (Return [], w2)
          /\ config w2 = config w1).
Proof.
  intros H.
  destruct (H [("trainer/max_time", VFloat FNan)]
              (mkWorld (VDict [("trainer",
                                VDict [("max_time", VFloat FNan)])]) true [])
              _ _ (conj (Forall_nil _) I) eq_refl) as (w2 & H2 & _).
  vm_compute in H2. discriminate.
Qed.

(* ================================================================= *)
(** ** The keys of the teacher popup *)

Lemma decimal_value_append (x y : string) :
  forall a, decimal_value a (x ++ y) = decimal_value (decimal_value a x) y.
Proof. induction x as [|c r IH]; intros a; cbn; auto. Qed.

Lemma length_snoc (s : string) (c : ascii) :
  String.length (s ++ String c "") = S (String.length s).
Proof. induction s as [|d s IH]; cbn; congruence. Qed.

Lemma digit_char (m : nat) :
  m < 10 ->
  Str.is_digit (ascii_of_nat (48 + m)) = true
  /\ Str.digit_value (ascii_of_nat (48 + m)) = Z.of_nat m.
Proof.
  intros H. do 10 (destruct m as [|m]; [now vm_compute|]). lia.
Qed.

(** The text of a number is a run of digits that spells the number. *)
Lemma digits_of_spec (fuel : nat) :
  forall n acc,
    n <= fuel ->
    exists ds,
      Str.digits_of fuel n acc = ds ++ acc
      /\ Str.forallb Str.is_digit ds = true
      /\ ds <> ""
      /\ forall a,
          decimal_value a ds
          = (a * 10 ^ Z.of_nat (String.length ds) + Z.of_nat n)%Z.
Proof.
  assert (One : forall n acc, n < 10 ->
            exists ds,
              String (ascii_of_nat (48 + n mod 10)) acc = ds ++ acc
              /\ Str.forallb Str.is_digit ds = true
              /\ ds <> ""
              /\ forall a,
                  decimal_value a ds
                  = (a * 10 ^ Z.of_nat (String.length ds) + Z.of_nat n)%Z).
  { intros n acc Hn. exists (String (ascii_of_nat (48 + n mod 10)) "").
    rewrite Nat.mod_small by exact Hn.
    destruct (digit_char n Hn) as [D V].
    repeat split; [cbn [Str.forallb]; now rewrite D | discriminate |].
    intros a. cbn [decimal_value String.length]. rewrite V.
    change (10 ^ Z.of_nat 1)%Z with 10%Z. lia. }
  induction fuel as [|f IH]; intros n acc Hn; cbn [Str.digits_of].
  - apply One. lia.
  - destruct (Nat.ltb_spec n 10) as [Hs|Hb]; [now apply One|].
    destruct (IH (n / 10) (String (ascii_of_nat (48 + n mod 10)) acc))
      as (ds & E & D & Ne & V).
    { assert (n / 10 < n) by (apply Nat.div_lt; lia). lia. }
    exists (ds ++ String (ascii_of_nat (48 + n mod 10)) "").
    assert (Hm : n mod 10 < 10) by (apply Nat.mod_upper_bound; lia).
    destruct (digit_char _ Hm) as [Dc Vc].
    split; [rewrite E, append_assoc; reflexivity|].
    split; [rewrite forallb_append, D; cbn [Str.forallb]; now rewrite Dc|].
    split; [destruct ds; discriminate|].
    intros a. rewrite decimal_value_append, V.
    cbn [decimal_value]. rewrite Vc.
    rewrite length_snoc.
    rewrite Nat2Z.inj_succ, Z.pow_succ_r by lia.
    pose proof (Nat.div_mod_eq n 10) as Q.
    apply (f_equal Z.of_nat) in Q.
    rewrite Nat2Z.inj_add, Nat2Z.inj_mul in Q. lia.
Qed.

Lemma of_nat_digits (n : nat) :
  Str.forallb Str.is_digit (Str.of_nat n) = true /\ Str.of_nat n <> "".
Proof.
  unfold Str.of_nat.
  destruct (digits_of_spec n n "" (le_n n)) as (ds & E & D & Ne & _).
  rewrite E, append_empty_r. auto.
Qed.

Lemma py_int_of_nat (n : nat) :
  String.length (Str.of_nat n) <= max_str_digits ->
  py_int (Str.of_nat n) = Return (Z.of_nat n).
Proof.
  intros Hl.
  destruct (of_nat_digits n) as [D Ne]. rewrite (py_int_digits _ D Ne Hl).
  unfold Str.of_nat.
  destruct (digits_of_spec n n "" (le_n n)) as (ds & E & _ & _ & V).
  rewrite E, append_empty_r, V. reflexivity.
Qed.

Lemma split_from_digits (x : string) :
  forall cur,
    Str.forallb Str.is_digit x = true ->
    Str.split_from "::" 0 cur x = [cur ++ x].
Proof.
  induction x as [|c r IH]; intros cur H; cbn [Str.split_from].
  - now rewrite append_empty_r.
  - cbn [Str.forallb] in H. apply andb_true_iff in H as [Hc Hr].
    cbn [Str.starts_with]. rewrite (digit_not_colon _ Hc). cbn [andb].
    rewrite (IH _ Hr), append_assoc. reflexivity.
Qed.

Lemma seq_index_nat (n i : nat) : i < n -> seq_index n (Z.of_nat i) = Some i.
Proof.
  intros H. unfold seq_index.
  destruct (Z.leb_spec 0 (Z.of_nat i)); [|lia].
  destruct (Z.ltb_spec (Z.of_nat i) (Z.of_nat n)); [|lia].
  cbn. now rewrite Nat2Z.id.
Qed.

Lemma getitem_int_list (l : list pyval) (i : nat) (x : pyval) :
  nth_error l i = Some x -> getitem_int (VList l) (Z.of_nat i) = Return x.
Proof.
  intros H. cbn [getitem_int].
  assert (Hi : i < List.length l) by (apply nth_error_Some; congruence).
  rewrite (seq_index_nat _ _ Hi). f_equal.
  now apply nth_error_nth.
Qed.

Lemma setitem_int_list (l : list pyval) (i : nat) (x v : pyval) :
  nth_error l i = Some x ->
  setitem_int (VList l) (Z.of_nat i) v = Return (VList (list_set i v l)).
Proof.
  intros H. cbn [setitem_int].
  assert (Hi : i < List.length l) by (apply nth_error_Some; congruence).
  now rewrite (seq_index_nat _ _ Hi).
Qed.

Lemma alpha_key (i : nat) :
  Str.contains "::" ("alpha::" ++ Str.of_nat i) = true
  /\ Str.split "::" ("alpha::" ++ Str.of_nat i) = ["alpha"; Str.of_nat i].
Proof.
  split; [reflexivity|].
  unfold Str.split. cbn.
  now rewrite (split_from_digits _ "" (proj1 (of_nat_digits i))).
Qed.

Lemma save_feedback_key (i : nat) :
  Str.contains "::" ("save_feedback::" ++ Str.of_nat i) = true
  /\ Str.split "::" ("save_feedback::" ++ Str.of_nat i)
     = ["save_feedback"; Str.of_nat i].
Proof.
  split; [reflexivity|].
  unfold Str.split. cbn.
  now rewrite (split_from_digits _ "" (proj1 (of_nat_digits i))).
Qed.

(** A name that holds [alpha] sends its item to the colours, as the
    truth of the value. *)
Lemma apply_item_alpha
  (s : ConfigTeacherPopup.popup) (k k1 : string) (i : nat) (v : pyval)
  (ud : dict) (rows color : list pyval) (cur : pyval) :
  String.length (Str.of_nat i) <= max_str_digits ->
  Str.contains "::" k = true ->
  Str.split "::" k = [k1; Str.of_nat i] ->
  Str.contains "alpha" k1 = true ->
  ConfigTeacherPopup.ui_settings s = VDict ud ->
  assoc "eval_colors" ud = Some (VList rows) ->
  nth_error rows i = Some (VList color) ->
  nth_error color 3 = Some cur ->
  ConfigTeacherPopup.apply_item k v s
  = (Return tt,
     if py_ne cur (alpha_value (py_truthy v))
     then ConfigTeacherPopup.mkPopup
            (ConfigTeacherPopup.settings s)
            (ConfigTeacherPopup.sgf_settings s)
            (VDict
               (assoc_set "eval_colors"
                  (VList
                     (list_set i
                        (VList (list_set 3 (alpha_value (py_truthy v)) color))
                        rows))
                  ud))
            (ConfigTeacherPopup.calls s
             ++ [Log (MsgUpdatingAlpha (Z.of_nat i)
                        (alpha_value (py_truthy v)))
                   (Some OUTPUT_DEBUG)])%list
     else s).
Proof.
  destruct s as [st sgf ui cs].
  cbn [ConfigTeacherPopup.settings ConfigTeacherPopup.sgf_settings
       ConfigTeacherPopup.ui_settings ConfigTeacherPopup.calls].
  intros Hi K S A -> Hc Hr Hv.
  unfold ConfigTeacherPopup.apply_item. rewrite K, S, A.
  change (VFloat (FFin (if py_truthy v then 1 else 0)%Q))
    with (alpha_value (py_truthy v)).
  run_popup. rewrite (py_int_of_nat _ Hi), Hc.
  rewrite (getitem_int_list _ _ _ Hr).
  change 3%Z with (Z.of_nat 3). rewrite (getitem_int_list _ _ _ Hv).
  destruct (py_ne cur (alpha_value (py_truthy v))); [|reflexivity].
  rewrite (setitem_int_list _ _ _ _ Hv), (setitem_int_list _ _ _ _ Hr).
  reflexivity.
Qed.

(** A name that holds [save_feedback] and no [alpha] sends its item,
    as it is, to the sequence of that name in the SGF settings. *)
Lemma apply_item_save_feedback
  (s : ConfigTeacherPopup.popup) (k k1 : string) (i : nat) (v : pyval)
  (sd : dict) (flags : list pyval) (cur : pyval) :
  String.length (Str.of_nat i) <= max_str_digits ->
  Str.contains "::" k = true ->
  Str.split "::" k = [k1; Str.of_nat i] ->
  Str.contains "alpha" k1 = false ->
  Str.contains "save_feedback" k1 = true ->
  ConfigTeacherPopup.sgf_settings s = VDict sd ->
  assoc k1 sd = Some (VList flags) ->
  nth_error flags i = Some cur ->
  ConfigTeacherPopup.apply_item k v s
  = (Return tt,
     if py_ne cur v
     then ConfigTeacherPopup.mkPopup
            (ConfigTeacherPopup.settings s)
            (VDict (assoc_set k1 (VList (list_set i v flags)) sd))
            (ConfigTeacherPopup.ui_settings s)
            (ConfigTeacherPopup.calls s
             ++ [Log (MsgUpdatingSgf k1 (Z.of_nat i) v)
                   (Some OUTPUT_DEBUG)])%list
     else s).
Proof.
  destruct s as [st sgf ui cs].
  cbn [ConfigTeacherPopup.settings ConfigTeacherPopup.sgf_settings
       ConfigTeacherPopup.ui_settings ConfigTeacherPopup.calls].
  intros Hi K S A F -> Hf Hv.
  unfold ConfigTeacherPopup.apply_item. rewrite K, S, A, F.
  run_popup. rewrite (py_int_of_nat _ Hi), Hf.
  rewrite (getitem_int_list _ _ _ Hv).
  destruct (py_ne cur v); [|reflexivity].
  rewrite (setitem_int_list _ _ _ _ Hv). reflexivity.
Qed.

(** C9, as the code has it.  In [ConfigTeacherPopup.update_config] the
    words the text in front of "::" holds choose the dictionary, not its
    beginning.  A name that holds [alpha], as "alpha::i" does, sends its
    item to the fourth component of [eval_colors[i]] of the board
    settings, as the float 1.0 for a value that counts as true and 0.0
    otherwise; failing that, a name that holds [save_feedback], as
    "save_feedback::i" does, sends its item, as it is, to the sequence
    of that name at the index [i] in the SGF settings; a name that holds
    neither word, and a key without "::", go to the trainer settings.
    Each touches its own dictionary only, at the same index [i], and
    stores only when the value differs from the one held.  The index is
    one of the at most 4300 digits [int()] reads. *)
Theorem indexed_keys_route_by_the_words_they_hold
  (s : ConfigTeacherPopup.popup) (i : nat) (b : bool) :
  String.length (Str.of_nat i) <= max_str_digits ->
  (forall ud rows color cur,
      ConfigTeacherPopup.ui_settings s = VDict ud ->
      assoc "eval_colors" ud = Some (VList rows) ->
      nth_error rows i = Some (VList color) ->
      nth_error color 3 = Some cur ->
      ConfigTeacherPopup.apply_item ("alpha::" ++ Str.of_nat i) (VBool b) s
      = (Return tt,
         if py_ne cur (alpha_value b)
         then ConfigTeacherPopup.mkPopup
                (ConfigTeacherPopup.settings s)
                (ConfigTeacherPopup.sgf_settings s)
                (VDict
                   (assoc_set "eval_colors"
                      (VList
                         (list_set i
                            (VList (list_set 3 (alpha_value b) color)) rows))
                      ud))
                (ConfigTeacherPopup.calls s
                 ++ [Log (MsgUpdatingAlpha (Z.of_nat i) (alpha_value b))
                       (Some OUTPUT_DEBUG)])
         else s))
  /\ (forall sd flags cur,
         ConfigTeacherPopup.sgf_settings s = VDict sd ->
         assoc "save_feedback" sd = Some (VList flags) ->
         nth_error flags i = Some cur ->
         ConfigTeacherPopup.apply_item
           ("save_feedback::" ++ Str.of_nat i) (VBool b) s
         = (Return tt,
            if py_ne cur (VBool b)
            then ConfigTeacherPopup.mkPopup
                   (ConfigTeacherPopup.settings s)
                   (VDict
                      (assoc_set "save_feedback"
                         (VList (list_set i (VBool b) flags)) sd))
                   (ConfigTeacherPopup.ui_settings s)
                   (ConfigTeacherPopup.calls s
                    ++ [Log (MsgUpdatingSgf "save_feedback" (Z.of_nat i)
                               (VBool b))
                          (Some OUTPUT_DEBUG)])
            else s))
  /\ (forall k k1 v ud rows color cur,
         Str.contains "::" k = true ->
         Str.split "::" k = [k1; Str.of_nat i] ->
         Str.contains "alpha" k1 = true ->
         ConfigTeacherPopup.ui_settings s = VDict ud ->
         assoc "eval_colors" ud = Some (VList rows) ->
         nth_error rows i = Some (VList color) ->
         nth_error color 3 = Some cur ->
         ConfigTeacherPopup.apply_item k v s
         = (Return tt,
            if py_ne cur (alpha_value (py_truthy v))
            then ConfigTeacherPopup.mkPopup
                   (ConfigTeacherPopup.settings s)
                   (ConfigTeacherPopup.sgf_settings s)
                   (VDict
                      (assoc_set "eval_colors"
                         (VList
                            (list_set i
                               (VList
                                  (list_set 3 (alpha_value (py_truthy v))
                                     color))
                               rows))
                         ud))
                   (ConfigTeacherPopup.calls s
                    ++ [Log (MsgUpdatingAlpha (Z.of_nat i)
                               (alpha_value (py_truthy v)))
                          (Some OUTPUT_DEBUG)])
            else s))
  /\ (forall k k1 v sd flags cur,
         Str.contains "::" k = true ->
         Str.split "::" k = [k1; Str.of_nat i] ->
         Str.contains "alpha" k1 = false ->
         Str.contains "save_feedback" k1 = true ->
         ConfigTeacherPopup.sgf_settings s = VDict sd ->
         assoc k1 sd = Some (VList flags) ->
         nth_error flags i = Some cur ->
         ConfigTeacherPopup.apply_item k v s
         = (Return tt,
            if py_ne cur v
            then ConfigTeacherPopup.mkPopup
                   (ConfigTeacherPopup.settings s)
                   (VDict (assoc_set k1 (VList (list_set i v flags)) sd))
                   (ConfigTeacherPopup.ui_settings s)
                   (ConfigTeacherPopup.calls s
                    ++ [Log (MsgUpdatingSgf k1 (Z.of_nat i) v)
                          (Some OUTPUT_DEBUG)])
            else s))
  /\ (forall k k1 v td seq cur,
         Str.contains "::" k = true ->
         Str.split "::" k = [k1; Str.of_nat i] ->
         Str.contains "alpha" k1 = false ->
         Str.contains "save_feedback" k1 = false ->
         ConfigTeacherPopup.settings s = VDict td ->
         assoc k1 td = Some (VList seq) ->
         nth_error seq i = Some cur ->
         ConfigTeacherPopup.apply_item k v s
         = (Return tt,
            if py_ne cur v
            then ConfigTeacherPopup.mkPopup
                   (VDict (assoc_set k1 (VList (list_set i v seq)) td))
                   (ConfigTeacherPopup.sgf_settings s)
                   (ConfigTeacherPopup.ui_settings s)
                   (ConfigTeacherPopup.calls s
                    ++ [Log (MsgUpdatingTrainer k1 (Z.of_nat i) v)
                          (Some OUTPUT_DEBUG)])
            else s))
  /\ (forall k v td cur,
         Str.contains "::" k = false ->
         ConfigTeacherPopup.settings s = VDict td ->
         assoc k td = Some cur ->
         ConfigTeacherPopup.apply_item k v s
         = (Return tt,
            if py_ne cur v
            then ConfigTeacherPopup.mkPopup
                   (VDict (assoc_set k v td))
                   (ConfigTeacherPopup.sgf_settings s)
                   (ConfigTeacherPopup.ui_settings s)
                   (ConfigTeacherPopup.calls s
                    ++ [Log (MsgUpdatingSetting k v) (Some OUTPUT_DEBUG)])
            else s)).
Proof.
  intros Hi.
  split; [|split; [|split; [|split; [|split]]]].
  - intros ud rows color cur Hu Hc Hr Hv.
    destruct (alpha_key i) as [K S].
    exact (apply_item_alpha s _ "alpha" i (VBool b) ud rows color cur
             Hi K S eq_refl Hu Hc Hr Hv).
  - intros sd flags cur Hs Hf Hv.
    destruct (save_feedback_key i) as [K S].
    exact (apply_item_save_feedback s _ "save_feedback" i (VBool b)
             sd flags cur Hi K S eq_refl eq_refl Hs Hf Hv).
  - intros k k1 v ud rows color cur K S A Hu Hc Hr Hv.
    exact (apply_item_alpha s k k1 i v ud rows color cur
             Hi K S A Hu Hc Hr Hv).
  - intros k k1 v sd flags cur K S A F Hs Hf Hv.
    exact (apply_item_save_feedback s k k1 i v sd flags cur
             Hi K S A F Hs Hf Hv).
  - destruct s as [st sgf ui cs].
    cbn [ConfigTeacherPopup.settings ConfigTeacherPopup.sgf_settings
         ConfigTeacherPopup.ui_settings ConfigTeacherPopup.calls].
    intros k k1 v td seq cur Hk Hs Ha Hsf -> Hq Hv.
    unfold ConfigTeacherPopup.apply_item. rewrite Hk, Hs, Ha, Hsf.
    run_popup. rewrite (py_int_of_nat _ Hi), Hq.
    rewrite (getitem_int_list _ _ _ Hv).
    destruct (py_ne cur v); [|reflexivity].
    rewrite (setitem_int_list _ _ _ _ Hv). reflexivity.
  - destruct s as [st sgf ui cs].
    cbn [ConfigTeacherPopup.settings ConfigTeacherPopup.sgf_settings
         ConfigTeacherPopup.ui_settings ConfigTeacherPopup.calls].
    intros k v td cur Hk -> Hv.
    unfold ConfigTeacherPopup.apply_item. rewrite Hk.
    run_popup. rewrite Hv.
    destruct (py_ne cur v); reflexivity.
Qed.

Lemma indexed_keys_route_by_the_words_they_hold_witness :
  ConfigTeacherPopup.apply_item "alpha::0" (VBool true) teacher_sample
  = (Return tt,
     ConfigTeacherPopup.mkPopup
       (VDict [("eval_thresholds", VList [VInt 12])])
       (VDict [("save_feedback", VList [VBool true])])
       (VDict [("eval_colors",
                VList [VList [VInt 1; VInt 0; VInt 0; VFloat (FFin 1)]])])
       [Log (MsgUpdatingAlpha 0 (VFloat (FFin 1))) (Some OUTPUT_DEBUG)])
  /\ ConfigTeacherPopup.apply_item "save_feedback::0" (VBool false)
       teacher_sample
     = (Return tt,
        ConfigTeacherPopup.mkPopup
          (VDict [("eval_thresholds", VList [VInt 12])])
          (VDict [("save_feedback", VList [VBool false])])
          (VDict [("eval_colors",
                   VList [VList [VInt 1; VInt 0; VInt 0;
                                 VFloat (FFin (1 # 2))]])])
          [Log (MsgUpdatingSgf "save_feedback" 0 (VBool false))
             (Some OUTPUT_DEBUG)]).
Proof.
  assert (Hi : String.length (Str.of_nat 0) <= max_str_digits)
    by (apply Nat.leb_le; reflexivity).
  split.
  - exact (proj1 (indexed_keys_route_by_the_words_they_hold
                    teacher_sample 0 true Hi)
             _ _ _ _ eq_refl eq_refl eq_refl eq_refl).
  - exact (proj1 (proj2 (indexed_keys_route_by_the_words_they_hold
                           teacher_sample 0 false Hi))
             _ _ _ eq_refl eq_refl eq_refl).
Defined.

(** C9 as stated fails: "num_alpha_prompts" begins with neither word,
    and the item "num_alpha_prompts::0" = 3 does not go to the trainer
    settings, which hold a sequence of that name; the code finds
    [alpha] in the name and writes 1.0 into the colours. *)
Lemma other_key_that_holds_alpha_goes_to_the_colours :
  ~ (forall (s : ConfigTeacherPopup.popup) (k k1 : string) (i : nat)
            (v : pyval) (td : dict) (seq : list pyval) (cur : pyval),
        Str.split "::" k = [k1; Str.of_nat i] ->
        Str.starts_with "alpha" k1 = false ->
        Str.starts_with "save_feedback" k1 = false ->
        ConfigTeacherPopup.settings s = VDict td ->
        assoc k1 td = Some (VList seq) ->
        nth_error seq i = Some cur ->
        ConfigTeacherPopup.apply_item k v s
        = (Return tt,
           if py_ne cur v
           then ConfigTeacherPopup.mkPopup
                  (VDict (assoc_set k1 (VList (list_set i v seq)) td))
                  (ConfigTeacherPopup.sgf_settings s)
                  (ConfigTeacherPopup.ui_settings s)
                  (ConfigTeacherPopup.calls s
                   ++ [Log (MsgUpdatingTrainer k1 (Z.of_nat i) v)
                         (Some OUTPUT_DEBUG)])
           else s)).
Proof.
  intros H.
  specialize (H prompts_sample "num_alpha_prompts::0" "num_alpha_prompts" 0
                (VInt 3) [("num_alpha_prompts", VList [VInt 1])]
                [VInt 1] (VInt 1)
                eq_refl eq_refl eq_refl eq_refl eq_refl eq_refl).
  vm_compute in H. discriminate H.
Qed.

(* ================================================================= *)
(** ** The engine after [ConfigPopup.update_config] *)

(** What follows the [try] block of [ConfigPopup.update_config] once the
    loop has returned [updated_cat]. *)
Lemma ConfigPopup_update_config_after_loop
  (form : widget) (save_to_file : bool) (w w1 : world) (collected : dict)
  (updated_cat : list (string * list string)) :
  collect_properties form = Return collected ->
  ConfigPopup.apply_collected collected [] w = (Return updated_cat, w1) ->
  ConfigPopup.update_config form save_to_file w
  = (let engine_updates := ConfigPopup.defaultdict_get "engine" updated_cat in
     when save_to_file (emit SaveConfig) ;;
     when (List.existsb (String.eqb "visits") engine_updates)
       (v <- lift (list_getitem_str engine_updates "visits") ;;
        emit (SetEngineVisits v)) ;;
     when (ConfigPopup.restart_needed engine_updates)
       (emit (Log (MsgRestartingEngine engine_updates) None) ;;
        emit (SetInfoLabel ConfigPopup.restarting_text) ;;
        emit (SetStatus engine_updates) ;;
        emit (ScheduleOnce restart_engine_task)) ;;
     c <- read_config ;;
     debug <- lift (getitem_str c "debug") ;;
     level <- lift (getitem_str debug "level") ;;
     emit (SetDebugLevel level) ;;
     emit (UpdateState true))
      (mkWorld (config w1) (katago_process w1) (trace w1 ++ [PopupDismiss])).
Proof.
  intros C A. unfold ConfigPopup.update_config.
  unfold bind at 1. unfold try_except_InputParseError.
  unfold bind at 1. unfold lift at 1. rewrite C.
  unfold bind at 1. rewrite A.
  unfold bind at 1. unfold emit at 1. unfold ret at 1. reflexivity.
Qed.

(** Whenever the visits are among the updated engine settings,
    [update_config] raises at [engine_updates["visits"]]: nothing is set
    on the engine, no restart is scheduled and [update_state] is not
    called. *)
Lemma ConfigPopup_update_config_raises_on_visits
  (form : widget) (save_to_file : bool) (w w1 : world) (collected : dict)
  (updated_cat : list (string * list string)) :
  collect_properties form = Return collected ->
  ConfigPopup.apply_collected collected [] w = (Return updated_cat, w1) ->
  List.existsb (String.eqb "visits")
    (ConfigPopup.defaultdict_get "engine" updated_cat) = true ->
  ConfigPopup.update_config form save_to_file w
  = (Raise (TypeError "list indices must be integers or slices, not str"),
     mkWorld (config w1) (katago_process w1)
       (trace w1 ++ [PopupDismiss]
        ++ (if save_to_file then [SaveConfig] else []))).
Proof.
  intros C A V.
  rewrite (ConfigPopup_update_config_after_loop _ _ _ _ _ _ C A).
  cbv zeta. rewrite V.
  destruct save_to_file; cbn; rewrite <- ?app_assoc; reflexivity.
Qed.

(** C1, on the code.  In the scenario of the claim (100 visits stored,
    150 shown, the debug level unchanged) the new value is stored and the
    popup dismissed, and then [update_config] raises [TypeError] at
    [engine_updates["visits"]], a list subscripted by a text: the visits
    are not set on the engine and [update_state] is not called. *)
Theorem visits_change_raises_TypeError :
  ConfigPopup.update_config visits_form false (mkWorld visits_store true [])
  = (Raise (TypeError "list indices must be integers or slices, not str"),
     mkWorld
       (VDict [("engine",
                VDict [("visits", VInt 150); ("max_visits", VInt 1000)]);
               ("debug", VDict [("level", VInt 1)])])
       true
       [Log (MsgUpdatingSetting "engine/visits" (VInt 150))
          (Some OUTPUT_DEBUG);
        PopupDismiss]).
Proof. reflexivity. Qed.

(** C2, on the code.  When the model path and the visits both change,
    both are stored and the popup dismissed, and then [update_config]
    raises the same [TypeError] at [engine_updates["visits"]], before the
    restart is scheduled. *)
Theorem model_and_visits_change_schedules_no_restart :
  ConfigPopup.update_config model_and_visits_form false
    (mkWorld model_store true [])
  = (Raise (TypeError "list indices must be integers or slices, not str"),
     mkWorld
       (VDict [("engine", VDict [("visits", VInt 150);
                                 ("model_path", VStr "new.bin.gz")]);
               ("debug", VDict [("level", VInt 1)])])
       true
       [Log (MsgUpdatingSetting "engine/visits" (VInt 150))
          (Some OUTPUT_DEBUG);
        Log (MsgUpdatingSetting "engine/model_path" (VStr "new.bin.gz"))
          (Some OUTPUT_DEBUG);
        PopupDismiss]).
Proof. reflexivity. Qed.

(** When the visits are not among the updated engine settings and a key
    outside the four that need no restart is, the restart is scheduled,
    nothing is set on the running engine, and [update_state] is called. *)
Lemma ConfigPopup_update_config_schedules_restart
  (form : widget) (w w1 : world) (collected : dict)
  (updated_cat : list (string * list string)) (debug level : pyval) :
  collect_properties form = Return collected ->
  ConfigPopup.apply_collected collected [] w = (Return updated_cat, w1) ->
  List.existsb (String.eqb "visits")
    (ConfigPopup.defaultdict_get "engine" updated_cat) = false ->
  ConfigPopup.restart_needed
    (ConfigPopup.defaultdict_get "engine" updated_cat) = true ->
  getitem_str (config w1) "debug" = Return debug ->
  getitem_str debug "level" = Return level ->
  ConfigPopup.update_config form false w
  = (Return tt,
     mkWorld (config w1) (katago_process w1)
       (trace w1
        ++ [PopupDismiss;
            Log (MsgRestartingEngine
                   (ConfigPopup.defaultdict_get "engine" updated_cat)) None;
            SetInfoLabel ConfigPopup.restarting_text;
            SetStatus (ConfigPopup.defaultdict_get "engine" updated_cat);
            ScheduleOnce restart_engine_task;
            SetDebugLevel level;
            UpdateState true])).
Proof.
  intros C A V R D L.
  rewrite (ConfigPopup_update_config_after_loop _ _ _ _ _ _ C A).
  cbv zeta. rewrite V, R.
  unfold when, bind, emit, ret, read_config, lift.
  cbn [config katago_process trace]. rewrite D, L.
  rewrite <- !app_assoc. reflexivity.
Qed.

(** The model path alone: the restart is scheduled, and the engine it
    builds when it runs is given the engine settings as updated. *)
Lemma model_change_restarts_with_the_updated_settings :
  exists w1,
    ConfigPopup.update_config model_form false (mkWorld model_store true [])
    = (Return tt, w1)
    /\ trace w1
       = [Log (MsgUpdatingSetting "engine/model_path" (VStr "new.bin.gz"))
            (Some OUTPUT_DEBUG);
          PopupDismiss;
          Log (MsgRestartingEngine ["model_path"]) None;
          SetInfoLabel ConfigPopup.restarting_text;
          SetStatus ["model_path"];
          ScheduleOnce restart_engine_task;
          SetDebugLevel (VInt 1);
          UpdateState true]
    /\ exists w2,
        ConfigPopup.restart_engine true w1 = (Return tt, w2)
        /\ trace w2
           = (trace w1
              ++ [EngineShutdown true;
                  EngineConstructed
                    (VDict [("visits", VInt 100);
                            ("model_path", VStr "new.bin.gz")]);
                  GameEnginesRepointed;
                  AnalyzeAllNodes;
                  UpdateState false])%list.
Proof.
  eexists. split; [vm_compute; reflexivity|]. split; [reflexivity|].
  eexists. split; [vm_compute; reflexivity | reflexivity].
Qed.

(* ================================================================= *)
(** * Further properties *)

(** ** What an insertion into a float field keeps *)

Lemma filter_append (p : ascii -> bool) (a b : string) :
  Str.filter p (a ++ b) = Str.filter p a ++ Str.filter p b.
Proof.
  induction a as [|c a IH]; cbn [append Str.filter]; [reflexivity|].
  destruct (p c); cbn [append]; now rewrite IH.
Qed.

Lemma filter_filter (p q : ascii -> bool) (s : string) :
  (forall c, p c = true -> q c = true) ->
  Str.filter p (Str.filter q s) = Str.filter p s.
Proof.
  intros W. induction s as [|c s IH]; cbn [Str.filter]; [reflexivity|].
  destruct (q c) eqn:Q; cbn [Str.filter].
  - destruct (p c); now rewrite IH.
  - destruct (p c) eqn:P; [|exact IH]. rewrite (W _ P) in Q. discriminate.
Qed.

Lemma digit_is_kept : forall c, Str.is_digit c = true -> float_pat_keeps c = true.
Proof. ascii_cases. Qed.

Lemma digit_is_not_minus :
  forall c, Str.is_digit c = true -> negb (is_minus c) = true.
Proof. ascii_cases. Qed.

Lemma digits_of_float_filtered (text substring : string) :
  Str.filter Str.is_digit (float_filtered text substring)
  = Str.filter Str.is_digit substring.
Proof.
  unfold float_filtered. destruct (Str.mem "." text).
  - apply filter_filter, digit_is_kept.
  - destruct (Str.split_once "." substring) as [a [b|]] eqn:E.
    + apply split_once_some in E as [-> _].
      rewrite !filter_append, !(filter_filter _ _ _ digit_is_kept).
      reflexivity.
    + apply split_once_none in E as [-> _].
      apply filter_filter, digit_is_kept.
Qed.

Lemma digits_of_remove_minus (s : string) :
  Str.filter Str.is_digit (remove_minus s) = Str.filter Str.is_digit s.
Proof. apply filter_filter, digit_is_not_minus. Qed.

(** X1.  [LabelledFloatInput.insert_text] never loses a digit, of the
    text it finds or of the text typed, and never adds one: the digits
    of the field afterwards are those of the plain insertion, in the
    same order. *)
Theorem float_insert_text_keeps_every_digit
  (signed : bool) (text : string) (cursor : nat) (substring : string) :
  Str.filter Str.is_digit (float_insert_text signed text cursor substring)
  = Str.filter Str.is_digit (text_insert text cursor substring).
Proof.
  rewrite float_insert_text_drops_minus. cbv zeta.
  assert (T : Str.filter Str.is_digit
                (text_insert text cursor (float_filtered text substring))
              = Str.filter Str.is_digit (text_insert text cursor substring)).
  { unfold text_insert.
    now rewrite !filter_append, digits_of_float_filtered. }
  rewrite <- T.
  destruct signed; [|apply digits_of_remove_minus].
  destruct (text_insert text cursor (float_filtered text substring))
    as [|c r]; [reflexivity|].
  cbn [Str.filter]. now rewrite digits_of_remove_minus.
Qed.

(** X2.  Of the decimal points typed into a float field, the first goes
    in when the field shows none and every other is dropped; the point
    the field shows stays. *)
Theorem float_insert_text_counts_points
  (signed : bool) (text : string) (cursor : nat) (substring : string) :
  Str.count "." (float_insert_text signed text cursor substring)
  = Str.count "." text
    + (if Str.mem "." text then 0
       else Nat.min 1 (Str.count "." substring)).
Proof.
  assert (K : forall x, Str.count "." (Str.filter float_pat_keeps x) = 0)
    by (intro x; apply count_filter_out; reflexivity).
  assert (F : Str.count "." (float_filtered text substring)
              = if Str.mem "." text then 0
                else Nat.min 1 (Str.count "." substring)).
  { unfold float_filtered. destruct (Str.mem "." text); [apply K|].
    destruct (Str.split_once "." substring) as [a [b|]] eqn:E.
    - apply split_once_some in E as [-> _].
      rewrite !count_append, !K. cbn [Str.count].
      change (Ascii.eqb "." ".") with true. cbv iota.
      destruct (Str.count "." a + (1 + Str.count "." b)) eqn:N; [lia|].
      cbn. lia.
    - apply split_once_none in E as [-> E]. rewrite K, E. reflexivity. }
  rewrite float_insert_text_drops_minus. cbv zeta.
  assert (T : Str.count "."
                (text_insert text cursor (float_filtered text substring))
              = Str.count "." text
                + (if Str.mem "." text then 0
                   else Nat.min 1 (Str.count "." substring))).
  { unfold text_insert. rewrite !count_append, F.
    assert (C : Str.count "." text
                = Str.count "." (Str.take cursor text)
                  + Str.count "." (Str.drop cursor text))
      by (now rewrite <- count_append, take_drop).
    lia. }
  rewrite <- T.
  destruct signed; [|apply count_remove_minus_point].
  destruct (text_insert text cursor (float_filtered text substring))
    as [|c r]; [reflexivity|].
  cbn [Str.count]. now rewrite count_remove_minus_point.
Qed.

(* ================================================================= *)
(** ** What [collect_properties] returns *)

Lemma first_failure_app (a b : list (widget_class * string)) :
  first_failure (a ++ b)
  = match first_failure a with
    | Some e => Some e
    | None => first_failure b
    end.
Proof.
  induction a as [|[c p] a IH]; cbn [app first_failure]; [reflexivity|].
  destruct (input_value c); [exact IH | reflexivity].
Qed.

Lemma last_value_app (p : string) (a b : list (widget_class * string)) :
  last_value p (a ++ b)
  = match last_value p b with
    | Some v => Some v
    | None => last_value p a
    end.
Proof.
  induction a as [|[c q] a IH]; cbn [app last_value].
  - now destruct (last_value p b).
  - rewrite IH. now destruct (last_value p b).
Qed.

Lemma collect_children_first_failure (cs : list widget) :
  Forall (fun x => match first_failure (fields x) with
                   | Some e => collect_properties x = Raise e
                   | None => exists d, collect_properties x = Return d
                   end) cs ->
  forall ret,
    match first_failure (flat_map fields cs) with
    | Some e => collect_children cs ret = Raise e
    | None => exists d, collect_children cs ret = Return d
    end.
Proof.
  induction 1 as [|x r Hx Hr IH]; intros ret;
    cbn [flat_map first_failure collect_children].
  - now exists ret.
  - rewrite first_failure_app.
    destruct (first_failure (fields x)) as [e|].
    + now rewrite Hx.
    + destruct Hx as [d ->]. apply IH.
Qed.

Lemma collect_first_failure (w : widget) :
  match first_failure (fields w) with
  | Some e => collect_properties w = Raise e
  | None => exists d, collect_properties w = Return d
  end.
Proof.
  induction w as [c p children IH] using widget_induction.
  rewrite collect_unfold. cbn [fields]. unfold own_property.
  pose proof (collect_children_first_failure children IH) as K.
  destruct (is_bound c p); cbn [app first_failure]; [|apply K].
  destruct (input_value c) as [v|e]; [apply K | reflexivity].
Qed.

(** X3.  [collect_properties] fails on the first field, in the order of
    the walk (a widget before its children, the children in their
    order), that does not read: the error raised is that field's,
    whatever fails behind it; and when every field reads, it returns. *)
Theorem collect_properties_fails_on_the_first_field (w : widget) :
  (forall e, first_failure (fields w) = Some e ->
             collect_properties w = Raise e)
  /\ (first_failure (fields w) = None ->
      exists d, collect_properties w = Return d).
Proof.
  pose proof (collect_first_failure w) as H.
  destruct (first_failure (fields w)) as [e0|]; split.
  - intros e E. inversion E; subst. exact H.
  - discriminate.
  - discriminate.
  - intros _. exact H.
Qed.

(** *** The dictionary collected *)

Lemma assoc_none_notin {A : Type} (k : string) (d : list (string * A)) :
  ~ In k (List.map fst d) -> assoc k d = None.
Proof.
  induction d as [|[k' v] r IH]; cbn; [reflexivity|].
  intros H. destruct (String.eqb_spec k k') as [->|_]; [tauto|].
  apply IH. tauto.
Qed.

Lemma assoc_in {A : Type} (k : string) (v : A) (d : list (string * A)) :
  assoc k d = Some v -> In (k, v) d.
Proof.
  induction d as [|[k' w] r IH]; cbn; [discriminate|].
  destruct (String.eqb_spec k k') as [->|_].
  - intros H; inversion H; auto.
  - auto.
Qed.

Lemma in_assoc_nodup {A : Type} (k : string) (v : A) (d : list (string * A)) :
  NoDup (List.map fst d) -> In (k, v) d -> assoc k d = Some v.
Proof.
  induction d as [|[k' w] r IH]; cbn; [tauto|].
  intros N [E|I]; inversion N as [|? ? Hn Nr]; subst.
  - inversion E; subst. now rewrite String.eqb_refl.
  - destruct (String.eqb_spec k k') as [->|_]; [|auto].
    exfalso. apply Hn. change k' with (fst (k', v)). now apply in_map.
Qed.

Lemma assoc_set_keys {A : Type} (k : string) (v : A) (d : list (string * A)) :
  List.map fst (assoc_set k v d)
  = if List.existsb (String.eqb k) (List.map fst d)
    then List.map fst d
    else (List.map fst d ++ [k])%list.
Proof.
  induction d as [|[k' w] r IH]; cbn; [reflexivity|].
  destruct (String.eqb_spec k k') as [->|_]; cbn; [reflexivity|].
  rewrite IH. now destruct (List.existsb (String.eqb k) (List.map fst r)).
Qed.

Lemma assoc_set_nodup {A : Type} (k : string) (v : A)
  (d : list (string * A)) :
  NoDup (List.map fst d) -> NoDup (List.map fst (assoc_set k v d)).
Proof.
  intros N. rewrite assoc_set_keys.
  destruct (List.existsb (String.eqb k) (List.map fst d)) eqn:E; [exact N|].
  apply NoDup_app; [exact N | repeat constructor; cbn; tauto |].
  intros x Hx [Ex|[]]. subst x.
  assert (List.existsb (String.eqb k) (List.map fst d) = true).
  { apply List.existsb_exists. exists k. split; [exact Hx|].
    apply String.eqb_refl. }
  congruence.
Qed.

Lemma assoc_update_nodup {A : Type} (e d : list (string * A)) :
  NoDup (List.map fst d) -> NoDup (List.map fst (assoc_update d e)).
Proof.
  unfold assoc_update. revert d.
  induction e as [|[k v] r IH]; intros d N; cbn; [exact N|].
  apply IH. now apply assoc_set_nodup.
Qed.

(** Updating a dictionary with another: the other's entry wins. *)
Lemma assoc_update_assoc {A : Type} (p : string) (e d : list (string * A)) :
  NoDup (List.map fst e) ->
  assoc p (assoc_update d e)
  = match assoc p e with
    | Some v => Some v
    | None => assoc p d
    end.
Proof.
  unfold assoc_update. revert d.
  induction e as [|[k v] r IH]; intros d N; cbn [fold_left assoc fst snd];
    [reflexivity|].
  inversion N as [|? ? Hn Nr]; subst. rewrite (IH _ Nr).
  destruct (String.eqb_spec p k) as [->|Hp].
  - rewrite (assoc_none_notin _ _ Hn). apply assoc_set_same.
  - destruct (assoc p r); [reflexivity|]. now apply assoc_set_other.
Qed.

Lemma collect_children_collected (cs : list widget) :
  Forall (fun x => forall d, collect_properties x = Return d ->
                             collected_from (fields x) [] d) cs ->
  forall ret d,
    NoDup (List.map fst ret) ->
    collect_children cs ret = Return d ->
    collected_from (flat_map fields cs) ret d.
Proof.
  induction 1 as [|x r Hx Hr IH]; intros ret d N H;
    cbn [collect_children flat_map] in *.
  - inversion H; subst. split; [exact N | reflexivity].
  - destruct (collect_properties x) as [dx|] eqn:Cx; [|discriminate].
    destruct (Hx dx eq_refl) as [Nx Ax].
    destruct (IH _ _ (assoc_update_nodup dx ret N) H) as [Nd Ad].
    split; [exact Nd|]. intros p.
    rewrite (Ad p), last_value_app, (assoc_update_assoc p dx ret Nx), (Ax p).
    destruct (last_value p (flat_map fields r)); [reflexivity|].
    now destruct (last_value p (fields x)).
Qed.

Lemma collect_collected :
  forall w d, collect_properties w = Return d ->
              collected_from (fields w) [] d.
Proof.
  induction w as [c p children IH] using widget_induction.
  intros d. rewrite collect_unfold. cbn [fields]. unfold own_property.
  destruct (is_bound c p).
  - destruct (input_value c) as [v|e] eqn:V; [|discriminate].
    intros H.
    destruct (collect_children_collected children IH [(p, v)] d) as [Nd Ad];
      [repeat constructor; cbn; tauto | exact H |].
    split; [exact Nd|]. intros q. rewrite (Ad q).
    change ([(c, p)] ++ flat_map fields children)%list
      with ((c, p) :: flat_map fields children).
    cbn [last_value assoc]. rewrite V.
    destruct (last_value q (flat_map fields children)); [reflexivity|].
    now destruct (String.eqb q p).
  - intros H. now apply (collect_children_collected children IH [] d);
      [constructor|].
Qed.

Lemma last_value_field (p : string) (fs : list (widget_class * string))
  (v : pyval) :
  last_value p fs = Some v ->
  exists c, In (c, p) fs /\ input_value c = Return v.
Proof.
  induction fs as [|[c q] r IH]; cbn [last_value]; [discriminate|].
  destruct (last_value p r) as [v'|].
  - intros H; inversion H; subst.
    destruct (IH eq_refl) as (c' & I & V). exists c'. split; [now right | exact V].
  - destruct (String.eqb_spec p q) as [->|_]; [|discriminate].
    destruct (input_value c) as [v'|] eqn:V; [|discriminate].
    intros H; inversion H; subst. exists c. split; [now left | exact V].
Qed.

(** Every entry of a collected dictionary is the value of a field bound
    to its key. *)
Lemma collect_entries_from_fields (w : widget) (d : dict) (k : string)
  (v : pyval) :
  collect_properties w = Return d -> In (k, v) d ->
  exists c, In (c, k) (fields w) /\ input_value c = Return v.
Proof.
  intros C I. destruct (collect_collected _ _ C) as [N A].
  apply (in_assoc_nodup _ _ _ N) in I. rewrite (A k) in I.
  apply last_value_field. cbn [assoc] in I.
  now destruct (last_value k (fields w)).
Qed.

(** X4.  The dictionary [collect_properties] returns has one entry for
    each path a field of the form is bound to and no other; where
    several fields are bound to one path, the entry holds what the last
    of them in the walk reads as. *)
Theorem collect_properties_later_field_wins (w : widget) (d : dict) :
  collect_properties w = Return d ->
  NoDup (List.map fst d)
  /\ (forall p, assoc p d = last_value p (fields w))
  /\ (forall k v, In (k, v) d ->
                  exists c, In (c, k) (fields w) /\ input_value c = Return v).
Proof.
  intros C. destruct (collect_collected _ _ C) as [N A].
  split; [exact N|]. split.
  - intros p. rewrite (A p). cbn [assoc].
    now destruct (last_value p (fields w)).
  - intros k v. now apply collect_entries_from_fields.
Qed.

Lemma collect_properties_later_field_wins_witness :
  assoc "a/b"
    [("a/b", VStr "second")]
  = last_value "a/b"
      (fields (Widget (LabelledTextInput "first") "a/b"
                 [Widget (LabelledTextInput "second") "a/b" []])).
Proof.
  exact (proj1 (proj2
    (collect_properties_later_field_wins
       (Widget (LabelledTextInput "first") "a/b"
          [Widget (LabelledTextInput "second") "a/b" []])
       [("a/b", VStr "second")] eq_refl)) "a/b").
Defined.

Lemma collect_properties_fails_on_the_first_field_witness :
  collect_properties
    (Widget (LabelledIntInput "") "a/first"
       [Widget (LabelledFloatInput true ".") "a/second" []])
  = Raise (parse_error "a/first" (LabelledIntInput "")
             (ValueError "invalid literal for int() with base 10: ''")).
Proof.
  exact (proj1 (collect_properties_fails_on_the_first_field
                  (Widget (LabelledIntInput "") "a/first"
                     [Widget (LabelledFloatInput true ".") "a/second" []]))
           _ eq_refl).
Defined.

(* ================================================================= *)
(** ** More on [get_setting] *)

Lemma resolve_error_is_TypeError (c : pyval) (k : string) :
  exists msg, resolve_error c k = TypeError msg.
Proof.
  destruct c as [| | | |s| |]; cbn [resolve_error]; eauto.
  destruct (Str.contains k s); eauto.
Qed.

Lemma get_setting_in_raises (ks : list string) (leaf : string) :
  forall c, maps_along ks c = false ->
            exists msg, get_setting_in ks leaf c = Raise (TypeError msg).
Proof.
  induction ks as [|k ks IH]; intros c H;
    destruct c as [| | | | | |d];
    try (cbn [get_setting_in];
         match goal with
         | |- context [resolve_error ?c ?k] =>
             destruct (resolve_error_is_TypeError c k) as [m ->]
         end; now exists m);
    cbn [maps_along get_setting_in] in *; try discriminate.
  destruct (assoc k d) as [sub|]; [|discriminate].
  destruct (IH sub H) as [m ->]. now exists m.
Qed.

(** X5.  [get_setting] raises exactly when a level the path passes
    through exists and is not a dictionary; what it raises is a
    [TypeError], and the configuration and the log are then as they
    were: nothing has been created on the way. *)
Theorem get_setting_raises_only_through_a_non_dict (key : string) (w : world) :
  let keys := Str.split "/" key in
  (maps_along (removelast keys) (config w) = false ->
   exists msg, get_setting key w = (Raise (TypeError msg), w))
  /\ (forall e w', get_setting key w = (Raise e, w') ->
                   maps_along (removelast keys) (config w) = false
                   /\ w' = w).
Proof.
  intros keys. split.
  - intros H. unfold get_setting. fold keys.
    destruct (get_setting_in_raises _ (last keys "") _ H) as [m ->].
    now exists m.
  - intros e w' H.
    destruct (maps_along (removelast keys) (config w)) eqn:M.
    + destruct (get_setting_in_heals _ (last keys "") _ M)
        as (v & c' & cr & G & _).
      unfold get_setting in H. fold keys in H. rewrite G in H.
      discriminate.
    + split; [reflexivity|].
      unfold get_setting in H. fold keys in H.
      destruct (get_setting_in_raises _ (last keys "") _ M) as [m E].
      rewrite E in H. now inversion H.
Qed.

Lemma get_setting_raises_only_through_a_non_dict_witness :
  exists msg,
    get_setting "engine/visits/max"
      (mkWorld (VDict [("engine", VDict [("visits", VInt 100)])]) true [])
    = (Raise (TypeError msg),
       mkWorld (VDict [("engine", VDict [("visits", VInt 100)])]) true []).
Proof.
  exact (proj1 (get_setting_raises_only_through_a_non_dict
                  "engine/visits/max"
                  (mkWorld (VDict [("engine", VDict [("visits", VInt 100)])])
                     true []))
           eq_refl).
Defined.

(** X6.  [get_setting] heals once: after a call that returned, the same
    call returns the same again and changes nothing, so the diagnostic
    of a missing setting is logged by the first call only. *)
Theorem get_setting_twice (key : string) (w w1 : world)
  (r : pyval * list string * string) :
  get_setting key w = (Return r, w1) ->
  get_setting key w1 = (Return r, w1).
Proof.
  unfold get_setting at 1.
  destruct (get_setting_in _ _ (config w)) as [[[v c'] cr]|e] eqn:G;
    [|discriminate].
  intros H; inversion H; subst. clear H.
  apply get_setting_found. cbn [config]. unfold lookup_path.
  eapply get_setting_in_resolves. exact G.
Qed.

Lemma get_setting_twice_witness :
  get_setting "x/y"
    (mkWorld (VDict [("x", VDict [("y", VStr "")])]) true
       [Log (MsgSettingMissing "x/y") (Some OUTPUT_ERROR)])
  = (Return (VStr "", ["x"], "y"),
     mkWorld (VDict [("x", VDict [("y", VStr "")])]) true
       [Log (MsgSettingMissing "x/y") (Some OUTPUT_ERROR)]).
Proof.
  exact (get_setting_twice "x/y" (mkWorld (VDict []) true []) _ _ eq_refl).
Defined.

(** X7.  Storing the collected values leaves every other setting alone:
    a path that parts ways with the path of every item leads, after the
    loop of [QuickConfigGui.update_config], to the value it led to
    before, also when the loop created settings on its way. *)
Theorem apply_collected_leaves_other_settings
  (items : dict) (updated updated' : list string) (w w' : world)
  (k0 : string) (v0 : pyval) :
  Forall (fun kv => diverge (Str.split "/" k0) (Str.split "/" (fst kv))
                    = true) items ->
  lookup_path k0 (config w) = Some v0 ->
  QuickConfigGui.apply_collected items updated w = (Return updated', w') ->
  lookup_path k0 (config w') = Some v0.
Proof. apply apply_collected_keeps. Qed.

Lemma apply_collected_leaves_other_settings_witness :
  lookup_path "engine/visits"
    (VDict [("engine", VDict [("visits", VInt 100); ("model", VStr "b")]);
            ("debug", VDict [("level", VInt 2)])])
  = Some (VInt 100).
Proof.
  exact (apply_collected_leaves_other_settings
           [("engine/model", VStr "b"); ("debug/level", VInt 2)] [] _
           (mkWorld (VDict [("engine", VDict [("visits", VInt 100);
                                             ("model", VStr "a")])])
              true [])
           _ "engine/visits" (VInt 100)
           ltac:(repeat constructor) eq_refl eq_refl).
Defined.

(* ================================================================= *)
(** ** Filling a form from a complete configuration *)

(** *** Numbers written and read back *)

Lemma digit_is_digit_or_point :
  forall c, Str.is_digit c = true -> digit_or_point c = true.
Proof. ascii_cases. Qed.

Lemma digit_is_not_a_point :
  forall c, Str.is_digit c = true -> Ascii.eqb "." c = false.
Proof. ascii_cases. Qed.

Lemma digit_or_minus_not_space :
  forall c, Str.is_digit c || is_minus c = true -> Str.is_space c = false.
Proof. ascii_cases. Qed.

Lemma digits_count_point (s : string) :
  Str.forallb Str.is_digit s = true -> Str.count "." s = 0.
Proof.
  induction s as [|c r IH]; cbn [Str.forallb Str.count]; [reflexivity|].
  intros H. apply andb_true_iff in H as [Hc Hr].
  now rewrite (digit_is_not_a_point _ Hc), (IH Hr).
Qed.

Lemma float_of_body_digits (neg : bool) (s : string) :
  Str.forallb Str.is_digit s = true -> s <> "" ->
  float_of_body neg s
  = Some (to_double (inject_Z (if neg then - decimal_value 0 s
                               else decimal_value 0 s)%Z)).
Proof.
  intros D Ne.
  assert (Dp : Str.forallb digit_or_point s = true)
    by (eapply forallb_weaken; [apply digit_is_digit_or_point | exact D]).
  unfold float_of_body. rewrite (map_lower_id _ Dp).
  rewrite !(not_a_name s) by (auto; reflexivity). cbn [orb].
  unfold decimal_literal.
  rewrite (split_once_absent "e" s (count_e_none _ Dp)).
  rewrite (split_once_absent "." s (digits_count_point _ D)).
  rewrite (int_part_digits _ D). cbn [exponent].
  destruct (Nat.eqb_spec (String.length s + 0) 0) as [E|_].
  - destruct s; [congruence | cbn in E; lia].
  - unfold scale10.
    change (0 - Z.of_nat 0)%Z with 0%Z. change (0 <=? 0)%Z with true.
    cbv iota. cbn [Z.of_nat]. rewrite !Z.pow_0_r, !Z.mul_1_r, Z.add_0_r.
    now destruct neg.
Qed.

Lemma Z_str_nonneg (z : Z) : (0 <= z)%Z -> Z_str z = Str.of_nat (Z.to_nat z).
Proof.
  intros H. unfold Z_str. destruct (Z.ltb_spec z 0); [lia | reflexivity].
Qed.

Lemma Z_str_neg (z : Z) :
  (z < 0)%Z -> Z_str z = String "-" (Str.of_nat (Z.to_nat (- z))).
Proof.
  intros H. unfold Z_str. destruct (Z.ltb_spec z 0); [reflexivity | lia].
Qed.

Lemma of_nat_value (n : nat) : decimal_value 0 (Str.of_nat n) = Z.of_nat n.
Proof.
  unfold Str.of_nat.
  destruct (digits_of_spec n n "" (le_n n)) as (ds & E & _ & _ & V).
  rewrite E, append_empty_r, V. reflexivity.
Qed.

Lemma strip_signed_digits (s : string) :
  Str.forallb Str.is_digit s = true ->
  Str.strip (String "-" s) = String "-" s.
Proof.
  intros D.
  apply (strip_no_space (fun c => Str.is_digit c || is_minus c)).
  - apply digit_or_minus_not_space.
  - cbn [Str.forallb]. change (Str.is_digit "-" || is_minus "-") with true.
    cbn [andb]. eapply forallb_weaken; [|exact D].
    intros c Hc. now rewrite Hc.
Qed.

Lemma py_int_minus_digits (s : string) :
  Str.forallb Str.is_digit s = true -> s <> "" ->
  String.length s <= max_str_digits ->
  py_int (String "-" s) = Return (- decimal_value 0 s)%Z.
Proof.
  intros D Ne Hl. unfold py_int. cbn [Str.lstrip].
  change (Str.is_space "-") with false. cbv iota. cbn [split_sign].
  rewrite (digit_run_digits _ D), digitpart_digits by auto.
  cbn [Nat.add Str.forallb]. now apply Nat.ltb_ge in Hl as ->.
Qed.

(** [int(str(z))] is [z], for a [z] of the digits [int()] reads. *)
Lemma py_int_Z_str (z : Z) :
  int_digits z <= max_str_digits -> py_int (Z_str z) = Return z.
Proof.
  unfold int_digits. intros Hl.
  destruct (Z.ltb_spec z 0) as [Hn|Hp].
  - rewrite (Z_str_neg _ Hn). rewrite Z.abs_neq in Hl by lia.
    destruct (of_nat_digits (Z.to_nat (- z))) as [D Ne].
    rewrite (py_int_minus_digits _ D Ne Hl), of_nat_value. f_equal. lia.
  - rewrite (Z_str_nonneg _ Hp). rewrite Z.abs_eq in Hl by lia.
    rewrite (py_int_of_nat _ Hl). f_equal. lia.
Qed.

(** *** Integers that are doubles *)

Lemma round_half_even_1 (N : Z) : round_half_even N 1 = N.
Proof.
  unfold round_half_even. now rewrite Z.div_1_r, Z.mod_1_r.
Qed.

Lemma binary_exponent_int (n : Z) :
  (0 < n)%Z -> binary_exponent n 1 = Z.log2 n.
Proof.
  intros Hn. unfold binary_exponent. change (Z.log2 1) with 0%Z.
  rewrite Z.sub_0_r. pose proof (Z.log2_nonneg n) as P.
  destruct (Z.leb_spec 0 (Z.log2 n)) as [_|]; [|lia].
  destruct (Z.log2_spec n Hn) as [L _].
  destruct (Z.ltb_spec n (1 * 2 ^ Z.log2 n)); [lia | reflexivity].
Qed.

(** An integer of at most 53 bits, and the power [2 ^ 53], are doubles:
    rounding leaves them as they are. *)
Lemma to_double_int (z : Z) :
  (Z.abs z <= 2 ^ 53)%Z ->
  exists q, to_double (inject_Z z) = FFin q
            /\ Qeq_bool q (inject_Z z) = true.
Proof.
  intros H.
  destruct (Z.eq_dec (Z.abs z) (2 ^ 53)) as [Top|Top].
  { assert (C : z = (2 ^ 53)%Z \/ z = (- 2 ^ 53)%Z) by lia.
    destruct C as [-> | ->]; eexists; split; vm_compute; reflexivity. }
  unfold to_double. cbn [Qnum Qden inject_Z].
  destruct (Z.eqb_spec (Z.abs z) 0) as [E|E].
  { exists 0%Q. split; [reflexivity|].
    assert (z = 0%Z) by lia. subst. reflexivity. }
  assert (Hn : (0 < Z.abs z)%Z) by lia.
  rewrite (binary_exponent_int _ Hn). cbv zeta.
  assert (He : (0 <= Z.log2 (Z.abs z) <= 52)%Z).
  { split; [apply Z.log2_nonneg|].
    assert (L : (Z.log2 (Z.abs z) < 53)%Z);
      [apply Z.log2_lt_pow2; lia | lia]. }
  rewrite Z.max_l by lia.
  assert (S : (if (z <? 0)%Z then - Z.abs z else Z.abs z)%Z = z).
  { destruct (Z.ltb_spec z 0); lia. }
  destruct (Z.leb_spec 0 (Z.log2 (Z.abs z) - 52)) as [U|U].
  - replace (Z.log2 (Z.abs z) - 52)%Z with 0%Z by lia.
    change (1 * 2 ^ 0)%Z with 1%Z. rewrite round_half_even_1.
    change (2 ^ 0)%Z with 1%Z. rewrite !Z.mul_1_r, S.
    destruct (Z.leb_spec (2 ^ 1024) (Z.abs z)) as [B|_].
    + exfalso. assert ((2 ^ 53 < 2 ^ 1024)%Z) by reflexivity. lia.
    + exists (inject_Z z). split; [reflexivity|].
      apply Qeq_bool_iff. reflexivity.
  - rewrite round_half_even_1.
    set (k := (- (Z.log2 (Z.abs z) - 52))%Z).
    assert (P : (0 < 2 ^ k)%Z) by (apply Z.pow_pos_nonneg; lia).
    eexists. split; [reflexivity|].
    apply Qeq_bool_iff. rewrite Qred_correct.
    unfold Qeq. cbn [Qnum Qden inject_Z]. rewrite Z2Pos.id by exact P.
    destruct (Z.ltb_spec z 0).
    + rewrite Z.abs_neq by lia. lia.
    + rewrite Z.abs_eq by lia. lia.
Qed.

(** Past [2 ^ 53] an integer need not be a double: [2 ^ 53 + 1] reads
    back as [2 ^ 53]. *)
Lemma py_float_rounds_a_long_integer :
  py_float "9007199254740993"
  = Return (FFin (inject_Z 9007199254740992)).
Proof. vm_compute. reflexivity. Qed.

(** [float(str(z))] is a float equal to [z], for a [z] that is a
    double. *)
Lemma py_float_Z_str (z : Z) :
  (Z.abs z <= 2 ^ 53)%Z ->
  exists f, py_float (Z_str z) = Return f
            /\ py_ne (VFloat f) (VInt z) = false.
Proof.
  intros B. destruct (to_double_int z B) as (q & T & Q).
  assert (N : py_ne (VFloat (FFin q)) (VInt z) = false).
  { unfold py_ne. cbn [py_eq num_of float_eqb]. now rewrite Q. }
  exists (FFin q). split; [|exact N].
  destruct (Z.ltb_spec z 0) as [Hn|Hp].
  - rewrite (Z_str_neg _ Hn).
    destruct (of_nat_digits (Z.to_nat (- z))) as [D Ne].
    unfold py_float. rewrite (strip_signed_digits _ D). cbn [split_sign].
    rewrite (float_of_body_digits true _ D Ne), of_nat_value.
    replace (- Z.of_nat (Z.to_nat (- z)))%Z with z by lia.
    now rewrite T.
  - rewrite (Z_str_nonneg _ Hp).
    destruct (of_nat_digits (Z.to_nat z)) as [D Ne].
    unfold py_float.
    rewrite (strip_no_space Str.is_digit) by (auto using digit_not_space).
    destruct (Str.of_nat (Z.to_nat z)) as [|c r] eqn:E; [congruence|].
    pose proof D as D'. cbn [Str.forallb] in D'.
    apply andb_true_iff in D' as [Hc _].
    rewrite (split_sign_digit _ _ Hc).
    rewrite (float_of_body_digits false _ D Ne), <- E, of_nat_value.
    replace (Z.of_nat (Z.to_nat z)) with z by lia.
    now rewrite T.
Qed.

Lemma set_properties_unfold (repr_value : pyval -> string)
  (cls : widget_class) (p : string)
  (children : list widget) (w : world) :
  set_properties repr_value (Widget cls p children) w
  = ((cls' <- (if is_bound cls p
               then r <- get_setting p ;;
                    lift (show_value repr_value cls (fst (fst r)))
               else ret cls) ;;
      children' <-
        (fix over (cs : list widget) : M world (list widget) :=
           match cs with
           | [] => ret []
           | x :: cs' =>
               x' <- set_properties repr_value x ;;
               r <- over cs' ;;
               ret (x' :: r)
           end) children ;;
      ret (Widget cls' p children')) w).
Proof. reflexivity. Qed.

Lemma set_properties_children (repr_value : pyval -> string)
  (c : pyval) (cs : list widget) (w : world) :
  Forall (fun x => set_properties repr_value x w
                   = (Return (shown repr_value c x), w)) cs ->
  (fix over (cs : list widget) : M world (list widget) :=
     match cs with
     | [] => ret []
     | x :: cs' =>
         x' <- set_properties repr_value x ;;
         r <- over cs' ;;
         ret (x' :: r)
     end) cs w
  = (Return (List.map (shown repr_value c) cs), w).
Proof.
  induction 1 as [|x r Hx Hr IH]; [reflexivity|].
  unfold bind at 1. rewrite Hx. unfold bind at 1. rewrite IH. reflexivity.
Qed.

Lemma Forall_flat_map_fields {P : widget_class * string -> Prop}
  (cs : list widget) :
  Forall P (flat_map fields cs) -> Forall (fun x => Forall P (fields x)) cs.
Proof.
  induction cs as [|x r IH]; cbn [flat_map]; intros H; constructor.
  - apply Forall_app in H. tauto.
  - apply IH. apply Forall_app in H. tauto.
Qed.

Lemma set_properties_shown (repr_value : pyval -> string) :
  forall form w,
    Forall (fillable repr_value (config w)) (fields form) ->
    set_properties repr_value form w
    = (Return (shown repr_value (config w) form), w).
Proof.
  induction form as [cls p children IH] using widget_induction.
  intros w F. cbn [fields] in F. apply Forall_app in F as [Fo Fc].
  apply Forall_flat_map_fields in Fc.
  assert (K : Forall (fun x => set_properties repr_value x w
                               = (Return (shown repr_value (config w) x), w))
                children).
  { clear - IH Fc. induction children as [|x r IHr]; constructor.
    - inversion IH; inversion Fc; subst. auto.
    - inversion IH; inversion Fc; subst. auto. }
  rewrite set_properties_unfold. cbn [shown]. unfold shown_class.
  destruct (is_bound cls p).
  - inversion Fo as [|? ? (v & cls' & L & S) _]; subst. cbn [fst snd] in *.
    unfold bind at 1. unfold bind at 1.
    rewrite (get_setting_found _ _ _ L). cbn [fst]. unfold lift.
    rewrite L, S.
    unfold bind at 1. rewrite (set_properties_children repr_value (config w) _ _ K).
    reflexivity.
  - unfold bind at 1. unfold ret at 1.
    unfold bind at 1. rewrite (set_properties_children repr_value (config w) _ _ K).
    reflexivity.
Qed.

(** X8.  On a configuration that holds every setting the form is bound
    to, [set_properties] only reads: the configuration and the log are
    what they were, and the form comes back with the same widgets, paths
    and children, each bound widget showing its stored value. *)
Theorem set_properties_only_reads (repr_value : pyval -> string)
  (form : widget) (w : world) :
  Forall (fillable repr_value (config w)) (fields form) ->
  set_properties repr_value form w
  = (Return (shown repr_value (config w) form), w)
  /\ List.map snd (fields (shown repr_value (config w) form))
     = List.map snd (fields form).
Proof.
  intros F. split; [now apply set_properties_shown|].
  clear F. induction form as [cls p children IH] using widget_induction.
  cbn [shown fields]. unfold shown_class. rewrite !map_app. f_equal.
  - assert (B : forall cls', (exists v, show_value repr_value cls v
                                        = Return cls') ->
                             is_bound cls' p = is_bound cls p).
    { intros cls' [v S]. destruct cls; cbn in S; inversion S; try reflexivity.
      destruct (nth_error values _); inversion S. reflexivity. }
    destruct (is_bound cls p) eqn:E; [|now rewrite E].
    destruct (lookup_path p (config w)) as [v|]; [|now rewrite E].
    destruct (show_value repr_value cls v) as [cls'|] eqn:S; [|now rewrite E].
    rewrite (B cls' (ex_intro _ v S)). reflexivity.
  - induction children as [|x r IHr]; [reflexivity|].
    inversion IH as [|? ? Hx Hr]; subst.
    cbn [List.map flat_map]. rewrite !map_app, Hx, (IHr Hr). reflexivity.
Qed.

Lemma show_value_bound (repr_value : pyval -> string)
  (cls cls' : widget_class) (p : string) (v : pyval) :
  show_value repr_value cls v = Return cls' ->
  is_bound cls' p = is_bound cls p.
Proof.
  intros S. destruct cls; cbn in S; inversion S; try reflexivity.
  destruct (nth_error values _); inversion S. reflexivity.
Qed.

Lemma shown_class_bound (repr_value : pyval -> string)
  (c : pyval) (cls : widget_class) (p : string) :
  is_bound (shown_class repr_value c cls p) p = is_bound cls p.
Proof.
  unfold shown_class. destruct (is_bound cls p) eqn:E; [|exact E].
  destruct (lookup_path p c) as [v|]; [|exact E].
  destruct (show_value repr_value cls v) as [cls'|] eqn:S; [|exact E].
  now rewrite (show_value_bound _ _ _ _ _ S).
Qed.

Lemma fields_shown (repr_value : pyval -> string) (c : pyval) :
  forall form,
    fields (shown repr_value c form)
    = List.map (fun f => (shown_class repr_value c (fst f) (snd f), snd f))
        (fields form).
Proof.
  induction form as [cls p children IH] using widget_induction.
  cbn [shown fields]. rewrite map_app, shown_class_bound. f_equal.
  - now destruct (is_bound cls p).
  - induction children as [|x r IHr]; [reflexivity|].
    inversion IH as [|? ? Hx Hr]; subst.
    cbn [List.map flat_map]. now rewrite map_app, Hx, (IHr Hr).
Qed.

Lemma fields_are_bound :
  forall form f, In f (fields form) -> is_bound (fst f) (snd f) = true.
Proof.
  induction form as [cls p children IH] using widget_induction.
  intros f. cbn [fields]. intros H. apply in_app_or in H as [H|H].
  - destruct (is_bound cls p) eqn:E; [|contradiction].
    destruct H as [<-|[]]. exact E.
  - apply in_flat_map in H as (x & Hx & Hf).
    rewrite Forall_forall in IH. now apply (IH x Hx).
Qed.

Lemma Qeq_bool_same (q : Q) : Qeq_bool q q = true.
Proof. apply Qeq_bool_iff. reflexivity. Qed.

(** A widget that shows a value of its type reads as a value equal to
    it. *)
Lemma agrees_reads (repr_value : pyval -> string)
  (cls : widget_class) (v : pyval) :
  agrees repr_value cls v ->
  exists cls' v',
    show_value repr_value cls v = Return cls'
    /\ input_value cls' = Return v'
    /\ py_ne v' v = false.
Proof.
  destruct cls as [|t|sg t|t|a|vs rs t]; cbn [agrees]; try contradiction.
  - intros [s ->]. exists (LabelledTextInput s), (VStr s).
    repeat split. unfold py_ne. cbn. now rewrite String.eqb_refl.
  - intros [(z & -> & B) | (f & f' & -> & P & E)].
    + destruct (py_float_Z_str z B) as (f & P & N).
      exists (LabelledFloatInput sg (Z_str z)), (VFloat f).
      cbn [show_value py_str input_value]. now rewrite P.
    + exists (LabelledFloatInput sg (repr_value (VFloat f))), (VFloat f').
      cbn [show_value py_str input_value]. rewrite P.
      repeat split. unfold py_ne. cbn [py_eq num_of]. now rewrite E.
  - intros (z & -> & B). exists (LabelledIntInput (Z_str z)), (VInt z).
    cbn [show_value py_str input_value]. rewrite (py_int_Z_str _ B).
    repeat split. unfold py_ne. cbn [py_eq num_of float_eqb].
    now rewrite Qeq_bool_same.
  - intros [b ->]. exists (LabelledCheckBox b), (VBool b).
    repeat split; [now destruct b | now destruct b].
Qed.

(** A form that shows values of the types its widgets edit holds
    nothing [QuickConfigGui.update_config] would store. *)
Lemma update_config_of_shown (repr_value : pyval -> string)
  (form : widget) (w : world) (has_popup save_to_file : bool) :
  Forall (fun f => exists v, lookup_path (snd f) (config w) = Some v
                             /\ agrees repr_value (fst f) v)
    (fields form) ->
  QuickConfigGui.update_config (shown repr_value (config w) form)
    has_popup save_to_file w
  = (Return [],
     mkWorld (config w) (katago_process w)
       (trace w ++ (if save_to_file then [SaveConfig] else [])
        ++ (if has_popup then [PopupDismiss] else []))).
Proof.
  intros A. rewrite Forall_forall in A.
  assert (R : forall cls' k,
             In (cls', k) (fields (shown repr_value (config w) form)) ->
             exists v v', lookup_path k (config w) = Some v
                          /\ input_value cls' = Return v'
                          /\ py_ne v' v = false).
  { intros cls' k I. rewrite fields_shown in I.
    apply in_map_iff in I as ([cls p] & E & I). cbn [fst snd] in E.
    inversion E; subst. clear E.
    destruct (A _ I) as (v & L & G). cbn [fst snd] in *.
    destruct (agrees_reads _ _ _ G) as (cls' & v' & S & V & N).
    exists v, v'. split; [exact L|].
    pose proof (fields_are_bound form _ I) as B. cbn [fst snd] in B.
    unfold shown_class. rewrite B, L, S. auto. }
  destruct (collect_properties (shown repr_value (config w) form))
    as [d|e] eqn:C.
  - apply (update_config_settled _ _ _ d); [exact C|].
    apply Forall_forall. intros [k v] I. cbn [fst snd].
    destruct (collect_entries_from_fields _ _ _ _ C I) as (cls' & If & V).
    destruct (R _ _ If) as (v0 & v' & L & V' & N).
    exists v0. split; [exact L|]. congruence.
  - exfalso. destruct (collect_raise_reports _ _ C)
      as (cls' & p & e0 & I & V & _).
    destruct (R _ _ I) as (v0 & v' & _ & V' & _). congruence.
Qed.

(** X9.  Opening a form on values its widgets can hold and applying it
    unedited changes nothing: [set_properties] leaves the world as it
    is, and [QuickConfigGui.update_config] of the form it filled reports
    no setting as updated, stores nothing and does not call
    [update_state].  The values are those of [agrees]: under a float
    field an integer is one that is a double, since a longer one comes
    back rounded and is stored again, and under an int field one of the
    digits [int()] reads. *)
Theorem unedited_form_changes_nothing (repr_value : pyval -> string)
  (form : widget) (w : world) (has_popup save_to_file : bool) :
  Forall (fun f => exists v, lookup_path (snd f) (config w) = Some v
                             /\ agrees repr_value (fst f) v)
    (fields form) ->
  exists form',
    set_properties repr_value form w = (Return form', w)
    /\ QuickConfigGui.update_config form' has_popup save_to_file w
       = (Return [],
          mkWorld (config w) (katago_process w)
            (trace w ++ (if save_to_file then [SaveConfig] else [])
             ++ (if has_popup then [PopupDismiss] else []))).
Proof.
  intros A. exists (shown repr_value (config w) form). split.
  - apply set_properties_shown. apply Forall_forall. intros f I.
    rewrite Forall_forall in A. destruct (A f I) as (v & L & G).
    destruct (agrees_reads _ _ _ G) as (cls' & v' & S & _).
    now exists v, cls'.
  - now apply update_config_of_shown.
Qed.

(** X10.  A text field shows [str(value)] and reads as that text: bound
    to a setting that is not a text (a number, a boolean), the unedited
    field makes [QuickConfigGui.update_config] store the text of the
    value in place of the value and report the setting as updated. *)
Theorem text_field_turns_a_value_into_text (repr_value : pyval -> string)
  (text key : string) (w : world) (v : pyval) :
  key <> "" ->
  lookup_path key (config w) = Some v ->
  (forall s, v <> VStr s) ->
  exists w',
    set_properties repr_value (Widget (LabelledTextInput text) key []) w
    = (Return (Widget (LabelledTextInput (py_str repr_value v)) key []), w)
    /\ QuickConfigGui.update_config
         (Widget (LabelledTextInput (py_str repr_value v)) key [])
         false false w
       = (Return [key], w')
    /\ lookup_path key (config w') = Some (VStr (py_str repr_value v)).
Proof.
  intros Hk L Ns.
  assert (N : py_ne (VStr (py_str repr_value v)) v = true).
  { unfold py_ne. destruct v; try reflexivity. now destruct (Ns s). }
  eexists. split; [|split].
  - rewrite (set_properties_text_leaf repr_value text key w Hk).
    now rewrite (get_setting_found _ _ _ L).
  - unfold QuickConfigGui.update_config. unfold bind at 1, lift.
    rewrite collect_leaf. unfold own_property. cbn [is_bound].
    destruct (String.eqb_spec key ""); [contradiction|]. cbn [negb input_value].
    unfold bind at 1. cbn [QuickConfigGui.apply_collected].
    unfold bind at 1. rewrite (get_setting_found _ _ _ L), N.
    reflexivity.
  - cbn [config]. unfold lookup_path. apply lookup_in_store_at.
    unfold lookup_path in L. congruence.
Qed.


Lemma set_properties_only_reads_witness :
  set_properties (fun _ => "")
    (Widget Plain "" [Widget (LabelledIntInput "") "engine/visits" []])
    (mkWorld visits_store true [])
  = (Return
       (Widget Plain "" [Widget (LabelledIntInput "100") "engine/visits" []]),
     mkWorld visits_store true []).
Proof.
  refine (proj1 (set_properties_only_reads (fun _ => "")
                   (Widget Plain ""
                      [Widget (LabelledIntInput "") "engine/visits" []])
                   (mkWorld visits_store true []) _)).
  repeat constructor. exists (VInt 100), (LabelledIntInput "100").
  split; reflexivity.
Defined.

Lemma unedited_form_changes_nothing_witness :
  exists form',
    set_properties (fun _ => "") visits_form (mkWorld visits_store true [])
    = (Return form', mkWorld visits_store true [])
    /\ QuickConfigGui.update_config form' true true
         (mkWorld visits_store true [])
       = (Return [], mkWorld visits_store true [SaveConfig; PopupDismiss]).
Proof.
  refine (unedited_form_changes_nothing (fun _ => "") visits_form
            (mkWorld visits_store true []) true true _).
  repeat constructor.
  - exists (VInt 100). split; [reflexivity|].
    exists 100%Z. split; [reflexivity | apply Nat.leb_le; reflexivity].
  - exists (VInt 1). split; [reflexivity|].
    exists 1%Z. split; [reflexivity | apply Nat.leb_le; reflexivity].
Defined.

Lemma text_field_turns_a_value_into_text_witness :
  exists w',
    QuickConfigGui.update_config
      (Widget (LabelledTextInput "100") "engine/visits" []) false false
      (mkWorld visits_store true [])
    = (Return ["engine/visits"], w')
    /\ lookup_path "engine/visits" (config w') = Some (VStr "100").
Proof.
  destruct (text_field_turns_a_value_into_text (fun _ => "") ""
              "engine/visits" (mkWorld visits_store true []) (VInt 100))
    as (w' & _ & U & L).
  - discriminate.
  - reflexivity.
  - discriminate.
  - exists w'. split; [exact U | exact L].
Defined.

(* ================================================================= *)
(** ** What [QuickConfigGui.update_config] does and does not do *)

Lemma reports_is_parse_error (fs : list (widget_class * string)) (e : exn) :
  reports fs e -> exists msg, e = InputParseError msg.
Proof. intros (c & p & e0 & _ & _ & ->). now eexists. Qed.

Lemma collect_raises_InputParseError (form : widget) :
  (exists c p e, In (c, p) (fields form) /\ input_value c = Raise e) ->
  exists msg, collect_properties form = Raise (InputParseError msg).
Proof.
  intros F. destruct (collect_fails_when_a_field_fails form F) as [e C].
  destruct (reports_is_parse_error _ _ (collect_raise_reports _ _ C))
    as [msg ->].
  now exists msg.
Qed.

(** X11.  [QuickConfigGui.update_config] has no handler: when a field
    cannot be read the [InputParseError] leaves the method, and nothing
    has happened by then, no setting stored, no file saved, no popup
    dismissed. *)
Theorem QuickConfigGui_update_config_lets_a_parse_error_out
  (form : widget) (has_popup save_to_file : bool) (w : world) :
  (exists c p e, In (c, p) (fields form) /\ input_value c = Raise e) ->
  exists msg,
    QuickConfigGui.update_config form has_popup save_to_file w
    = (Raise (InputParseError msg), w).
Proof.
  intros F. destruct (collect_raises_InputParseError form F) as [msg C].
  exists msg. unfold QuickConfigGui.update_config, bind at 1, lift.
  now rewrite C.
Qed.

Lemma QuickConfigGui_update_config_lets_a_parse_error_out_witness :
  exists msg,
    QuickConfigGui.update_config
      (Widget Plain ""
         [Widget (LabelledIntInput "150") "engine/visits" [];
          Widget (LabelledFloatInput true "-") "engine/max_time" []])
      true true (mkWorld visits_store true [])
    = (Raise (InputParseError msg), mkWorld visits_store true []).
Proof.
  apply (QuickConfigGui_update_config_lets_a_parse_error_out
           (Widget Plain ""
              [Widget (LabelledIntInput "150") "engine/visits" [];
               Widget (LabelledFloatInput true "-") "engine/max_time" []])
           true true (mkWorld visits_store true [])).
  exists (LabelledFloatInput true "-"), "engine/max_time".
  eexists. split; [right; left; reflexivity | vm_compute; reflexivity].
Defined.

Lemma set_add_in (k x : string) (s : list string) :
  In x (set_add k s) -> x = k \/ In x s.
Proof.
  unfold set_add. destruct (List.existsb (String.eqb k) s); [now right|].
  intros I. apply in_app_or in I as [I|[<-|[]]]; auto.
Qed.

Lemma get_setting_keeps_the_engine (key : string) (w w1 : world)
  (r : outcome (pyval * list string * string)) :
  get_setting key w = (r, w1) -> katago_process w1 = katago_process w.
Proof.
  unfold get_setting.
  destruct (get_setting_in _ _ (config w)) as [[[v c'] cr]|e];
    intros E; inversion E; reflexivity.
Qed.

Lemma QuickConfigGui_apply_collected_updated (items : dict) :
  forall updated w updated' w',
    QuickConfigGui.apply_collected items updated w = (Return updated', w') ->
    katago_process w' = katago_process w
    /\ forall k, In k updated' ->
                 In k updated \/ In k (List.map fst items).
Proof.
  induction items as [|[k v] rest IH]; intros updated w updated' w' H.
  - inversion H; subst. split; auto.
  - cbn [QuickConfigGui.apply_collected] in H. unfold bind at 1 in H.
    destruct (get_setting k w) as [[[[old conf] key]|e] w1] eqn:G;
      [|discriminate].
    apply get_setting_keeps_the_engine in G.
    destruct (py_ne v old).
    + unfold bind at 1 in H. unfold emit at 1 in H.
      unfold bind at 1 in H. unfold set_through at 1 in H.
      apply IH in H as [P U]. cbn [katago_process] in P.
      split; [congruence|].
      intros x I. destruct (U x I) as [J|J]; [|right; now right].
      apply set_add_in in J as [->|J]; [right; now left | now left].
    + apply IH in H as [P U]. split; [congruence|].
      intros x I. destruct (U x I) as [J|J]; [now left | right; now right].
Qed.

(** X12.  What [QuickConfigGui.update_config] leaves behind when it
    returns: every collected setting reads as a value equal to the
    field's (when the paths part ways and no value is [nan]), only
    paths of bound fields are reported as updated, and the engine is the
    one it was. *)
Theorem QuickConfigGui_update_config_stores_every_field
  (form : widget) (has_popup save_to_file : bool) (w w' : world)
  (collected : dict) (updated : list string) :
  collect_properties form = Return collected ->
  paths_apart collected ->
  self_equal collected ->
  QuickConfigGui.update_config form has_popup save_to_file w
  = (Return updated, w') ->
  settled collected (config w')
  /\ (forall k, In k updated -> exists c, In (c, k) (fields form))
  /\ katago_process w' = katago_process w.
Proof.
  intros C A E H.
  unfold QuickConfigGui.update_config, bind at 1, lift in H. rewrite C in H.
  unfold bind at 1 in H.
  destruct (QuickConfigGui.apply_collected collected [] w)
    as [[u|e] w1] eqn:L; [|discriminate].
  assert (S := apply_collected_settles _ _ _ _ _ A E L).
  apply QuickConfigGui_apply_collected_updated in L as [P U].
  assert (R : updated = u /\ config w' = config w1
              /\ katago_process w' = katago_process w1).
  { destruct save_to_file, (nonempty u), has_popup;
      inversion H; subst; auto. }
  destruct R as (-> & Rc & Rp). rewrite Rc. split; [exact S|].
  split; [|congruence].
  intros k I. destruct (U k I) as [[]|J].
  apply in_map_iff in J as ([k' v] & <- & J).
  destruct (collect_entries_from_fields _ _ _ _ C J) as (c & F & _).
  now exists c.
Qed.

Lemma QuickConfigGui_update_config_stores_every_field_witness :
  settled [("engine/visits", VInt 150); ("debug/level", VInt 1)]
    (VDict [("engine", VDict [("visits", VInt 150);
                              ("max_visits", VInt 1000)]);
            ("debug", VDict [("level", VInt 1)])]).
Proof.
  refine (proj1 (QuickConfigGui_update_config_stores_every_field
                   visits_form true true (mkWorld visits_store true [])
                   (mkWorld
                      (VDict [("engine", VDict [("visits", VInt 150);
                                                ("max_visits", VInt 1000)]);
                              ("debug", VDict [("level", VInt 1)])])
                      true
                      [Log (MsgUpdatingSetting "engine/visits" (VInt 150))
                         (Some OUTPUT_DEBUG);
                       SaveConfig; UpdateState false; PopupDismiss])
                   [("engine/visits", VInt 150); ("debug/level", VInt 1)]
                   ["engine/visits"] eq_refl _ _ eq_refl)).
  - cbn. repeat constructor.
  - repeat constructor.
Defined.

(* ================================================================= *)
(** ** [ConfigPopup.update_config]: what it refuses and what it spares *)

(** The loop over two runs of items is the loop over the first and then
    over the second. *)
Lemma ConfigPopup_apply_collected_app (pre rest : dict) :
  forall updated_cat w,
    ConfigPopup.apply_collected (pre ++ rest)%list updated_cat w
    = (u <- ConfigPopup.apply_collected pre updated_cat ;;
       ConfigPopup.apply_collected rest u) w.
Proof.
  induction pre as [|[k v] pre IH]; intros updated_cat w; [reflexivity|].
  cbn [app ConfigPopup.apply_collected].
  destruct (Str.split "/" k) as [|k1 [|k2 [|k3 l]]]; try reflexivity.
  unfold bind, read_config, lift, emit, write_config in *.
  destruct (getitem_str (config w) k1) as [cat|e]; [|reflexivity].
  destruct (getitem_str cat k2) as [cur|e]; [|reflexivity].
  destruct (py_ne cur v); [|apply IH].
  destruct (setitem_str cat k2 v) as [cat'|e]; [|reflexivity].
  cbn [config].
  destruct (setitem_str (config w) k1 cat') as [c'|e]; [|reflexivity].
  apply IH.
Qed.

Lemma ConfigPopup_update_config_loop_raises
  (form : widget) (save_to_file : bool) (w w1 : world) (collected : dict)
  (e : exn) :
  collect_properties form = Return collected ->
  ConfigPopup.apply_collected collected [] w = (Raise e, w1) ->
  (forall msg, e <> InputParseError msg) ->
  ConfigPopup.update_config form save_to_file w = (Raise e, w1).
Proof.
  intros C L N. unfold ConfigPopup.update_config.
  unfold bind at 1. unfold try_except_InputParseError.
  unfold bind at 1. unfold lift at 1. rewrite C.
  unfold bind at 1. rewrite L.
  destruct e; try reflexivity. now destruct (N msg).
Qed.

(** X13.  [ConfigPopup.update_config] creates nothing: a field whose
    category or key the configuration does not hold makes it raise
    [KeyError], which its handler does not catch.  What the fields
    before it stored stays stored, and the popup is neither dismissed
    nor told of the error. *)
Theorem ConfigPopup_update_config_raises_on_an_unknown_setting
  (form : widget) (save_to_file : bool) (w w1 : world)
  (pre rest : dict) (k k1 k2 : string) (v : pyval)
  (updated_cat : list (string * list string)) (d : dict) :
  collect_properties form = Return (pre ++ (k, v) :: rest)%list ->
  ConfigPopup.apply_collected pre [] w = (Return updated_cat, w1) ->
  Str.split "/" k = [k1; k2] ->
  config w1 = VDict d ->
  assoc k1 d = None
  \/ (exists cat, assoc k1 d = Some (VDict cat) /\ assoc k2 cat = None) ->
  exists key,
    (key = k1 \/ key = k2)
    /\ ConfigPopup.update_config form save_to_file w
       = (Raise (KeyError (str_repr key)), w1).
Proof.
  intros C L S D A.
  assert (R : exists key,
             (key = k1 \/ key = k2)
             /\ ConfigPopup.apply_collected ((k, v) :: rest) updated_cat w1
                = (Raise (KeyError (str_repr key)), w1)).
  { cbn [ConfigPopup.apply_collected]. rewrite S.
    unfold bind at 1, read_config at 1. unfold bind at 1, lift at 1.
    rewrite D. cbn [getitem_str].
    destruct A as [A|(cat & A & B)]; rewrite A.
    - exists k1. split; [now left | reflexivity].
    - exists k2. split; [now right|].
      unfold bind at 1, lift at 1. cbn [getitem_str]. now rewrite B. }
  destruct R as (key & K & R). exists key. split; [exact K|].
  apply (ConfigPopup_update_config_loop_raises _ _ _ _ _ _ C);
    [|discriminate].
  rewrite ConfigPopup_apply_collected_app. unfold bind at 1.
  now rewrite L.
Qed.

Lemma ConfigPopup_update_config_raises_on_an_unknown_setting_witness :
  exists key,
    (key = "engine" \/ key = "threads")
    /\ ConfigPopup.update_config
         (Widget Plain ""
            [Widget (LabelledIntInput "2") "debug/level" [];
             Widget (LabelledIntInput "4") "engine/threads" []])
         true (mkWorld visits_store true [])
       = (Raise (KeyError (str_repr key)),
          mkWorld
            (VDict [("engine", VDict [("visits", VInt 100);
                                      ("max_visits", VInt 1000)]);
                    ("debug", VDict [("level", VInt 2)])])
            true
            [Log (MsgUpdatingSetting "debug/level" (VInt 2))
               (Some OUTPUT_DEBUG)]).
Proof.
  refine (ConfigPopup_update_config_raises_on_an_unknown_setting
            (Widget Plain ""
               [Widget (LabelledIntInput "2") "debug/level" [];
                Widget (LabelledIntInput "4") "engine/threads" []])
            true (mkWorld visits_store true []) _
            [("debug/level", VInt 2)] [] "engine/threads" "engine" "threads"
            (VInt 4) [("debug", ["level"])] _
            eq_refl eq_refl eq_refl eq_refl _).
  right. eexists. split; reflexivity.
Defined.

(** X14.  [ConfigPopup.update_config] takes paths of two levels only:
    a field bound to a path without a slash, or with more than one,
    makes the unpacking of [k.split("/")] raise [ValueError], which
    escapes in the same way. *)
Theorem ConfigPopup_update_config_wants_two_levels
  (form : widget) (save_to_file : bool) (w w1 : world)
  (pre rest : dict) (k : string) (v : pyval)
  (updated_cat : list (string * list string)) :
  collect_properties form = Return (pre ++ (k, v) :: rest)%list ->
  ConfigPopup.apply_collected pre [] w = (Return updated_cat, w1) ->
  List.length (Str.split "/" k) <> 2 ->
  exists msg,
    ConfigPopup.update_config form save_to_file w
    = (Raise (ValueError msg), w1).
Proof.
  intros C L S.
  assert (R : exists msg,
             ConfigPopup.apply_collected ((k, v) :: rest) updated_cat w1
             = (Raise (ValueError msg), w1)).
  { cbn [ConfigPopup.apply_collected].
    destruct (Str.split "/" k) as [|k1 [|k2 [|k3 l]]];
      try (eexists; reflexivity).
    now destruct S. }
  destruct R as (msg & R). exists msg.
  apply (ConfigPopup_update_config_loop_raises _ _ _ _ _ _ C);
    [|discriminate].
  rewrite ConfigPopup_apply_collected_app. unfold bind at 1.
  now rewrite L.
Qed.

Lemma ConfigPopup_update_config_wants_two_levels_witness :
  exists msg,
    ConfigPopup.update_config
      (Widget Plain ""
         [Widget (LabelledIntInput "2") "debug/level" [];
          Widget (LabelledCheckBox true) "eval_show_ai" []])
      false (mkWorld visits_store true [])
    = (Raise (ValueError msg),
       mkWorld
         (VDict [("engine", VDict [("visits", VInt 100);
                                   ("max_visits", VInt 1000)]);
                 ("debug", VDict [("level", VInt 2)])])
         true
         [Log (MsgUpdatingSetting "debug/level" (VInt 2))
            (Some OUTPUT_DEBUG)]).
Proof.
  refine (ConfigPopup_update_config_wants_two_levels
            (Widget Plain ""
               [Widget (LabelledIntInput "2") "debug/level" [];
                Widget (LabelledCheckBox true) "eval_show_ai" []])
            false (mkWorld visits_store true []) _
            [("debug/level", VInt 2)] [] "eval_show_ai" (VBool true)
            [("debug", ["level"])] eq_refl eq_refl _).
  vm_compute. discriminate.
Defined.

(** *** When the engine is left alone *)

Lemma no_restart_keys_spare (l : list string) :
  (forall k, In k l -> In k ConfigPopup.no_restart_keys) ->
  List.existsb (String.eqb "visits") l = false
  /\ ConfigPopup.restart_needed l = false.
Proof.
  intros A. unfold ConfigPopup.restart_needed.
  induction l as [|x l IH]; [split; reflexivity|].
  destruct IH as [V R]; [intros k I; apply A; now right|].
  cbn [List.existsb]. rewrite V, R.
  destruct (A x (or_introl eq_refl)) as [<-|[<-|[<-|[<-|[]]]]];
    split; reflexivity.
Qed.

Lemma defaultdict_append_get (k k1 k2 : string)
  (updated_cat : list (string * list string)) :
  ConfigPopup.defaultdict_get k
    (ConfigPopup.defaultdict_append k1 k2 updated_cat)
  = if String.eqb k k1
    then (ConfigPopup.defaultdict_get k updated_cat ++ [k2])%list
    else ConfigPopup.defaultdict_get k updated_cat.
Proof.
  unfold ConfigPopup.defaultdict_get, ConfigPopup.defaultdict_append.
  destruct (String.eqb_spec k k1) as [->|N].
  - now rewrite assoc_set_same.
  - now rewrite assoc_set_other.
Qed.

(** The loop of [ConfigPopup.update_config] only logs, and the engine
    settings it records as updated are settings of the collected
    items. *)
Lemma ConfigPopup_apply_collected_engine (items : dict) :
  forall updated_cat w out w1,
    (forall k v k2, In (k, v) items -> Str.split "/" k = ["engine"; k2] ->
                    In k2 ConfigPopup.no_restart_keys) ->
    (forall k2, In k2 (ConfigPopup.defaultdict_get "engine" updated_cat) ->
                In k2 ConfigPopup.no_restart_keys) ->
    ConfigPopup.apply_collected items updated_cat w = (out, w1) ->
    katago_process w1 = katago_process w
    /\ (exists logs, trace w1 = (trace w ++ logs)%list
                     /\ Forall (fun e => engine_call e = false) logs)
    /\ forall u, out = Return u ->
                 forall k2, In k2 (ConfigPopup.defaultdict_get "engine" u) ->
                            In k2 ConfigPopup.no_restart_keys.
Proof.
  assert (Z : forall w : world,
             katago_process w = katago_process w
             /\ (exists logs, trace w = (trace w ++ logs)%list
                              /\ Forall (fun e => engine_call e = false) logs)).
  { intros w. split; [reflexivity|]. exists []. now rewrite app_nil_r. }
  induction items as [|[k v] rest IH]; intros updated_cat w out w1 A U H.
  - inversion H; subst. destruct (Z w1) as [P T].
    repeat split; [exact T|]. intros u E. now inversion E; subst.
  - cbn [ConfigPopup.apply_collected] in H.
    assert (Ar : forall k v k2, In (k, v) rest ->
                                Str.split "/" k = ["engine"; k2] ->
                                In k2 ConfigPopup.no_restart_keys).
    { intros k' v' k2' I. apply (A k' v'). now right. }
    assert (Fail : forall e, (Raise e, w) = (out, w1) ->
                             katago_process w1 = katago_process w
                             /\ (exists logs,
                                    trace w1 = (trace w ++ logs)%list
                                    /\ Forall (fun e => engine_call e = false)
                                         logs)
                             /\ forall u, out = Return u ->
                                  forall k2,
                                    In k2 (ConfigPopup.defaultdict_get
                                             "engine" u) ->
                                    In k2 ConfigPopup.no_restart_keys).
    { intros e E. inversion E; subst. destruct (Z w1) as [P T].
      repeat split; [exact T | discriminate]. }
    destruct (Str.split "/" k) as [|k1 [|k2 [|k3 l]]] eqn:S;
      try (apply (Fail _ H)).
    unfold bind, read_config, lift, emit, write_config in H.
    destruct (getitem_str (config w) k1) as [cat|e]; [|apply (Fail _ H)].
    destruct (getitem_str cat k2) as [cur|e]; [|apply (Fail _ H)].
    destruct (py_ne cur v); [|now apply (IH _ _ _ _ Ar U H)].
    destruct (setitem_str cat k2 v) as [cat'|e].
    2:{ inversion H; subst. cbn [katago_process trace].
        repeat split; [|discriminate].
        eexists. split; [reflexivity|]. now repeat constructor. }
    cbn [config] in H.
    destruct (setitem_str (config w) k1 cat') as [c'|e].
    2:{ inversion H; subst. cbn [katago_process trace].
        repeat split; [|discriminate].
        eexists. split; [reflexivity|]. now repeat constructor. }
    cbn [katago_process trace] in H.
    apply IH in H as (P & (logs & T & F) & R); [|exact Ar|].
    + cbn [katago_process trace] in P, T. split; [exact P|]. split; [|exact R].
      exists (Log (MsgUpdatingSetting k v) (Some OUTPUT_DEBUG) :: logs).
      split; [now rewrite T, <- app_assoc | now constructor].
    + intros x I. rewrite defaultdict_append_get in I.
      destruct (String.eqb_spec "engine" k1) as [<-|N]; [|now apply U].
      apply in_app_or in I as [I|[<-|[]]]; [now apply U|].
      apply (A k v); [now left | exact S].
Qed.

(** X15.  The engine is restarted for engine settings only, and not for
    the four that need none: when no field of the form is bound to
    another setting of the [engine] category, [ConfigPopup.update_config]
    makes no call for the engine's sake, whatever the fields hold and
    however the method ends, and the engine process is the one it
    was. *)
Theorem ConfigPopup_update_config_spares_the_engine
  (form : widget) (save_to_file : bool) (w w' : world) (out : outcome unit) :
  Forall (fun f => forall k2, Str.split "/" (snd f) = ["engine"; k2] ->
                              In k2 ConfigPopup.no_restart_keys)
    (fields form) ->
  ConfigPopup.update_config form save_to_file w = (out, w') ->
  katago_process w' = katago_process w
  /\ exists added, trace w' = (trace w ++ added)%list
                   /\ Forall (fun e => engine_call e = false) added.
Proof.
  intros A H. rewrite Forall_forall in A.
  destruct (collect_properties form) as [collected|e] eqn:C.
  - assert (Ai : forall k v k2, In (k, v) collected ->
                                Str.split "/" k = ["engine"; k2] ->
                                In k2 ConfigPopup.no_restart_keys).
    { intros k v k2 I S.
      destruct (collect_entries_from_fields _ _ _ _ C I) as (c & F & _).
      apply (A _ F). exact S. }
    destruct (ConfigPopup.apply_collected collected [] w) as [o w1] eqn:L.
    assert (U0 : forall k2,
               In k2 (ConfigPopup.defaultdict_get "engine" []) ->
               In k2 ConfigPopup.no_restart_keys) by (intros k2 []).
    destruct (ConfigPopup_apply_collected_engine _ _ _ _ _ Ai U0 L)
      as (P & (logs & T & F) & R).
    destruct o as [u|e].
    + rewrite (ConfigPopup_update_config_after_loop _ _ _ _ _ _ C L) in H.
      destruct (no_restart_keys_spare _ (R u eq_refl)) as [V N].
      cbv zeta in H. rewrite V, N in H.
      unfold when, bind, read_config, lift, emit, ret in H.
      cbn [config katago_process trace] in H.
      assert (G : forall t : list event,
                 Forall (fun e => engine_call e = false) t ->
                 trace w' = ((trace w1 ++ [PopupDismiss]) ++ t)%list ->
                 exists added, trace w' = (trace w ++ added)%list
                               /\ Forall (fun e => engine_call e = false)
                                    added).
      { intros t Ft E. exists (logs ++ [PopupDismiss] ++ t)%list.
        split; [rewrite E, T, <- !app_assoc; reflexivity|].
        apply Forall_app. split; [exact F|]. now constructor. }
      destruct save_to_file; cbn [config katago_process trace] in H;
        destruct (getitem_str (config w1) "debug") as [debug|e];
        try destruct (getitem_str debug "level") as [level|e];
        inversion H; subst; cbn [katago_process trace];
        (split; [exact P|]);
        rewrite <- ?app_assoc; cbn [app];
        eexists; (split; [rewrite T, <- app_assoc; reflexivity|]);
        apply Forall_app; (split; [exact F|]); now repeat constructor.
    + unfold ConfigPopup.update_config in H.
      unfold bind at 1 in H. unfold try_except_InputParseError in H.
      unfold bind at 1 in H. unfold lift at 1 in H. rewrite C in H.
      unfold bind at 1 in H. rewrite L in H.
      destruct e; inversion H; subst; cbn [katago_process trace];
        (split; [exact P|]);
        try (exists logs; split; [exact T | exact F]).
      eexists. split; [rewrite T, <- !app_assoc; reflexivity|].
      apply Forall_app. split; [exact F|]. now repeat constructor.
  - destruct (reports_is_parse_error _ _ (collect_raise_reports _ _ C))
      as [msg ->].
    rewrite (ConfigPopup_update_config_on_parse_error _ _ _ _ C) in H.
    inversion H; subst. cbn [katago_process trace].
    split; [reflexivity|]. eexists. split; [reflexivity|].
    now repeat constructor.
Qed.

Lemma ConfigPopup_update_config_spares_the_engine_witness :
  exists added,
    [Log (MsgUpdatingSetting "engine/max_visits" (VInt 500))
       (Some OUTPUT_DEBUG);
     PopupDismiss; SaveConfig; SetDebugLevel (VInt 1); UpdateState true]
    = ([] ++ added)%list
    /\ Forall (fun e => engine_call e = false) added.
Proof.
  refine (proj2 (ConfigPopup_update_config_spares_the_engine
                   (Widget Plain ""
                      [Widget (LabelledIntInput "500") "engine/max_visits" [];
                       Widget (LabelledIntInput "1") "debug/level" []])
                   true (mkWorld visits_store true [])
                   (mkWorld
                      (VDict [("engine", VDict [("visits", VInt 100);
                                                ("max_visits", VInt 500)]);
                              ("debug", VDict [("level", VInt 1)])])
                      true
                      [Log (MsgUpdatingSetting "engine/max_visits" (VInt 500))
                         (Some OUTPUT_DEBUG);
                       PopupDismiss; SaveConfig; SetDebugLevel (VInt 1);
                       UpdateState true])
                   (Return tt) _ eq_refl)).
  cbn. apply Forall_cons; [|apply Forall_cons; [|apply Forall_nil]];
    intros k2 S; vm_compute in S.
  - inversion S. now left.
  - discriminate.
Defined.

(* ================================================================= *)
(** ** [ConfigTeacherPopup.update_config]: what its handler sees *)

Lemma no_parse_error_bind {S A B : Type} (m : M S A) (k : A -> M S B) :
  no_parse_error m -> (forall a, no_parse_error (k a)) ->
  no_parse_error (bind m k).
Proof.
  intros Hm Hk s e s' H. unfold bind in H.
  destruct (m s) as [[a|e0] s1] eqn:E.
  - exact (Hk a s1 e s' H).
  - inversion H; subst. exact (Hm s e s' E).
Qed.

Lemma no_parse_error_lift {S A : Type} (o : outcome A) :
  (forall e, o = Raise e -> forall msg, e <> InputParseError msg) ->
  no_parse_error (lift o : M S A).
Proof. intros Ho s e s' H. inversion H; subst. now apply Ho. Qed.

Lemma no_parse_error_when {S : Type} (b : bool) (m : M S unit) :
  no_parse_error m -> no_parse_error (when b m).
Proof. intros Hm. destruct b; [exact Hm|]. intros s e s' H. inversion H. Qed.

Lemma getitem_str_plain (c : pyval) (k : string) (e : exn) :
  getitem_str c k = Raise e -> forall msg, e <> InputParseError msg.
Proof.
  destruct c; cbn; try destruct (assoc k d);
    intros H; inversion H; discriminate.
Qed.

Lemma setitem_str_plain (c : pyval) (k : string) (v : pyval) (e : exn) :
  setitem_str c k v = Raise e -> forall msg, e <> InputParseError msg.
Proof. destruct c; cbn; intros H; inversion H; discriminate. Qed.

Lemma getitem_int_plain (c : pyval) (i : Z) (e : exn) :
  getitem_int c i = Raise e -> forall msg, e <> InputParseError msg.
Proof.
  destruct c; cbn [getitem_int not_subscriptable];
    try destruct (seq_index _ i); intros H; inversion H; discriminate.
Qed.

Lemma setitem_int_plain (c : pyval) (i : Z) (v : pyval) (e : exn) :
  setitem_int c i v = Raise e -> forall msg, e <> InputParseError msg.
Proof.
  destruct c; cbn [setitem_int];
    try destruct (seq_index _ i); intros H; inversion H; discriminate.
Qed.

Lemma py_int_plain (s : string) (e : exn) :
  py_int s = Raise e -> forall msg, e <> InputParseError msg.
Proof.
  unfold py_int. destruct (split_sign (Str.lstrip s)) as [neg body].
  destruct (digit_run body) as [run rest].
  destruct (digitpart AtStart 0 0 run) as [[n digits]|];
    [destruct (max_str_digits <? digits)%nat;
     [|destruct (Str.forallb Str.is_space rest)]|];
    intros H; inversion H; discriminate.
Qed.

(** No turn of the loop raises [InputParseError]. *)
Lemma ConfigTeacherPopup_apply_item_no_parse_error (k : string) (v : pyval) :
  no_parse_error (ConfigTeacherPopup.apply_item k v).
Proof.
  assert (T : forall (A : Type) (m : M ConfigTeacherPopup.popup A),
             (forall s, exists a s', m s = (Return a, s')) ->
             no_parse_error m).
  { intros A m Hm s e s' H. destruct (Hm s) as (a & s2 & E). congruence. }
  assert (V : forall m : string,
             no_parse_error
               (raise (ValueError m) : M ConfigTeacherPopup.popup unit)).
  { intros m s e s' H. inversion H. discriminate. }
  unfold ConfigTeacherPopup.apply_item.
  destruct (Str.contains "::" k);
    [destruct (Str.split "::" k) as [|k1 [|i [|x l]]]; try apply V;
     apply no_parse_error_bind;
     [apply no_parse_error_lift, py_int_plain|intros z];
     destruct (Str.contains "alpha" k1);
     [|destruct (Str.contains "save_feedback" k1)]|];
    repeat first
      [ apply no_parse_error_bind; [|intros ?]
      | apply no_parse_error_when
      | apply no_parse_error_lift;
        first [ apply getitem_str_plain | apply setitem_str_plain
              | apply getitem_int_plain | apply setitem_int_plain ]
      | apply T; intros ?; eexists; eexists; reflexivity ].
Qed.

Lemma ConfigTeacherPopup_apply_collected_no_parse_error (items : dict) :
  no_parse_error (ConfigTeacherPopup.apply_collected items).
Proof.
  induction items as [|[k v] rest IH]; cbn [ConfigTeacherPopup.apply_collected].
  - intros s e s' H. inversion H.
  - apply no_parse_error_bind; [|intros _; exact IH].
    apply ConfigTeacherPopup_apply_item_no_parse_error.
Qed.

Lemma ConfigTeacherPopup_apply_collected_app (pre rest : dict) :
  forall s,
    ConfigTeacherPopup.apply_collected (pre ++ rest)%list s
    = (ConfigTeacherPopup.apply_collected pre ;;
       ConfigTeacherPopup.apply_collected rest) s.
Proof.
  induction pre as [|[k v] pre IH]; intros s; [reflexivity|].
  cbn [app ConfigTeacherPopup.apply_collected]. unfold bind in *.
  destruct (ConfigTeacherPopup.apply_item k v s) as [[[]|e] s1];
    [apply IH | reflexivity].
Qed.

Lemma ConfigTeacherPopup_update_config_loop_raises
  (form : widget) (save_to_file : bool) (s s1 : ConfigTeacherPopup.popup)
  (collected : dict) (e : exn) :
  collect_properties form = Return collected ->
  ConfigTeacherPopup.apply_collected collected s = (Raise e, s1) ->
  ConfigTeacherPopup.update_config form save_to_file s = (Raise e, s1).
Proof.
  intros C L.
  assert (N := ConfigTeacherPopup_apply_collected_no_parse_error _ _ _ _ L).
  unfold ConfigTeacherPopup.update_config.
  unfold bind at 1. unfold try_except_InputParseError.
  unfold bind at 1. unfold lift at 1. rewrite C.
  unfold bind at 1. rewrite L.
  destruct e; try reflexivity. now destruct (N msg).
Qed.

(** X16.  A field that cannot be read is the one error
    [ConfigTeacherPopup.update_config] handles: the message goes to the
    label and to the log, the method returns early, and the three
    dictionaries are as they were; nothing is saved, the popup stays,
    [update_state] is not called. *)
Theorem ConfigTeacherPopup_update_config_reports_a_parse_error
  (form : widget) (save_to_file : bool) (s : ConfigTeacherPopup.popup) :
  (exists c p e, In (c, p) (fields form) /\ input_value c = Raise e) ->
  exists msg,
    ConfigTeacherPopup.update_config form save_to_file s
    = (Return false,
       ConfigTeacherPopup.mkPopup
         (ConfigTeacherPopup.settings s)
         (ConfigTeacherPopup.sgf_settings s)
         (ConfigTeacherPopup.ui_settings s)
         (ConfigTeacherPopup.calls s
          ++ [SetInfoLabel msg;
              Log (MsgException (InputParseError msg))
                (Some OUTPUT_ERROR)])%list).
Proof.
  intros F. destruct (collect_raises_InputParseError form F) as [msg C].
  exists msg. unfold ConfigTeacherPopup.update_config.
  unfold bind at 1. unfold try_except_InputParseError.
  unfold bind at 1. unfold lift at 1. rewrite C.
  run_popup. now rewrite <- app_assoc.
Qed.

Lemma ConfigTeacherPopup_update_config_reports_a_parse_error_witness :
  exists msg,
    ConfigTeacherPopup.update_config
      (Widget Plain ""
         [Widget (LabelledFloatInput true "") "eval_thresholds::0" []])
      true teacher_sample
    = (Return false,
       ConfigTeacherPopup.mkPopup
         (VDict [("eval_thresholds", VList [VInt 12])])
         (VDict [("save_feedback", VList [VBool true])])
         (VDict [("eval_colors",
                  VList [VList [VInt 1; VInt 0; VInt 0;
                                VFloat (FFin (1 # 2))]])])
         [SetInfoLabel msg;
          Log (MsgException (InputParseError msg)) (Some OUTPUT_ERROR)]).
Proof.
  apply (ConfigTeacherPopup_update_config_reports_a_parse_error
           (Widget Plain ""
              [Widget (LabelledFloatInput true "") "eval_thresholds::0" []])
           true teacher_sample).
  exists (LabelledFloatInput true ""), "eval_thresholds::0".
  eexists. split; [left; reflexivity | vm_compute; reflexivity].
Defined.

(** X17.  Once the fields are read, no error of the loop is an
    [InputParseError]: whatever the loop of
    [ConfigTeacherPopup.update_config] raises leaves the method, with
    the dictionaries as the loop left them, and without the save, the
    dismissal and the [update_state] that follow the loop. *)
Theorem ConfigTeacherPopup_update_config_handles_parse_errors_only
  (form : widget) (save_to_file : bool) (s s1 : ConfigTeacherPopup.popup)
  (collected : dict) (e : exn) :
  collect_properties form = Return collected ->
  ConfigTeacherPopup.apply_collected collected s = (Raise e, s1) ->
  (forall msg, e <> InputParseError msg)
  /\ ConfigTeacherPopup.update_config form save_to_file s = (Raise e, s1).
Proof.
  intros C L. split.
  - exact (ConfigTeacherPopup_apply_collected_no_parse_error _ _ _ _ L).
  - now apply (ConfigTeacherPopup_update_config_loop_raises _ _ _ _ collected).
Qed.

Lemma ConfigTeacherPopup_update_config_handles_parse_errors_only_witness :
  ConfigTeacherPopup.update_config
    (Widget Plain ""
       [Widget (LabelledFloatInput true "3") "eval_thresholds::x" []])
    true teacher_sample
  = (Raise (ValueError "invalid literal for int() with base 10: 'x'"),
     teacher_sample).
Proof.
  refine (proj2 (ConfigTeacherPopup_update_config_handles_parse_errors_only
                   (Widget Plain ""
                      [Widget (LabelledFloatInput true "3")
                         "eval_thresholds::x" []])
                   true teacher_sample teacher_sample
                   [("eval_thresholds::x", VFloat (FFin 3))]
                   (ValueError "invalid literal for int() with base 10: 'x'")
                   _ _)); vm_compute; reflexivity.
Defined.

(** X18.  An index past the end of a list of the trainer settings makes
    [ConfigTeacherPopup.update_config] raise [IndexError]; the items
    before it are stored by then, and the method ends there. *)
Theorem ConfigTeacherPopup_update_config_raises_out_of_range
  (form : widget) (save_to_file : bool) (s s1 : ConfigTeacherPopup.popup)
  (pre rest : dict) (k k1 i : string) (z : Z) (v : pyval)
  (td : dict) (seq : list pyval) :
  collect_properties form = Return (pre ++ (k, v) :: rest)%list ->
  ConfigTeacherPopup.apply_collected pre s = (Return tt, s1) ->
  Str.contains "::" k = true ->
  Str.split "::" k = [k1; i] ->
  py_int i = Return z ->
  Str.contains "alpha" k1 = false ->
  Str.contains "save_feedback" k1 = false ->
  ConfigTeacherPopup.settings s1 = VDict td ->
  assoc k1 td = Some (VList seq) ->
  (Z.of_nat (List.length seq) <= z \/ z < - Z.of_nat (List.length seq))%Z ->
  ConfigTeacherPopup.update_config form save_to_file s
  = (Raise (IndexError "list index out of range"), s1).
Proof.
  intros C L K S I A F D T R.
  apply (ConfigTeacherPopup_update_config_loop_raises _ _ _ _ _ _ C).
  - rewrite ConfigTeacherPopup_apply_collected_app. unfold bind at 1.
    rewrite L. cbn [ConfigTeacherPopup.apply_collected].
    unfold bind at 1. unfold ConfigTeacherPopup.apply_item.
    rewrite K, S, A, F. run_popup. rewrite I, D.
    cbn [getitem_str]. rewrite T. cbn [getitem_int].
    assert (O : seq_index (List.length seq) z = None).
    { unfold seq_index.
      destruct (Z.leb_spec 0 z), (Z.ltb_spec z (Z.of_nat (List.length seq))),
        (Z.leb_spec (- Z.of_nat (List.length seq)) z), (Z.ltb_spec z 0);
        cbn; try reflexivity; lia. }
    now rewrite O.
Qed.

Lemma ConfigTeacherPopup_update_config_raises_out_of_range_witness :
  ConfigTeacherPopup.update_config
    (Widget Plain ""
       [Widget (LabelledFloatInput true "3") "eval_thresholds::1" []])
    true teacher_sample
  = (Raise (IndexError "list index out of range"), teacher_sample).
Proof.
  refine (ConfigTeacherPopup_update_config_raises_out_of_range
            (Widget Plain ""
               [Widget (LabelledFloatInput true "3") "eval_thresholds::1" []])
            true teacher_sample teacher_sample
            [] [] "eval_thresholds::1" "eval_thresholds" "1" 1
            (VFloat (FFin 3)) [("eval_thresholds", VList [VInt 12])]
            [VInt 12] _ eq_refl eq_refl eq_refl eq_refl eq_refl eq_refl
            eq_refl eq_refl _).
  - vm_compute. reflexivity.
  - left. cbn. lia.
Defined.

(** X19.  The word [alpha] anywhere in front of the [::] sends the item
    to the colours, whatever else the name says, and what is stored is
    the truth of the value: [1.0] for a value that counts as true and
    [0.0] for one that does not, in the fourth component of
    [eval_colors[i]].  The index is one of the at most 4300 digits
    [int()] reads. *)
Theorem alpha_in_the_name_sends_to_the_colours
  (s : ConfigTeacherPopup.popup) (k k1 : string) (i : nat) (v : pyval)
  (ud : dict) (rows color : list pyval) (cur : pyval) :
  String.length (Str.of_nat i) <= max_str_digits ->
  Str.contains "::" k = true ->
  Str.split "::" k = [k1; Str.of_nat i] ->
  Str.contains "alpha" k1 = true ->
  ConfigTeacherPopup.ui_settings s = VDict ud ->
  assoc "eval_colors" ud = Some (VList rows) ->
  nth_error rows i = Some (VList color) ->
  nth_error color 3 = Some cur ->
  ConfigTeacherPopup.apply_item k v s
  = (Return tt,
     if py_ne cur (alpha_value (py_truthy v))
     then ConfigTeacherPopup.mkPopup
            (ConfigTeacherPopup.settings s)
            (ConfigTeacherPopup.sgf_settings s)
            (VDict
               (assoc_set "eval_colors"
                  (VList
                     (list_set i
                        (VList (list_set 3 (alpha_value (py_truthy v)) color))
                        rows))
                  ud))
            (ConfigTeacherPopup.calls s
             ++ [Log (MsgUpdatingAlpha (Z.of_nat i)
                        (alpha_value (py_truthy v)))
                   (Some OUTPUT_DEBUG)])%list
     else s).
Proof.
  intros Hi K S A Hu Hc Hr Hv.
  exact (apply_item_alpha s k k1 i v ud rows color cur Hi K S A Hu Hc Hr Hv).
Qed.

Lemma alpha_in_the_name_sends_to_the_colours_witness :
  ConfigTeacherPopup.apply_item "save_feedback_alpha::0" (VStr "no")
    teacher_sample
  = (Return tt,
     ConfigTeacherPopup.mkPopup
       (VDict [("eval_thresholds", VList [VInt 12])])
       (VDict [("save_feedback", VList [VBool true])])
       (VDict [("eval_colors",
                VList [VList [VInt 1; VInt 0; VInt 0; VFloat (FFin 1)]])])
       [Log (MsgUpdatingAlpha 0 (VFloat (FFin 1))) (Some OUTPUT_DEBUG)]).
Proof.
  refine (alpha_in_the_name_sends_to_the_colours teacher_sample
            "save_feedback_alpha::0" "save_feedback_alpha" 0 (VStr "no")
            _ _ _ _ _ eq_refl eq_refl eq_refl eq_refl eq_refl eq_refl
            eq_refl).
  apply Nat.leb_le. reflexivity.
Defined.

(* ================================================================= *)
(** ** [ConfigTimerPopup.update_config] *)

(** X20.  The timer popup resets the clock also when no setting
    changed: applied unedited on values its widgets can hold (those of
    [agrees]), it stores nothing, and still sets the periods used of
    every player to zero, pauses the timer, clears the time used on the
    current node and calls [update_state], once and last. *)
Theorem ConfigTimerPopup_unedited_form_resets_the_clock
  (repr_value : pyval -> string) (form : widget)
  (has_popup save_to_file : bool) (s : ConfigTimerPopup.clock) :
  let w := ConfigTimerPopup.app s in
  Forall (fun f => exists v, lookup_path (snd f) (config w) = Some v
                             /\ agrees repr_value (fst f) v)
    (fields form) ->
  ConfigTimerPopup.update_config (shown repr_value (config w) form)
    has_popup save_to_file s
  = (Return tt,
     ConfigTimerPopup.mkClock
       (mkWorld (config w) (katago_process w)
          (trace w ++ (if save_to_file then [SaveConfig] else [])
           ++ (if has_popup then [PopupDismiss] else [])
           ++ [UpdateState false])%list)
       (List.map (fun p => (fst p, VInt 0)) (ConfigTimerPopup.periods_used s))
       true (VInt 0)).
Proof.
  intros w A. unfold ConfigTimerPopup.update_config.
  unfold bind at 1. unfold ConfigTimerPopup.on_app at 1. fold w.
  rewrite (update_config_of_shown repr_value form w _ _ A).
  cbn. now rewrite <- !app_assoc.
Qed.

Lemma ConfigTimerPopup_unedited_form_resets_the_clock_witness :
  ConfigTimerPopup.update_config
    (Widget Plain ""
       [Widget (LabelledIntInput "100") "engine/visits" [];
        Widget (LabelledIntInput "1") "debug/level" []])
    false true
    (ConfigTimerPopup.mkClock (mkWorld visits_store true [])
       [("B", VInt 2); ("W", VInt 1)] false (VInt 17))
  = (Return tt,
     ConfigTimerPopup.mkClock
       (mkWorld visits_store true [SaveConfig; UpdateState false])
       [("B", VInt 0); ("W", VInt 0)] true (VInt 0)).
Proof.
  refine (ConfigTimerPopup_unedited_form_resets_the_clock (fun _ => "")
            visits_form false true
            (ConfigTimerPopup.mkClock (mkWorld visits_store true [])
               [("B", VInt 2); ("W", VInt 1)] false (VInt 17)) _).
  cbn. apply Forall_cons; [|apply Forall_cons; [|apply Forall_nil]].
  - exists (VInt 100). split; [reflexivity|].
    exists 100%Z. split; [reflexivity | apply Nat.leb_le; reflexivity].
  - exists (VInt 1). split; [reflexivity|].
    exists 1%Z. split; [reflexivity | apply Nat.leb_le; reflexivity].
Defined.

(** X21.  A field that cannot be read stops the timer popup before it
    touches the clock: the [InputParseError] of
    [QuickConfigGui.update_config] leaves
    [ConfigTimerPopup.update_config] as well, and the periods, the timer
    and the time used are what they were. *)
Theorem ConfigTimerPopup_update_config_keeps_the_clock_on_a_parse_error
  (form : widget) (has_popup save_to_file : bool)
  (s : ConfigTimerPopup.clock) :
  (exists c p e, In (c, p) (fields form) /\ input_value c = Raise e) ->
  exists msg,
    ConfigTimerPopup.update_config form has_popup save_to_file s
    = (Raise (InputParseError msg), s).
Proof.
  intros F. destruct (collect_raises_InputParseError form F) as [msg C].
  exists msg. unfold ConfigTimerPopup.update_config.
  unfold bind at 1. unfold ConfigTimerPopup.on_app at 1.
  unfold QuickConfigGui.update_config, bind at 1, lift. rewrite C.
  now destruct s.
Qed.

Lemma ConfigTimerPopup_update_config_keeps_the_clock_on_a_parse_error_witness :
  exists msg,
    ConfigTimerPopup.update_config
      (Widget (LabelledIntInput "") "timer/byo_length" []) false true
      (ConfigTimerPopup.mkClock (mkWorld visits_store true [])
         [("B", VInt 2); ("W", VInt 1)] false (VInt 17))
    = (Raise (InputParseError msg),
       ConfigTimerPopup.mkClock (mkWorld visits_store true [])
         [("B", VInt 2); ("W", VInt 1)] false (VInt 17)).
Proof.
  apply (ConfigTimerPopup_update_config_keeps_the_clock_on_a_parse_error
           (Widget (LabelledIntInput "") "timer/byo_length" []) false true
           (ConfigTimerPopup.mkClock (mkWorld visits_store true [])
              [("B", VInt 2); ("W", VInt 1)] false (VInt 17))).
  exists (LabelledIntInput ""), "timer/byo_length".
  eexists. split; [left; reflexivity | vm_compute; reflexivity].
Defined.

(** X22.  Whenever [ConfigTimerPopup.update_config] returns, the
    settings are stored as [QuickConfigGui.update_config] stores them,
    the same players are on the clock with no period used, the timer is
    paused, no time is used on the current node, and the last call is
    an [update_state], on top of the one a changed setting brings. *)
Theorem ConfigTimerPopup_update_config_resets_the_clock
  (form : widget) (has_popup save_to_file : bool)
  (s s' : ConfigTimerPopup.clock) :
  ConfigTimerPopup.update_config form has_popup save_to_file s
  = (Return tt, s') ->
  exists updated a,
    QuickConfigGui.update_config form has_popup save_to_file
      (ConfigTimerPopup.app s)
    = (Return updated, a)
    /\ ConfigTimerPopup.app s'
       = mkWorld (config a) (katago_process a)
           (trace a ++ [UpdateState false])%list
    /\ List.map fst (ConfigTimerPopup.periods_used s')
       = List.map fst (ConfigTimerPopup.periods_used s)
    /\ Forall (fun p => snd p = VInt 0) (ConfigTimerPopup.periods_used s')
    /\ ConfigTimerPopup.paused s' = true
    /\ ConfigTimerPopup.time_used s' = VInt 0.
Proof.
  intros H. unfold ConfigTimerPopup.update_config in H.
  unfold bind at 1 in H. unfold ConfigTimerPopup.on_app at 1 in H.
  destruct (QuickConfigGui.update_config form has_popup save_to_file
              (ConfigTimerPopup.app s)) as [[u|e] a]; [|discriminate].
  exists u, a. split; [reflexivity|].
  cbn in H. inversion H; subst. cbn.
  repeat split.
  - rewrite map_map. reflexivity.
  - apply Forall_forall. intros p I.
    apply in_map_iff in I as (q & <- & _). reflexivity.
Qed.

Lemma ConfigTimerPopup_update_config_resets_the_clock_witness :
  exists updated a,
    QuickConfigGui.update_config visits_form false false
      (mkWorld visits_store true [])
    = (Return updated, a)
    /\ (trace a ++ [UpdateState false])%list
       = [Log (MsgUpdatingSetting "engine/visits" (VInt 150))
            (Some OUTPUT_DEBUG);
          UpdateState false; UpdateState false].
Proof.
  destruct (ConfigTimerPopup_update_config_resets_the_clock
              visits_form false false
              (ConfigTimerPopup.mkClock (mkWorld visits_store true [])
                 [("B", VInt 2); ("W", VInt 1)] false (VInt 17))
              (ConfigTimerPopup.mkClock
                 (mkWorld
                    (VDict [("engine", VDict [("visits", VInt 150);
                                              ("max_visits", VInt 1000)]);
                            ("debug", VDict [("level", VInt 1)])])
                    true
                    [Log (MsgUpdatingSetting "engine/visits" (VInt 150))
                       (Some OUTPUT_DEBUG);
                     UpdateState false; UpdateState false])
                 [("B", VInt 0); ("W", VInt 0)] true (VInt 0))
              eq_refl)
    as (updated & a & Q & A & _).
  exists updated, a. split; [exact Q|].
  cbn [ConfigTimerPopup.app] in A. now inversion A.
Defined.

(* ================================================================= *)
(** ** What [set_properties] shows in a spinner *)

Lemma index_of_value_bound (v : pyval) (l : list pyval) (i : nat) :
  index_of_value v l = Some i -> i < List.length l.
Proof.
  revert i. induction l as [|y r IH]; intros i H; cbn in H; [discriminate|].
  destruct (py_eq y v).
  - inversion H. cbn. lia.
  - destruct (index_of_value v r) as [j|]; [|discriminate].
    inversion H. cbn. specialize (IH j eq_refl). lia.
Qed.

Lemma index_of_value_hit (v : pyval) (l : list pyval) (i : nat) :
  index_of_value v l = Some i ->
  exists y, nth_error l i = Some y /\ py_eq y v = true.
Proof.
  revert i. induction l as [|y r IH]; intros i H; cbn in H; [discriminate|].
  destruct (py_eq y v) eqn:E.
  - inversion H. now exists y.
  - destruct (index_of_value v r) as [j|]; [|discriminate].
    inversion H. cbn. now apply IH.
Qed.

(** X23.  A spinner bound to a stored setting shows the label at the
    place where the stored value first occurs among its reference
    values, and its first label when the value is not among them; with
    at least as many labels as reference values, and one label at least,
    [set_properties] cannot fail on it.  Without labels it raises
    [IndexError]: the bare [except] covers the search only. *)
Theorem spinner_shows_one_of_its_labels
  (repr_value : pyval -> string) (values : list string)
  (value_refs : list pyval) (text key : string) (w : world) (v : pyval) :
  key <> "" ->
  lookup_path key (config w) = Some v ->
  (values <> [] ->
   List.length value_refs <= List.length values ->
   exists t,
     set_properties repr_value
       (Widget (LabelledSpinner values value_refs text) key []) w
     = (Return (Widget (LabelledSpinner values value_refs t) key []), w)
     /\ In t values
     /\ match index_of_value v value_refs with
        | Some i => nth_error values i = Some t
                    /\ exists y, nth_error value_refs i = Some y
                                 /\ py_eq y v = true
        | None => nth_error values 0 = Some t
        end)
  /\ (values = [] ->
      set_properties repr_value
        (Widget (LabelledSpinner values value_refs text) key []) w
      = (Raise (IndexError "list index out of range"), w)).
Proof.
  intros Hk Hv.
  assert (E : set_properties repr_value
                (Widget (LabelledSpinner values value_refs text) key []) w
              = match show_value repr_value
                        (LabelledSpinner values value_refs text) v with
                | Return c => (Return (Widget c key []), w)
                | Raise e => (Raise e, w)
                end).
  { cbn [set_properties is_bound].
    destruct (String.eqb_spec key "") as [|_]; [contradiction|]. cbn [negb].
    unfold bind, lift, ret. rewrite (get_setting_found _ _ _ Hv).
    cbn [fst]. now destruct (show_value _ _ v). }
  rewrite E. cbn [show_value]. split.
  - intros Hn Hl.
    destruct (index_of_value v value_refs) as [i|] eqn:I.
    + pose proof (index_of_value_bound _ _ _ I) as B.
      destruct (nth_error values i) as [t|] eqn:N.
      * exists t. split; [reflexivity|]. split; [now apply nth_error_In in N|].
        split; [reflexivity|]. now apply index_of_value_hit.
      * apply nth_error_None in N. lia.
    + destruct values as [|t r]; [contradiction|].
      exists t. cbn. split; [reflexivity|]. split; [now left | reflexivity].
  - intros ->. now destruct (index_of_value v value_refs) as [[|i]|].
Qed.

Lemma spinner_shows_one_of_its_labels_witness :
  set_properties (fun _ => "")
    (Widget (LabelledSpinner ["one"; "many"] [VInt 1; VInt 100] "") 
       "engine/visits" [])
    (mkWorld visits_store true [])
  = (Return
       (Widget (LabelledSpinner ["one"; "many"] [VInt 1; VInt 100] "many")
          "engine/visits" []),
     mkWorld visits_store true []).
Proof.
  destruct (proj1 (spinner_shows_one_of_its_labels (fun _ => "")
                     ["one"; "many"] [VInt 1; VInt 100] "" "engine/visits"
                     (mkWorld visits_store true []) (VInt 100)
                     ltac:(discriminate) eq_refl)
              ltac:(discriminate) (le_n 2))
    as (t & S & _ & N).
  cbn in N. destruct N as [N _]. inversion N; subst. exact S.
Defined.

(* ================================================================= *)
(** ** The two ways of storing a setting *)

(** X24.  [QuickConfigGui.update_config] creates the setting a field is
    bound to when the configuration lacks it: the missing setting is
    logged as an error, the value of the field is stored under it and
    the setting is reported as updated, unless the field reads as the
    empty text the setting was created with. *)
Theorem QuickConfigGui_update_config_creates_a_missing_setting
  (cls : widget_class) (key : string) (v : pyval) (w : world)
  (has_popup save_to_file : bool) :
  is_bound cls key = true ->
  input_value cls = Return v ->
  maps_along (removelast (Str.split "/" key)) (config w) = true ->
  lookup_path key (config w) = None ->
  py_ne v (VStr "") = true ->
  exists w',
    QuickConfigGui.update_config (Widget cls key []) has_popup save_to_file w
    = (Return [key], w')
    /\ lookup_path key (config w') = Some v
    /\ trace w'
       = (trace w
          ++ [Log (MsgSettingMissing key) (Some OUTPUT_ERROR);
              Log (MsgUpdatingSetting key v) (Some OUTPUT_DEBUG)]
          ++ (if save_to_file then [SaveConfig] else [])
          ++ [UpdateState false]
          ++ (if has_popup then [PopupDismiss] else []))%list.
Proof.
  intros B V M L N.
  destruct (get_setting_in_heals _ (last (Str.split "/" key) "") _ M)
    as (v0 & c' & cr & G & R & K).
  unfold lookup_path in L. rewrite L in K. destruct K as [-> ->].
  exists (mkWorld
            (store_at (removelast (Str.split "/" key))
               (last (Str.split "/" key) "") v c')
            (katago_process w)
            (trace w
             ++ [Log (MsgSettingMissing key) (Some OUTPUT_ERROR);
                 Log (MsgUpdatingSetting key v) (Some OUTPUT_DEBUG)]
             ++ (if save_to_file then [SaveConfig] else [])
             ++ [UpdateState false]
             ++ (if has_popup then [PopupDismiss] else []))%list).
  split; [|split; [|reflexivity]].
  - unfold QuickConfigGui.update_config. unfold bind at 1, lift.
    rewrite collect_leaf. unfold own_property. rewrite B, V.
    unfold bind at 1. cbn [QuickConfigGui.apply_collected].
    unfold bind at 1. unfold get_setting. rewrite G, N.
    unfold bind at 1, emit at 1. unfold bind at 1, set_through at 1.
    cbn [config katago_process trace]. unfold ret at 1.
    unfold set_add. cbn [List.existsb app nonempty].
    destruct save_to_file, has_popup;
      unfold when, bind, emit, ret; cbn [config katago_process trace];
      rewrite <- ?app_assoc; reflexivity.
  - cbn [config]. apply lookup_in_store_at. congruence.
Qed.

Lemma QuickConfigGui_update_config_creates_a_missing_setting_witness :
  exists w',
    QuickConfigGui.update_config
      (Widget (LabelledIntInput "4") "engine/threads" []) false false
      (mkWorld visits_store true [])
    = (Return ["engine/threads"], w')
    /\ lookup_path "engine/threads" (config w') = Some (VInt 4).
Proof.
  destruct (QuickConfigGui_update_config_creates_a_missing_setting
              (LabelledIntInput "4") "engine/threads" (VInt 4)
              (mkWorld visits_store true []) false false
              eq_refl eq_refl eq_refl eq_refl eq_refl)
    as (w' & U & L & _).
  exists w'. split; [exact U | exact L].
Defined.

Lemma float_eqb_sym (x y : pyfloat) : float_eqb x y = float_eqb y x.
Proof.
  destruct x as [|a|p], y as [|b|q]; cbn; try reflexivity.
  - now destruct a, b.
  - destruct (Qeq_bool p q) eqn:E, (Qeq_bool q p) eqn:F; try reflexivity.
    + apply Qeq_bool_iff, Qeq_sym, Qeq_bool_iff in E. congruence.
    + apply Qeq_bool_iff, Qeq_sym, Qeq_bool_iff in F. congruence.
Qed.

Lemma py_eq_scalar_sym (v x : pyval) :
  scalar v = true -> py_eq v x = py_eq x v.
Proof.
  intros S.
  destruct v as [|b|z|f|s|l|d]; try discriminate;
    destruct x as [|b'|z'|f'|s'|l'|d']; cbn [py_eq num_of];
    try reflexivity; try apply float_eqb_sym.
  apply String.eqb_sym.
Qed.

Lemma lookup_two_levels (k1 k2 : string) (c v0 : pyval) :
  lookup_in [k1] k2 c = Some v0 ->
  exists d cat, c = VDict d /\ assoc k1 d = Some (VDict cat)
                /\ assoc k2 cat = Some v0.
Proof.
  destruct c as [| | | | | |d]; try discriminate. cbn [lookup_in].
  destruct (assoc k1 d) as [[| | | | | |cat]|] eqn:A; try discriminate.
  intros H. now exists d, cat.
Qed.

Lemma lookup_two_levels_stored (k1 k2 a b : string) (d cat : dict)
  (v v0 : pyval) :
  assoc a d = Some (VDict cat) ->
  lookup_in [k1] k2 (VDict d) = Some v0 ->
  exists v1,
    lookup_in [k1] k2
      (VDict (assoc_set a (VDict (assoc_set b v cat)) d)) = Some v1.
Proof.
  intros A L. cbn [lookup_in] in *.
  destruct (String.eqb_spec k1 a) as [->|N].
  - rewrite assoc_set_same. rewrite A in L.
    destruct (String.eqb_spec k2 b) as [->|N2].
    + rewrite assoc_set_same. now exists v.
    + rewrite (assoc_set_other _ _ _ _ N2). now exists v0.
  - rewrite (assoc_set_other _ _ _ _ N). now exists v0.
Qed.

Lemma QuickConfigGui_apply_collected_found (k : string) (v v0 : pyval)
  (rest : dict) (updated : list string) (w : world) :
  lookup_path k (config w) = Some v0 ->
  QuickConfigGui.apply_collected ((k, v) :: rest) updated w
  = if py_ne v v0
    then QuickConfigGui.apply_collected rest (set_add k updated)
           (mkWorld
              (store_at (removelast (Str.split "/" k))
                 (last (Str.split "/" k) "") v (config w))
              (katago_process w)
              (trace w ++ [Log (MsgUpdatingSetting k v) (Some OUTPUT_DEBUG)]))
    else QuickConfigGui.apply_collected rest updated w.
Proof.
  intros P. cbn [QuickConfigGui.apply_collected]. unfold bind at 1.
  rewrite (get_setting_found _ _ _ P).
  destruct (py_ne v v0); reflexivity.
Qed.

Lemma ConfigPopup_apply_collected_found (k k1 k2 : string) (v v0 : pyval)
  (rest d cat : dict) (updated_cat : list (string * list string))
  (w : world) :
  Str.split "/" k = [k1; k2] ->
  config w = VDict d ->
  assoc k1 d = Some (VDict cat) ->
  assoc k2 cat = Some v0 ->
  ConfigPopup.apply_collected ((k, v) :: rest) updated_cat w
  = if py_ne v0 v
    then ConfigPopup.apply_collected rest
           (ConfigPopup.defaultdict_append k1 k2 updated_cat)
           (mkWorld
              (VDict (assoc_set k1 (VDict (assoc_set k2 v cat)) d))
              (katago_process w)
              (trace w ++ [Log (MsgUpdatingSetting k v) (Some OUTPUT_DEBUG)]))
    else ConfigPopup.apply_collected rest updated_cat w.
Proof.
  intros S Ec A1 A2. cbn [ConfigPopup.apply_collected]. rewrite S.
  unfold bind at 1, read_config at 1. unfold bind at 1, lift at 1.
  rewrite Ec. cbn [getitem_str]. rewrite A1.
  unfold bind at 1, lift at 1. cbn [getitem_str]. rewrite A2.
  destruct (py_ne v0 v); [|reflexivity].
  unfold bind at 1, emit at 1. unfold bind at 1, lift at 1.
  cbn [setitem_str]. unfold bind at 1, lift at 1.
  unfold bind at 1, write_config at 1. reflexivity.
Qed.

(** X25.  On settings the configuration holds, two levels down, the
    loop of [ConfigPopup.update_config] is the loop of
    [QuickConfigGui.update_config]: for values that are neither lists
    nor dictionaries both return, and they leave the same configuration
    and the same log. *)
Theorem ConfigPopup_loop_stores_as_QuickConfigGui_does (items : dict) :
  forall (w : world) (updated : list string)
         (updated_cat : list (string * list string)),
    Forall (fun kv => scalar (snd kv) = true
                      /\ exists k1 k2 v0,
                          Str.split "/" (fst kv) = [k1; k2]
                          /\ lookup_in [k1] k2 (config w) = Some v0)
      items ->
    exists updated' updated_cat' w',
      QuickConfigGui.apply_collected items updated w = (Return updated', w')
      /\ ConfigPopup.apply_collected items updated_cat w
         = (Return updated_cat', w').
Proof.
  induction items as [|[k v] rest IH]; intros w updated updated_cat F.
  - now exists updated, updated_cat, w.
  - inversion F as [|x r [Sc (k1 & k2 & v0 & S & L)] Fr]; subst.
    cbn [fst snd] in Sc, S, L.
    destruct (lookup_two_levels _ _ _ _ L) as (d & cat & Ec & A1 & A2).
    assert (P : lookup_path k (config w) = Some v0).
    { unfold lookup_path. now rewrite S. }
    rewrite (QuickConfigGui_apply_collected_found _ _ _ _ _ _ P).
    rewrite (ConfigPopup_apply_collected_found _ _ _ _ _ _ _ _ _ _
               S Ec A1 A2).
    unfold py_ne. rewrite (py_eq_scalar_sym v v0 Sc).
    destruct (py_eq v0 v); cbn [negb]; [now apply IH|].
    rewrite S, Ec. cbn [removelast last store_at]. rewrite A1.
    cbn [store_at].
    apply IH. cbn [config].
    apply Forall_forall. intros [k' v'] I.
    rewrite Forall_forall in Fr.
    destruct (Fr _ I) as [Sc' (a & b & v1 & S' & L')].
    split; [exact Sc'|]. exists a, b. cbn [fst] in *.
    rewrite Ec in L'.
    destruct (lookup_two_levels_stored a b k1 k2 d cat v v1 A1 L')
      as [v2 L2].
    now exists v2.
Qed.

Lemma ConfigPopup_loop_stores_as_QuickConfigGui_does_witness :
  exists updated' updated_cat' w',
    QuickConfigGui.apply_collected
      [("engine/visits", VInt 150); ("debug/level", VInt 1)] []
      (mkWorld visits_store true [])
    = (Return updated', w')
    /\ ConfigPopup.apply_collected
         [("engine/visits", VInt 150); ("debug/level", VInt 1)] []
         (mkWorld visits_store true [])
       = (Return updated_cat', w').
Proof.
  apply (ConfigPopup_loop_stores_as_QuickConfigGui_does
           [("engine/visits", VInt 150); ("debug/level", VInt 1)]
           (mkWorld visits_store true []) [] []).
  apply Forall_cons; [|apply Forall_cons; [|apply Forall_nil]].
  - split; [reflexivity|]. exists "engine", "visits", (VInt 100).
    split; reflexivity.
  - split; [reflexivity|]. exists "debug", "level", (VInt 1).
    split; reflexivity.
Defined.
